(** * DUT face-recognition attendance server: a shallow embedding of
  [server/app.py] and the properties of its specification.

  Every definition below follows one function of [server/app.py]; the
  external services (the hosted data store, the vision model, the mail
  relay, the wall clock) appear as explicit arguments: table contents,
  query answers and clock readings. *)

From Stdlib Require Import ZArith Lia Floats Ascii.
From stdpp Require Import base option list strings pretty gmap.

Local Open Scope Z_scope.

(** ** Python's [datetime] values

  All aware datetimes of the program live in the zone Africa/Johannesburg,
  whose offset is fixed, so a datetime is kept as the number of
  microseconds since 0001-01-01T00:00:00 on that wall clock; differences of
  such numbers are [timedelta]s. *)
Module PyTime.

Abbreviation datetime := Z (only parsing).
Abbreviation timedelta := Z (only parsing).
(** days since 0001-01-01, that is [date.toordinal() - 1] *)
Abbreviation date := Z (only parsing).
(** a naive time of day: microseconds since midnight *)
Abbreviation time := Z (only parsing).

Definition us_per_second : Z := 1000000.
Definition us_per_day : Z := 86400 * us_per_second.

(** [timedelta(seconds=n)] and [timedelta(minutes=n)] *)
Definition seconds (n : Z) : timedelta := n * us_per_second.
Definition minutes (n : Z) : timedelta := n * 60 * us_per_second.

(** [datetime.date()], [datetime.time()], [datetime.combine(d, t)] *)
Definition dt_date (d : datetime) : date := d / us_per_day.
Definition dt_time (d : datetime) : time := d mod us_per_day.
Definition combine (d : date) (t : time) : datetime := d * us_per_day + t.

(** [date.weekday()]: Monday is 0; CPython computes
    [(toordinal() + 6) % 7]. *)
Definition weekday (d : date) : Z := d mod 7.

(** [time(h, m, s)] *)
Definition mk_time (h m s : Z) : time := seconds ((h * 60 + m) * 60 + s).

(** [timedelta.seconds]: the seconds field of the normalised triple
    (days, seconds, microseconds), always in 0..86399. *)
Definition td_seconds (td : timedelta) : Z :=
  (td mod us_per_day) / us_per_second.

(** [datetime.replace(hour=0, minute=0, second=0, microsecond=0)] *)
Definition start_of_day (d : datetime) : datetime := dt_date d * us_per_day.

End PyTime.
Import PyTime.

(** ** The time machine: [system_time_settings] and [get_system_time] *)
Module TimeMachine.

(** the process-wide cache [system_time_settings] *)
Record settings := Settings {
  override_enabled : bool;
  simulated_start_time : option datetime;
  real_time_at_set : option datetime;
  last_checked : option datetime
}.

Definition initial_settings : settings :=
  Settings false None None None.

(** What [system_settings.select('*').eq('id', 1).single().execute()]
    does when it is asked: it raises, it answers without data, or it
    answers with the row (the flag and the parsed [simulated_datetime]). *)
Inductive fetch_result :=
| FetchRaise
| FetchNoData
| FetchRow (new_override_status : bool) (new_sim_time : option datetime).

(** the guard of line 77 *)
Definition cache_stale (s : settings) (real_now : datetime) : bool :=
  match last_checked s with
  | None => true
  | Some lc => bool_decide (td_seconds (real_now - lc) > 10)
  end.

(** the body of the [try] of lines 78-96 *)
Definition refresh (s : settings) (real_now : datetime) (res : fetch_result)
  : settings :=
  match res with
  | FetchRow new_override_status new_sim_time =>
      let changed :=
        bool_decide (simulated_start_time s ≠ new_sim_time)
        || bool_decide (override_enabled s ≠ new_override_status) in
      let s1 :=
        if changed
        then Settings (override_enabled s) new_sim_time (Some real_now)
                      (last_checked s)
        else s in
      Settings new_override_status (simulated_start_time s1)
               (real_time_at_set s1) (Some real_now)
  | FetchNoData =>
      Settings (override_enabled s) (simulated_start_time s)
               (real_time_at_set s) (Some real_now)
  | FetchRaise =>
      Settings false (simulated_start_time s) (real_time_at_set s)
               (last_checked s)
  end.

(** the value returned at lines 98-105 *)
Definition current_time (s : settings) (real_now : datetime) : datetime :=
  match override_enabled s, simulated_start_time s, real_time_at_set s with
  | true, Some sim_start, Some pinned =>
      let real_time_elapsed := real_now - pinned in
      sim_start + real_time_elapsed
  | _, _, _ => real_now
  end.

Record outcome := Outcome {
  returned : datetime;
  cache : settings;
  (** how many times the store was read by this call *)
  store_reads : nat
}.

(** [get_system_time()], at wall-clock reading [real_now]; [res] is the
    answer the store gives if it is asked. *)
Definition get_system_time (s : settings) (real_now : datetime)
    (res : fetch_result) : outcome :=
  if cache_stale s real_now
  then let s' := refresh s real_now res in
       Outcome (current_time s' real_now) s' 1
  else Outcome (current_time s real_now) s 0.

(** The POST branch of [api_system_time_control] on the cache; the two
    readings are the two [datetime.now] calls of lines 1841 and 1844. *)
Definition api_system_time_control_post (s : settings)
    (data_override_enabled : bool) (data_simulated_datetime : option datetime)
    (now_pin now_checked : datetime) : settings :=
  let s1 :=
    match data_simulated_datetime with
    | Some sim =>
        Settings data_override_enabled (Some sim) (Some now_pin)
                 (last_checked s)
    | None =>
        Settings data_override_enabled (simulated_start_time s)
                 (real_time_at_set s) (last_checked s)
    end in
  Settings (override_enabled s1) (simulated_start_time s1)
           (real_time_at_set s1) (Some now_checked).

(** a run of successive calls, each with its clock reading and the store's
    answer; the values returned, in order *)
Fixpoint run_calls (s : settings) (calls : list (datetime * fetch_result))
  : list datetime :=
  match calls with
  | [] => []
  | (real_now, res) :: rest =>
      let o := get_system_time s real_now res in
      returned o :: run_calls (cache o) rest
  end.

(** the cache holds an enabled override with start [S] pinned at [R0] *)
Definition pinned (S R0 : datetime) (s : settings) : Prop :=
  override_enabled s = true
  ∧ simulated_start_time s = Some S
  ∧ real_time_at_set s = Some R0.

End TimeMachine.

(** ** Rows of the hosted store's tables, as the program reads and writes
  them *)
Module Store.

(** [attendance_records.status] *)
Inductive status := present | absent.

#[global] Instance status_eq_dec : EqDecision status.
Proof. solve_decision. Defined.

Record attendance_record := AttendanceRecord {
  ar_student_id : string;
  ar_module_id : Z;
  ar_status : status;
  (** a point on the store's time line, in microseconds *)
  ar_created_at : Z
}.

Record student := Student {
  st_id : string;
  st_full_name : string;
  st_email : option string;
  st_module_code : string
}.

(** a [class_timetable] row; the two times are the column's text
    [HH:MM:SS], kept as its three numbers *)
Record session := Session {
  se_id : Z;
  se_module_id : Z;
  se_day_of_week : Z;
  se_start_time : Z * Z * Z;
  se_end_time : Z * Z * Z
}.

#[global] Instance session_eq_dec : EqDecision session.
Proof. solve_decision. Defined.

(** a [lecture_schedules] row with its join [modules(module_code)], which
    is null when the module row is missing *)
Record lecture := Lecture {
  le_lecture_date : date;
  le_module_id : Z;
  le_modules : option string
}.

(** a [modules] row with its join [lecturers(full_name)] *)
Record module_row := ModuleRow {
  mo_id : Z;
  mo_module_code : string;
  mo_lecturers : option string
}.

Record at_risk_warning := AtRiskWarning {
  aw_student_id : string;
  aw_module_id : Z;
  aw_warning_level : Z;
  aw_total_absences_at_warning : Z
}.

(** [.single().execute()]: the store answers with an error, which the
    client raises, unless exactly one row is selected *)
Definition single {A} (rows : list A) : option A :=
  match rows with
  | [row] => Some row
  | _ => None
  end.

(** The store reads an aware ISO string as the instant it denotes, and a
    naive one ([YYYY-MM-DDTHH:MM:SS], or a bare date, which is midnight)
    in its session time zone; [session_zone] is what that adds on the
    time line of this development. *)
Definition naive_timestamp (session_zone : Z) (d : date) (t : time) : Z :=
  combine d t + session_zone.

End Store.
Import Store.

(** ** The attendance window: [get_current_class_session] *)
Module Timetable.

(** [datetime.strptime(text, '%H:%M:%S').time()]; [None] stands for the
    [ValueError] raised on a field out of range *)
Definition strptime_HMS (text : Z * Z * Z) : option time :=
  let '(h, m, s) := text in
  if bool_decide (0 ≤ h ≤ 23 ∧ 0 ≤ m ≤ 59 ∧ 0 ≤ s ≤ 59)
  then Some (mk_time h m s)
  else None.

(** lines 290-291; [today] is the date of a fresh clock reading *)
Definition attendance_end_time (today : date) (start_time : time) : time :=
  dt_time (combine today start_time + minutes 30).

(** the test of line 292 *)
Definition window_open (today : date) (start_time current_time : time)
  : bool :=
  bool_decide (start_time ≤ current_time)
  && bool_decide (current_time ≤ attendance_end_time today start_time).

(** The loop of lines 287-294. [later i] is the clock reading of the
    [get_system_time()] call in iteration [i]; an exception ends the
    function with [None] (line 297). *)
Fixpoint scan_sessions (data : list session) (current_time : time)
    (later : nat → datetime) (i : nat) : option session :=
  match data with
  | [] => None
  | session :: rest =>
      match strptime_HMS (se_start_time session) with
      | None => None
      | Some start_time =>
          if window_open (dt_date (later i)) start_time current_time
          then Some session
          else scan_sessions rest current_time later (S i)
      end
  end.

(** [get_current_class_session()]; [now] is the reading of line 279 *)
Definition get_current_class_session (class_timetable : list session)
    (now : datetime) (later : nat → datetime) : option session :=
  let day_of_week := weekday (dt_date now) + 1 in
  let current_time := dt_time now in
  let data :=
    filter (λ s, se_day_of_week s = day_of_week) class_timetable in
  match data with
  | [] => None
  | _ => scan_sessions data current_time later 0
  end.

(** the row's text is a time of day [T'] and [current_time] lies outside
    the half hour that starts at [T'] *)
Definition outside_window (current_time : time) (r : session) : Prop :=
  ∃ T', strptime_HMS (se_start_time r) = Some T'
        ∧ ¬ (T' ≤ current_time ≤ T' + minutes 30).

(** the window of the row contains [current_time]: the row's text is a time
    of day [T'] and [current_time] lies in the half hour that starts at
    [T']; a row whose text is no time of day has no window *)
Definition window_contains (current_time : time) (r : session) : Prop :=
  ∃ T', strptime_HMS (se_start_time r) = Some T'
        ∧ T' ≤ current_time ≤ T' + minutes 30.

End Timetable.
Import Timetable.

(** ** Face embedding and [api_mark_attendance] *)
Module Attendance.

(** an HTTP answer: the body and the status code. [ErrorBody] and
    [MarkedBody] are the JSON objects the route makes; [ErrorPage] is the
    page the framework makes when the route is aborted or raises outside
    its [try]. *)
Inductive body :=
| ErrorBody (error : string)
| MarkedBody (message full_name : string)
| ErrorPage.

(** What [request.get_json()] and the lines 1012-1015 find in the request
    (Flask 2.1 and later):
    - [NotJson]: the content type is not JSON, [get_json] aborts the
      request with 415;
    - [BadJson]: the body does not parse, [get_json] aborts the request
      with 400;
    - [Scalar]: the body is a number other than zero or [true]; it is
      truthy and the test ['image_data' not in data] raises [TypeError]
      outside the [try];
    - [NoImageData]: the body is falsy ([null], [false], zero, an empty
      string, array or object), or it is an object, an array or a string
      that holds no [image_data];
    - [NoSplit]: [image_data] is found in the body, but
      [data['image_data'].split] raises: the body is an array or a string,
      or the value under the key is no string;
    - [ImageData s]: the body is an object whose [image_data] is the
      string [s]. *)
Inductive request_json :=
| NotJson
| BadJson
| Scalar
| NoImageData
| NoSplit
| ImageData (s : string).

Definition response : Type := body * Z.

(** [s.split(",", 1)] unpacked into two names: the text before the first
    comma and the text after it; [None] stands for the [ValueError] of
    unpacking a single piece *)
Fixpoint split_comma (s : string) : option (string * string) :=
  match s with
  | EmptyString => None
  | String c rest =>
      if bool_decide (c = ","%char) then Some (EmptyString, rest)
      else match split_comma rest with
           | Some (header, encoded) => Some (String c header, encoded)
           | None => None
           end
  end.

Section Services.

(** a decoded picture (a numpy array, or cv2's [None]) *)
Variable image : Type.

(** [cv2.imdecode(np.frombuffer(base64.b64decode(encoded), ...), ...)];
    [None] stands for an exception *)
Variable decode_image : string → option image.

(** [DeepFace.represent(img_path=image, ..., enforce_detection=strict,
    align=True)]: the embeddings of the faces found; [None] stands for an
    exception *)
Variable represent : image → bool → option (list (list float)).

(** the remote procedure [match_student] with threshold 0.62: the matching
    students, best first, as (id, full_name); [None] stands for an
    exception *)
Variable match_student : list float → option (list (string * string)).

(** [get_face_embedding(image)] *)
Definition get_face_embedding (img : image) : option (list float) :=
  match represent img true with
  | Some embedding_objs => head embedding_objs
  | None =>
      match represent img false with
      | Some embedding_objs => head embedding_objs
      | None => None
      end
  end.

(** Python's truth value of [embedding] *)
Definition truthy_embedding (embedding : option (list float)) : bool :=
  match embedding with
  | Some (_ :: _) => true
  | _ => false
  end.

(** the query of lines 1034-1035: rows of the student in the module created
    at or after [today_start], whatever their status *)
Definition existing_record (attendance_records : list attendance_record)
    (student_id : string) (module_id : Z) (today_start : datetime)
  : list attendance_record :=
  filter (λ r, ar_student_id r = student_id ∧ ar_module_id r = module_id
               ∧ today_start ≤ ar_created_at r) attendance_records.

Definition server_error : response :=
  (ErrorBody "An unexpected server error occurred.", 500).

(** the clock readings and flags one request sees *)
Record clock := Clock {
  (** the reading of [get_current_class_session] (line 279) and those of
      its loop *)
  now_session : datetime;
  later_session : nat → datetime;
  (** the reading of line 1032 *)
  now_check : datetime;
  (** [system_time_settings['override_enabled']] at line 1041 and the
      reading of line 1042 *)
  override_enabled : bool;
  now_stamp : datetime;
  (** the store's own clock, its default for [created_at] *)
  store_now : datetime
}.

(** lines 1041-1042: the simulated time is stamped on the record when the
    override is on; otherwise the store fills in its own clock *)
Definition created_at (clk : clock) : datetime :=
  if override_enabled clk then now_stamp clk else store_now clk.

(** [api_mark_attendance()]: the answer and the table afterwards *)
Definition api_mark_attendance (class_timetable : list session)
    (attendance_records : list attendance_record) (clk : clock)
    (data : request_json) : response * list attendance_record :=
  match get_current_class_session class_timetable (now_session clk)
          (later_session clk) with
  | None =>
      ((ErrorBody "The attendance window for this class is not open.", 403),
       attendance_records)
  | Some active_class =>
  match data with
  | NotJson => ((ErrorPage, 415), attendance_records)
  | BadJson => ((ErrorPage, 400), attendance_records)
  | Scalar => ((ErrorPage, 500), attendance_records)
  | NoImageData =>
      ((ErrorBody "No image data provided.", 400), attendance_records)
  | NoSplit => (server_error, attendance_records)
  | ImageData image_data =>
  match split_comma image_data with
  | None => (server_error, attendance_records)
  | Some (header, encoded) =>
  match decode_image encoded with
  | None => (server_error, attendance_records)
  | Some live_image =>
  let embedding := get_face_embedding live_image in
  if negb (truthy_embedding embedding)
  then ((ErrorBody "No face could be detected in the image.", 400),
        attendance_records)
  else
  match match_student (default [] embedding) with
  | None => (server_error, attendance_records)
  | Some [] => ((ErrorBody "Face not recognized.", 404), attendance_records)
  | Some ((student_id, full_name) :: _) =>
  let today_start := start_of_day (now_check clk) in
  if bool_decide
       (0 < length (existing_record attendance_records student_id
                      (se_module_id active_class) today_start))%nat
  then ((ErrorBody
           (full_name +:+ " has already been marked present for this class."),
         409), attendance_records)
  else
    let attendance_record :=
      AttendanceRecord student_id (se_module_id active_class) present
                       (created_at clk) in
    ((MarkedBody ("Attendance marked for " +:+ full_name +:+ "!") full_name,
      200),
     attendance_records ++ [attendance_record])
  end end end end end.

(** the request finds the window of [active_class] open, its capture
    yields an embedding, and the best match is the student [student_id]
    named [full_name]: lines 1007-1030 go through *)
Definition resolves_to (class_timetable : list session) (clk : clock)
    (image_data : string) (active_class : session)
    (student_id full_name : string) : Prop :=
  get_current_class_session class_timetable (now_session clk)
    (later_session clk) = Some active_class
  ∧ ∃ header encoded live_image embedding others,
      split_comma image_data = Some (header, encoded)
      ∧ decode_image encoded = Some live_image
      ∧ get_face_embedding live_image = Some embedding
      ∧ embedding ≠ []
      ∧ match_student embedding = Some ((student_id, full_name) :: others).

End Services.

End Attendance.

(** ** The startup backfill: [backfill_missed_attendance] *)
Module Backfill.

Section Zone.

Variable session_zone : Z.

(** the query of lines 325-331: rows of the module created between
    [T00:00:00] and [T23:59:59] of the lecture date *)
Definition records_exist (attendance_records : list attendance_record)
    (module_id : Z) (lecture_date : date) : list attendance_record :=
  filter (λ r, ar_module_id r = module_id
               ∧ naive_timestamp session_zone lecture_date (mk_time 0 0 0)
                 ≤ ar_created_at r
               ∧ ar_created_at r
                 ≤ naive_timestamp session_zone lecture_date
                     (mk_time 23 59 59))
         attendance_records.

(** the query of lines 339-340 *)
Definition enrolled_students (students : list student) (module_code : string)
  : list student :=
  filter (λ s, st_module_code s = module_code) students.

(** lines 348-356 *)
Definition absent_records_to_insert (enrolled : list student) (module_id : Z)
    (lecture_date : date) : list attendance_record :=
  map (λ student,
         AttendanceRecord (st_id student) module_id absent
           (naive_timestamp session_zone lecture_date (mk_time 17 0 0)))
      enrolled.

(** The loop of lines 318-365 over the table; subscripting a null
    [modules] join raises, and the handler of line 367 ends the run with
    what was inserted so far. *)
Fixpoint backfill_loop (students : list student) (lectures : list lecture)
    (attendance_records : list attendance_record)
  : list attendance_record :=
  match lectures with
  | [] => attendance_records
  | lecture :: rest =>
      match le_modules lecture with
      | None => attendance_records
      | Some module_code =>
          let lecture_date := le_lecture_date lecture in
          let module_id := le_module_id lecture in
          if bool_decide
               (length (records_exist attendance_records module_id
                          lecture_date) = 0%nat)
          then
            match enrolled_students students module_code with
            | [] => backfill_loop students rest attendance_records
            | enrolled =>
                backfill_loop students rest
                  (attendance_records
                   ++ absent_records_to_insert enrolled module_id
                        lecture_date)
            end
          else backfill_loop students rest attendance_records
      end
  end.

(** [backfill_missed_attendance()]: the table [attendance_records]
    afterwards; [today] is the date of the clock reading of line 307 *)
Definition backfill_missed_attendance (today : date)
    (lecture_schedules : list lecture) (students : list student)
    (attendance_records : list attendance_record)
  : list attendance_record :=
  let past_lectures :=
    filter (λ l, le_lecture_date l < today) lecture_schedules in
  match past_lectures with
  | [] => attendance_records
  | _ => backfill_loop students past_lectures attendance_records
  end.

End Zone.

End Backfill.

(** ** E-mail messages *)
Module Mail.

Record email := Email {
  recipient : option string;
  subject : string;
  body : string
}.

(** the line feed of the message templates *)
Definition nl : string := String "010"%char EmptyString.

End Mail.
Import Mail.

(** ** The automatic at-risk trigger: [check_and_send_at_risk_warning] *)
Module AtRisk.

Definition thresholds : list Z := [16; 18; 21].

Definition TOTAL_SEMESTER_CLASSES : Z := 50.

(** [current_mark] printed with [.0f]. The mark is
    [present_count / 50 * 100] in floating point, whose exact value
    [2 * present_count] is a whole number; the rounding to no decimals
    prints that number. *)
Definition current_mark_text (total_absences : Z) : string :=
  let present_count := TOTAL_SEMESTER_CLASSES - total_absences in
  pretty (present_count * 100 / TOTAL_SEMESTER_CLASSES).

(** lines 218-256: the subject and the body for a threshold; [None] stands
    for the unbound names of a threshold without a template *)
Definition template (threshold total_absences : Z)
    (student_name module_code lecturer_name : string)
  : option (string * string) :=
  let mark := current_mark_text total_absences in
  let missed := pretty total_absences in
  if bool_decide (threshold = 16) then
    Some ("Check-in: We miss you in " +:+ module_code,
          "Hi " +:+ student_name +:+ "," +:+ nl +:+ nl
          +:+ "I wanted to reach out because I've noticed you've missed " +:+ missed +:+ " classes in " +:+ module_code +:+ " so far this semester." +:+ nl +:+ nl
          +:+ "Your current attendance puts you at " +:+ mark +:+ "% for the module. You've dropped slightly below our 70% target, but you're still above the 60% pass threshold. However, if you miss 5 more classes, your mark will drop below 60% and you'll be at risk of failing." +:+ nl +:+ nl
          +:+ "I believe in your ability to succeed, and I'm here to support you. If there's anything affecting your attendance - whether it's personal challenges, academic struggles, or anything else - please don't hesitate to reach out to me." +:+ nl +:+ nl
          +:+ "You can also contact DUT Student Counselling confidentially at: counselling@dut.ac.za" +:+ nl +:+ nl
          +:+ "Let's work together to get you back on track." +:+ nl +:+ nl
          +:+ "Best regards," +:+ nl +:+ lecturer_name)
  else if bool_decide (threshold = 18) then
    Some ("Urgent: Your attendance in " +:+ module_code +:+ " needs attention",
          "Hi " +:+ student_name +:+ "," +:+ nl +:+ nl
          +:+ "This is an important message about your progress in " +:+ module_code +:+ "." +:+ nl +:+ nl
          +:+ "You have now missed " +:+ missed +:+ " classes, which means your current mark is " +:+ mark +:+ "%. You are very close to falling below the 60% pass threshold." +:+ nl +:+ nl
          +:+ "If you miss just 3 more classes, you will fail the module. I'm reaching out because I want to help you avoid this outcome." +:+ nl +:+ nl
          +:+ "Please consider this a serious warning. I strongly encourage you to:" +:+ nl
          +:+ "- Attend all remaining classes" +:+ nl
          +:+ "- Meet with me to discuss any challenges you're facing" +:+ nl
          +:+ "- Reach out to Student Counselling if you need support: counselling@dut.ac.za" +:+ nl +:+ nl
          +:+ "It's not too late to turn things around, but you need to act now." +:+ nl +:+ nl
          +:+ "Sincerely," +:+ nl +:+ lecturer_name)
  else if bool_decide (threshold = 21) then
    Some ("CRITICAL: You are at risk of failing " +:+ module_code,
          "Hi " +:+ student_name +:+ "," +:+ nl +:+ nl
          +:+ "This is a critical notice regarding your enrollment in " +:+ module_code +:+ "." +:+ nl +:+ nl
          +:+ "You have missed " +:+ missed +:+ " classes, which means your current mark is " +:+ mark +:+ "% - below the 60% pass threshold. You are now at risk of failing this module." +:+ nl +:+ nl
          +:+ "This is an urgent situation that requires immediate action. I need you to:" +:+ nl +:+ nl
          +:+ "1. Contact me immediately to discuss your situation" +:+ nl
          +:+ "2. Attend every remaining class without exception" +:+ nl
          +:+ "3. Consider whether you may qualify for special consideration (illness, family emergency, etc.)" +:+ nl +:+ nl
          +:+ "If you're facing serious challenges that have affected your attendance, you may be able to submit a special consideration request through the system. Please reach out to me or Student Counselling (counselling@dut.ac.za) for guidance." +:+ nl +:+ nl
          +:+ "I want to help you succeed, but you must take action now." +:+ nl +:+ nl
          +:+ "Urgent regards," +:+ nl +:+ lecturer_name)
  else None.

(** What the function changes: the ledger table, and the calls of
    [send_email]. Each call is logged with the threshold of the loop turn
    that made it, the message, and what the call returned. *)
Record world := World {
  at_risk_warnings : list at_risk_warning;
  mail_log : list (Z * email * bool)
}.

Section Relay.

(** [send_email]: whether the relay accepted the message *)
Variable send_email : email → bool.

(** the query of lines 168-170, counted *)
Definition total_absences (attendance_records : list attendance_record)
    (student_id : string) (module_id : Z) : Z :=
  Z.of_nat (length (filter (λ r, ar_student_id r = student_id
                                 ∧ ar_module_id r = module_id
                                 ∧ ar_status r = absent)
                           attendance_records)).

(** the query of lines 180-184 *)
Definition existing_warning (ledger : list at_risk_warning)
    (student_id : string) (module_id threshold : Z) : list at_risk_warning :=
  filter (λ w, aw_student_id w = student_id ∧ aw_module_id w = module_id
               ∧ aw_warning_level w = threshold) ledger.

(** The loop of lines 177-271; an exception (a [single] that fails, a
    threshold without a template) ends the function at line 273 with what
    was done so far. *)
Fixpoint warning_loop (levels : list Z) (total : Z) (students : list student)
    (modules : list module_row) (student_id : string) (module_id : Z)
    (w : world) : world :=
  match levels with
  | [] => w
  | threshold :: rest =>
      let continue := warning_loop rest total students modules student_id
                        module_id in
      if bool_decide (total = threshold) then
        match existing_warning (at_risk_warnings w) student_id module_id
                threshold with
        | _ :: _ => continue w
        | [] =>
            match single (filter (λ s, st_id s = student_id) students) with
            | None => w
            | Some student_res =>
                match single (filter (λ m, mo_id m = module_id) modules) with
                | None => w
                | Some lecturer_res =>
                    let lecturer_name :=
                      default "Your Lecturer" (mo_lecturers lecturer_res) in
                    match template threshold total
                            (st_full_name student_res)
                            (st_module_code student_res) lecturer_name with
                    | None => w
                    | Some (subject, body) =>
                        let message :=
                          Email (st_email student_res) subject body in
                        let email_sent := send_email message in
                        let log :=
                          mail_log w ++ [(threshold, message, email_sent)] in
                        if email_sent
                        then continue
                               (World
                                  (at_risk_warnings w
                                   ++ [AtRiskWarning student_id module_id
                                         threshold total])
                                  log)
                        else continue (World (at_risk_warnings w) log)
                    end
                end
            end
        end
      else continue w
  end.

(** [check_and_send_at_risk_warning(student_id, module_id)] *)
Definition check_and_send_at_risk_warning
    (attendance_records : list attendance_record) (students : list student)
    (modules : list module_row) (student_id : string) (module_id : Z)
    (w : world) : world :=
  warning_loop thresholds
    (total_absences attendance_records student_id module_id)
    students modules student_id module_id w.

End Relay.

End AtRisk.

(** ** The weekly summary: [send_weekly_summary_emails] *)
Module Weekly.

(** a row of the bulk query of lines 590-596, with its join
    [students(full_name, email)] *)
Record weekly_record := WeeklyRecord {
  wr_status : status;
  wr_student_id : string;
  wr_students : option (string * option string)
}.

(** a value of the [defaultdict] of lines 602-603 *)
Record entry := Entry {
  present_count : Z;
  details : option (string * option string)
}.

Definition default_entry : entry := Entry 0 None.

(** [student_data[key]] followed by updates of the value found: a
    dictionary keeps its keys in the order they were first used, and a
    [defaultdict] makes the default value for a new key *)
Fixpoint update_item (student_data : list (string * entry)) (key : string)
    (f : entry → entry) : list (string * entry) :=
  match student_data with
  | [] => [(key, f default_entry)]
  | (k, e) :: rest =>
      if bool_decide (k = key) then (k, f e) :: rest
      else (k, e) :: update_item rest key f
  end.

(** one turn of the loop of lines 605-609 *)
Definition count_record (student_data : list (string * entry))
    (record : weekly_record) : list (string * entry) :=
  update_item student_data (wr_student_id record)
    (λ e, Entry (if bool_decide (wr_status record = present)
                 then present_count e + 1 else present_count e)
                (wr_students record)).

Definition count_records (weekly_records : list weekly_record)
  : list (string * entry) :=
  foldl count_record [] weekly_records.

Inductive group := perfect_attendance | zero_attendance.

#[global] Instance group_eq_dec : EqDecision group.
Proof. solve_decision. Defined.

(** one turn of the loop of lines 615-647: the list the student goes to,
    if any, and the message *)
Definition classify (total_lectures_this_week : Z)
    (module_code lecturer_name : string) (data : entry)
  : option (group * email) :=
  match details data with
  | None => None
  | Some (full_name, email) =>
      match email with
      | None | Some EmptyString => None
      | Some address =>
          if bool_decide (present_count data = total_lectures_this_week)
          then Some (perfect_attendance,
                     Email (Some address)
                       ("Great work in " +:+ module_code +:+ " last week!")
                       ("Hi " +:+ full_name +:+ "," +:+ nl +:+ nl
                        +:+ "Well done! My records show you attended all our " +:+ module_code +:+ " classes last week. "
                        +:+ "Your commitment is fantastic to see." +:+ nl +:+ nl
                        +:+ "Keep up the great work!" +:+ nl +:+ nl
                        +:+ "Best regards," +:+ nl +:+ lecturer_name))
          else if bool_decide (present_count data = 0)
          then Some (zero_attendance,
                     Email (Some address)
                       ("Checking in regarding " +:+ module_code)
                       ("Hi " +:+ full_name +:+ "," +:+ nl +:+ nl
                        +:+ "I noticed you were not in any of our " +:+ module_code +:+ " classes last week "
                        +:+ "and wanted to check in." +:+ nl +:+ nl
                        +:+ "We miss you in class. If you are facing any challenges, please know you don't have to go through them alone. "
                        +:+ "You can reply to this email to talk to me, or confidentially reach out to DUT Student Counselling for support at: counselling@dut.ac.za" +:+ nl +:+ nl
                        +:+ "I am here to help you succeed, so please let me know if there's anything I can do." +:+ nl +:+ nl
                        +:+ "Sincerely," +:+ nl +:+ lecturer_name))
          else None
      end
  end.

(** The students of one of the two lists with their messages, in the
    order of the dictionary. The program keeps the messages only
    ([group_list]); the student ids are kept here to tell whose message
    each one is. *)
Definition group_items (g : group) (total_lectures_this_week : Z)
    (module_code lecturer_name : string)
    (student_data : list (string * entry)) : list (string * email) :=
  omap (λ item,
          match classify total_lectures_this_week module_code lecturer_name
                  item.2 with
          | Some (g', message) =>
              if bool_decide (g' = g) then Some (item.1, message) else None
          | None => None
          end)
       student_data.

Definition group_list (g : group) (total_lectures_this_week : Z)
    (module_code lecturer_name : string)
    (student_data : list (string * entry)) : list email :=
  (group_items g total_lectures_this_week module_code lecturer_name
     student_data).*2.

Section Zone.

Variable session_zone : Z.

(** [start_of_last_week] and [end_of_last_week] (lines 559-560) *)
Definition start_of_last_week (today : date) : date :=
  today - (weekday today + 7).
Definition end_of_last_week (today : date) : date :=
  today - (weekday today + 1).

(** the count of lines 577-584 *)
Definition total_lectures_this_week (lecture_schedules : list lecture)
    (module_id : Z) (today : date) : Z :=
  Z.of_nat
    (length (filter (λ l, le_module_id l = module_id
                          ∧ start_of_last_week today ≤ le_lecture_date l
                          ∧ le_lecture_date l ≤ end_of_last_week today)
                    lecture_schedules)).

(** the bulk query of lines 590-596 *)
Definition weekly_records (attendance_records : list attendance_record)
    (students : list student) (module_id : Z) (today : date)
  : list weekly_record :=
  map (λ r,
         WeeklyRecord (ar_status r) (ar_student_id r)
           ((λ s, (st_full_name s, st_email s))
              <$> head (filter (λ s, st_id s = ar_student_id r) students)))
      (filter (λ r, ar_module_id r = module_id
                    ∧ naive_timestamp session_zone (start_of_last_week today)
                        (mk_time 0 0 0) ≤ ar_created_at r
                    ∧ ar_created_at r
                      ≤ naive_timestamp session_zone (end_of_last_week today)
                          (mk_time 23 59 59))
              attendance_records).

(** The body of the loop of lines 571-663 for one module: the students of
    the two lists with their messages. [None] stands for the exception of
    subscripting a null [lecturers] join. *)
Definition weekly_groups (lecture_schedules : list lecture)
    (attendance_records : list attendance_record) (students : list student)
    (today : date) (module : module_row)
  : option (list (string * email) * list (string * email)) :=
  match mo_lecturers module with
  | None => None
  | Some lecturer_name =>
      let total := total_lectures_this_week lecture_schedules
                     (mo_id module) today in
      if bool_decide (total = 0) then Some ([], [])
      else
        match weekly_records attendance_records students (mo_id module)
                today with
        | [] => Some ([], [])
        | records =>
            let student_data := count_records records in
            Some (group_items perfect_attendance total
                    (mo_module_code module) lecturer_name student_data,
                  group_items zero_attendance total
                    (mo_module_code module) lecturer_name student_data)
        end
  end.

(** the two lists handed to the pool of mail workers *)
Definition weekly_module (lecture_schedules : list lecture)
    (attendance_records : list attendance_record) (students : list student)
    (today : date) (module : module_row) : option (list email * list email) :=
  (λ groups, (groups.1.*2, groups.2.*2))
    <$> weekly_groups lecture_schedules attendance_records students today
          module.

(** [send_weekly_summary_emails()]: the messages handed to [send_email],
    module by module; an exception ends the run (line 666) *)
Fixpoint weekly_loop (lecture_schedules : list lecture)
    (attendance_records : list attendance_record) (students : list student)
    (today : date) (modules : list module_row) : list email :=
  match modules with
  | [] => []
  | module :: rest =>
      match weekly_module lecture_schedules attendance_records students
              today module with
      | None => []
      | Some (perfect, zero) =>
          perfect ++ zero
          ++ weekly_loop lecture_schedules attendance_records students today
               rest
      end
  end.

Definition send_weekly_summary_emails := weekly_loop.

End Zone.

End Weekly.

(** ** Quiz scoring in [api_submit_campaign_response] *)
Module Campaign.

(** a JSON value submitted as an answer *)
Inductive json :=
| JString (s : string)
| JNumber (n : Z)
| JBool (b : bool)
| JNull.

#[global] Instance json_eq_dec : EqDecision json.
Proof. solve_decision. Defined.

(** a [campaign_questions] row, as selected at lines 1425-1426 *)
Record question := Question {
  q_id : Z;
  q_correct_answer : option string
}.

(** the dictionary of lines 1427-1428; a later row replaces an earlier one
    with the same id *)
Definition correct_answers_map (questions : list question)
  : gmap Z (option string) :=
  foldl (λ m q, <[q_id q := q_correct_answer q]> m) ∅ questions.

(** C's [isspace] in the C locale, which [int] uses to skip blanks around
    the number: the space and the characters 9 to 13 *)
Definition is_space (c : ascii) : bool :=
  let n := nat_of_ascii c in
  bool_decide (n = 32 ∨ 9 ≤ n ≤ 13)%nat.

Definition digit_value (c : ascii) : option Z :=
  let n := nat_of_ascii c in
  if bool_decide (48 ≤ n ≤ 57)%nat then Some (Z.of_nat n - 48) else None.

(** The code points of a text, from the bytes of its UTF-8 form, which is
    what a [string] holds here; [None] when the bytes are no UTF-8. *)
Fixpoint code_points (bytes : list Z) : option (list Z) :=
  let continues b := bool_decide (128 ≤ b < 192) in
  match bytes with
  | [] => Some []
  | b0 :: rest0 =>
      if bool_decide (b0 < 128) then cons b0 <$> code_points rest0
      else
        match rest0 with
        | [] => None
        | b1 :: rest1 =>
            if negb (continues b1) then None
            else if bool_decide (192 ≤ b0 < 224)
            then cons ((b0 - 192) * 64 + (b1 - 128)) <$> code_points rest1
            else
              match rest1 with
              | [] => None
              | b2 :: rest2 =>
                  if negb (continues b2) then None
                  else if bool_decide (224 ≤ b0 < 240)
                  then cons ((b0 - 224) * 4096 + (b1 - 128) * 64 + (b2 - 128))
                         <$> code_points rest2
                  else
                    match rest2 with
                    | [] => None
                    | b3 :: rest3 =>
                        if continues b3 && bool_decide (240 ≤ b0 < 248)
                        then cons ((b0 - 240) * 262144 + (b1 - 128) * 4096
                                   + (b2 - 128) * 64 + (b3 - 128))
                               <$> code_points rest3
                        else None
                    end
              end
        end
  end.

(** the code points above 127 that [str.isspace] holds for (Unicode 14, as
    in CPython 3.11) *)
Definition unicode_spaces : list Z :=
  [133; 160; 5760; 8192; 8193; 8194; 8195; 8196; 8197; 8198; 8199; 8200;
   8201; 8202; 8232; 8233; 8239; 8287; 12288].

(** the digit zero of every run of ten decimal digits above 127 (the
    characters of category Nd of Unicode 14, as in CPython 3.11) *)
Definition decimal_zeros : list Z :=
  [1632; 1776; 1984; 2406; 2534; 2662; 2790; 2918; 3046; 3174; 3302; 3430;
   3558; 3664; 3792; 3872; 4160; 4240; 6112; 6160; 6470; 6608; 6784; 6800;
   6992; 7088; 7232; 7248; 42528; 43216; 43264; 43472; 43504; 43600; 44016;
   65296; 66720; 68912; 69734; 69872; 69942; 70096; 70384; 70736; 70864;
   71248; 71360; 71472; 71904; 72016; 72784; 73040; 73120; 92768; 92864;
   93008; 120782; 120792; 120802; 120812; 120822; 123200; 123632; 125264;
   130032].

(** [Py_UNICODE_TODECIMAL] above 127 *)
Definition to_decimal (ch : Z) : option Z :=
  (λ zero, ch - zero)
    <$> List.find (λ zero, bool_decide (zero ≤ ch ≤ zero + 9)) decimal_zeros.

(** What [int] does to a text before it reads it
    ([_PyUnicode_TransformDecimalAndSpaceToASCII]): a character below 127
    stays, a blank above becomes a space, a decimal digit above becomes
    the ASCII digit of its value, and at any other character the text ends
    with a question mark. *)
Fixpoint to_ascii (text : list Z) : string :=
  match text with
  | [] => EmptyString
  | ch :: rest =>
      if bool_decide (ch < 127)
      then String (ascii_of_nat (Z.to_nat ch)) (to_ascii rest)
      else if bool_decide (ch ∈ unicode_spaces)
      then String " " (to_ascii rest)
      else
        match to_decimal ch with
        | Some d => String (ascii_of_nat (Z.to_nat (48 + d))) (to_ascii rest)
        | None => "?"
        end
  end.

Fixpoint lstrip (s : string) : string :=
  match s with
  | String c rest => if is_space c then lstrip rest else s
  | EmptyString => s
  end.

Definition strip (s : string) : string :=
  String.rev (lstrip (String.rev (lstrip s))).

(** the digits of an integer literal, most significant first; one
    underscore may stand between two digits. [after_digit] tells whether
    the character before was a digit. *)
Fixpoint digits (s : string) (acc : Z) (after_digit : bool) : option Z :=
  match s with
  | EmptyString => if after_digit then Some acc else None
  | String c rest =>
      match digit_value c with
      | Some d => digits rest (10 * acc + d) true
      | None =>
          if bool_decide (c = "_"%char) && after_digit
          then match rest with
               | EmptyString => None
               | String c' _ =>
                   if bool_decide (c' = "_"%char) then None
                   else digits rest acc false
               end
          else None
      end
  end.

(** the number of digits of a text *)
Fixpoint digit_count (s : string) : Z :=
  match s with
  | EmptyString => 0
  | String c rest =>
      match digit_value c with
      | Some _ => 1 + digit_count rest
      | None => digit_count rest
      end
  end.

(** [sys.get_int_max_str_digits()], which the program leaves at its
    default: [int] refuses a text of more digits (CPython 3.11, and the
    security releases of the versions before it) *)
Definition int_max_str_digits : Z := 4300.

Definition number (s : string) : option Z :=
  if bool_decide (digit_count s ≤ int_max_str_digits)
  then digits s 0 false else None.

(** [int(text)], where [text] holds the UTF-8 form of a Python string:
    blanks around, an optional sign, decimal digits of any script; [None]
    stands for [ValueError]. *)
Definition py_int (text : string) : option Z :=
  match code_points ((λ c, Z.of_nat (nat_of_ascii c))
                       <$> String.list_ascii_of_string text) with
  | None => None
  | Some points =>
      match strip (to_ascii points) with
      | String "+" rest => number rest
      | String "-" rest => Z.opp <$> number rest
      | s => number s
      end
  end.

(** lines 1431-1433 for one item of [responses]: whether it scores *)
Definition scores (correct_answers : gmap Z (option string))
    (key : Z) (student_answer : json) : bool :=
  match mjoin (correct_answers !! key) with
  | None | Some EmptyString => false
  | Some correct_answer =>
      bool_decide (student_answer = JString correct_answer)
  end.

(** the loop of lines 1430-1433 over the items of [responses]; [None]
    stands for the [ValueError] of a key that is no integer *)
Fixpoint score_loop (correct_answers : gmap Z (option string))
    (responses : list (string * json)) (score : Z) : option Z :=
  match responses with
  | [] => Some score
  | (question_id, student_answer) :: rest =>
      match py_int question_id with
      | None => None
      | Some key =>
          score_loop correct_answers rest
            (if scores correct_answers key student_answer
             then score + 1 else score)
      end
  end.

(** the score of lines 1423-1433 for a [WEEKLY_QUIZ]; [responses] are the
    items of the submitted JSON object, in order *)
Definition quiz_score (questions : list question)
    (responses : list (string * json)) : option Z :=
  score_loop (correct_answers_map questions) responses 0.

(** the campaign types *)
Inductive campaign_type := WEEKLY_QUIZ | FEEDBACK_SURVEY.

(** the [score] written with the response (lines 1419-1433 and 1444): none
    for a survey; the outer [None] stands for the exception *)
Definition response_score (ty : campaign_type) (questions : list question)
    (responses : list (string * json)) : option (option Z) :=
  match ty with
  | WEEKLY_QUIZ => Some <$> quiz_score questions responses
  | FEEDBACK_SURVEY => Some None
  end.

(** In the words of the specification: a question is answered correctly
    when the response has an answer for it that is string-equal to its
    stored correct answer. *)
Definition answered_correctly (responses : list (string * json))
    (q : question) : bool :=
  existsb (λ item,
             bool_decide (py_int item.1 = Some (q_id q)
                          ∧ Some item.2 = JString <$> q_correct_answer q))
          responses.

(** whether a question is hit by one item of the response *)
Definition hit (key : Z) (answer : json) (q : question) : bool :=
  bool_decide (Some key = Some (q_id q)
               ∧ Some answer = JString <$> q_correct_answer q).

(** In the words of the specification: the number of questions answered
    correctly. *)
Definition questions_answered_correctly (questions : list question)
    (responses : list (string * json)) : Z :=
  Z.of_nat (length (List.filter (answered_correctly responses) questions)).

End Campaign.

(** ** Predicates used to state further properties *)
Module Predicates.

(** whether the text has a comma *)
Fixpoint has_comma (s : string) : bool :=
  match s with
  | EmptyString => false
  | String c rest => bool_decide (c = ","%char) || has_comma rest
  end.
(** no student has two [present] rows of one module stamped on the same
    day *)
Definition one_present_per_day (attendance_records : list attendance_record)
  : Prop :=
  ∀ i j r1 r2,
    attendance_records !! i = Some r1 →
    attendance_records !! j = Some r2 →
    i ≠ j →
    ar_student_id r1 = ar_student_id r2 →
    ar_module_id r1 = ar_module_id r2 →
    ar_status r1 = present → ar_status r2 = present →
    dt_date (ar_created_at r1) ≠ dt_date (ar_created_at r2).

(** a row made by the backfill: the [absent] row of a student enrolled in
    the module of a lecture of the list, stamped 17:00:00 on its date *)
Definition backfilled_from (session_zone : Z) (students : list student)
    (lectures : list lecture) (r : attendance_record) : Prop :=
  ∃ l s, l ∈ lectures ∧ s ∈ students
         ∧ le_modules l = Some (st_module_code s)
         ∧ r = AttendanceRecord (st_id s) (le_module_id l) absent
                 (naive_timestamp session_zone (le_lecture_date l)
                    (mk_time 17 0 0)).


(** the value kept under a key of an ordered dictionary *)
Fixpoint lookup_item {A} (key : string) (d : list (string * A)) : option A :=
  match d with
  | [] => None
  | (k, v) :: rest =>
      if bool_decide (k = key) then Some v else lookup_item key rest
  end.

(** the number of [present] rows of a student among the rows of a week *)
Definition present_rows (student_id : string)
    (weekly_records : list Weekly.weekly_record) : Z :=
  Z.of_nat
    (length (filter (λ r, Weekly.wr_student_id r = student_id
                          ∧ Weekly.wr_status r = present) weekly_records)).

End Predicates.
Import Predicates.

(** ** The poll of the kiosk: [api_get_current_class] *)
Module CurrentClass.

(** the JSON body; the status is 200 in both cases *)
Inductive class_status :=
| Active (attendance_ends current_time : datetime)
| Inactive (current_time : datetime).

(** [api_get_current_class()]; [current_system_time] is the reading of line
    994, taken after [get_current_class_session] has returned. [None]
    stands for an exception of [strptime], which the route does not catch. *)
Definition api_get_current_class (class_timetable : list session)
    (now : datetime) (later : nat → datetime)
    (current_system_time : datetime) : option class_status :=
  match get_current_class_session class_timetable now later with
  | Some session =>
      match strptime_HMS (se_start_time session) with
      | Some start_time =>
          let attendance_ends_dt :=
            combine (dt_date current_system_time) start_time + minutes 30 in
          Some (Active attendance_ends_dt current_system_time)
      | None => None
      end
  | None => Some (Inactive current_system_time)
  end.

End CurrentClass.

(** ** Bearer tokens and what a route answers *)
Module Http.

(** a JSON answer with its status; [Raised] is an answer whose text is the
    text of the exception caught *)
Inductive reply :=
| Reply (status : Z) (message : string)
| Raised (status : Z).

Definition status_of (r : reply) : Z :=
  match r with
  | Reply status _ => status
  | Raised status => status
  end.

(** a [modules] row with its [lecturer_id] column *)
Record owned_module := OwnedModule {
  om_lecturer_id : string;
  om_module : module_row
}.

(** [auth_header.startswith('Bearer ')] *)
Definition starts_with_bearer (auth_header : string) : bool :=
  bool_decide (String.substring 0 7 auth_header = "Bearer ").

(** the text up to the first space *)
Fixpoint until_space (s : string) : string :=
  match s with
  | EmptyString => EmptyString
  | String c rest =>
      if bool_decide (c = " "%char) then EmptyString
      else String c (until_space rest)
  end.

(** [auth_header.split(' ')[1]] for a header that starts with [Bearer ]:
    the text between the first space and the next one *)
Definition bearer_token (auth_header : string) : string :=
  until_space (String.substring 7 (String.length auth_header) auth_header).

(** The hosted store can fail, and a call that fails raises. [calls] tells
    how many calls of the store go through before one raises: [None] when
    none raises, [Some n] when the call after [n] more raises.
    [store_call calls] is [None] when the call at hand raises, and
    otherwise what is left for the calls after it. *)
Definition store_call (calls : option nat) : option (option nat) :=
  match calls with
  | None => Some None
  | Some O => None
  | Some (S n) => Some (Some n)
  end.

(** what the first lines of a protected route find *)
Inductive auth_result :=
| Rejected (r : reply)
| AuthRaised
| Authenticated (user_id : string).

Section Auth.

(** [supabase_anon.auth.get_user(token)]: [None] stands for an exception,
    [Some None] for an answer without a user, [Some (Some id)] for the
    user's id *)
Variable get_user : string → option (option string).

(** lines 1535-1541 and their likes; the two texts differ from route to
    route *)
Definition authenticate (missing invalid : string)
    (auth_header : option string) : auth_result :=
  match auth_header with
  | None => Rejected (Reply 401 missing)
  | Some h =>
      if bool_decide (h = EmptyString) || negb (starts_with_bearer h)
      then Rejected (Reply 401 missing)
      else
        match get_user (bearer_token h) with
        | None => AuthRaised
        | Some None => Rejected (Reply 401 invalid)
        | Some (Some user_id) => Authenticated user_id
        end
  end.

End Auth.

End Http.
Import Http.

(** ** The lecturer's bulk backfill: [api_backfill_all_students] *)
Module AdminBackfill.

Section Route.

Variable session_zone : Z.
Variable get_user : string → option (option string).

(** the query of lines 1581-1587: rows of the student in the module within
    the day of the lecture *)
Definition existing_res (attendance_records : list attendance_record)
    (student_id : string) (module_id : Z) (lecture_date : date)
  : list attendance_record :=
  filter (λ r, ar_student_id r = student_id ∧ ar_module_id r = module_id
               ∧ naive_timestamp session_zone lecture_date (mk_time 0 0 0)
                 ≤ ar_created_at r
               ∧ ar_created_at r
                 ≤ naive_timestamp session_zone lecture_date
                     (mk_time 23 59 59))
         attendance_records.

(** The inner loop of lines 1577-1597: the table and [backfill_count], and
    what is left of [calls]. Each turn asks the store for the rows of the
    day, and inserts a row when there is none; [None] for what is left
    says that one of these calls raised, which ends the route at line 1603
    with the rows inserted so far. *)
Fixpoint lecture_loop (student_id : string) (module_id : Z)
    (lectures : list lecture)
    (state : list attendance_record * Z) (calls : option nat)
  : list attendance_record * Z * option (option nat) :=
  match lectures with
  | [] => (state, Some calls)
  | lecture :: rest =>
      let '(attendance_records, backfill_count) := state in
      let lecture_date := le_lecture_date lecture in
      match store_call calls with
      | None => (state, None)
      | Some calls =>
          match existing_res attendance_records student_id module_id
                  lecture_date with
          | [] =>
              match store_call calls with
              | None => (state, None)
              | Some calls =>
                  lecture_loop student_id module_id rest
                    (attendance_records
                     ++ [AttendanceRecord student_id module_id absent
                           (naive_timestamp session_zone lecture_date
                              (mk_time 17 0 0))],
                     backfill_count + 1)
                    calls
              end
          | _ :: _ => lecture_loop student_id module_id rest state calls
          end
      end
  end.

(** the outer loop of lines 1573-1597 *)
Fixpoint student_loop (students : list student) (module_id : Z)
    (lectures : list lecture)
    (state : list attendance_record * Z) (calls : option nat)
  : list attendance_record * Z * option (option nat) :=
  match students with
  | [] => (state, Some calls)
  | student :: rest =>
      match lecture_loop (st_id student) module_id lectures state calls with
      | (state, Some calls) =>
          student_loop rest module_id lectures state calls
      | (state, None) => (state, None)
      end
  end.

(** the query of lines 1564-1566 *)
Definition lectures_res (lecture_schedules : list lecture) (module_id : Z)
    (today : date) : list lecture :=
  filter (λ l, le_module_id l = module_id ∧ le_lecture_date l < today)
         lecture_schedules.

(** [api_backfill_all_students()]: the answer and the table afterwards;
    [today] is the date of the reading of line 1563, and [calls] says when
    the store fails, if it does *)
Definition api_backfill_all_students (calls : option nat)
    (auth_header : option string)
    (modules : list owned_module) (students : list student)
    (lecture_schedules : list lecture) (today : date)
    (attendance_records : list attendance_record)
  : reply * list attendance_record :=
  match authenticate get_user "Authentication required." "Invalid token."
          auth_header with
  | Rejected r => (r, attendance_records)
  | AuthRaised => (Raised 500, attendance_records)
  | Authenticated lecturer_id =>
  match store_call calls with
  | None => (Raised 500, attendance_records)
  | Some calls =>
  match single (filter (λ m, om_lecturer_id m = lecturer_id) modules) with
  | None => (Raised 500, attendance_records)
  | Some module_res =>
  let module_id := mo_id (om_module module_res) in
  let module_code := mo_module_code (om_module module_res) in
  match store_call calls with
  | None => (Raised 500, attendance_records)
  | Some calls =>
  match filter (λ s, st_module_code s = module_code) students with
  | [] => (Reply 404 "No students found.", attendance_records)
  | students_res =>
  match store_call calls with
  | None => (Raised 500, attendance_records)
  | Some calls =>
  match lectures_res lecture_schedules module_id today with
  | [] => (Reply 200 "No past lectures to backfill.", attendance_records)
  | lectures =>
  match student_loop students_res module_id lectures (attendance_records, 0)
          calls with
  | (after, backfill_count, Some _) =>
      (Reply 200
         ("Backfill complete. Added " +:+ pretty backfill_count
          +:+ " historical absence records for past classes only."),
       after)
  | (after, _, None) => (Raised 500, after)
  end end end end end end end end.

End Route.

(** a row made by the bulk backfill for one of the students and one of
    the lectures *)
Definition bulk_row (session_zone : Z) (students : list student)
    (module_id : Z) (lectures : list lecture) (r : attendance_record)
  : Prop :=
  ∃ s l, s ∈ students ∧ l ∈ lectures
         ∧ r = AttendanceRecord (st_id s) module_id absent
                 (naive_timestamp session_zone (le_lecture_date l)
                    (mk_time 17 0 0)).

(** the text of the answer after the loops *)
Definition backfill_complete (backfill_count : Z) : reply :=
  Reply 200
    ("Backfill complete. Added " +:+ pretty backfill_count
     +:+ " historical absence records for past classes only.").

End AdminBackfill.

(** ** Campaign links: [api_get_campaign_for_student] and
    [api_submit_campaign_response] *)
Module Responses.

Record campaign := Campaign {
  ca_id : Z;
  ca_lecturer_id : string;
  ca_campaign_type : string;
  ca_title : string;
  ca_incentive : string
}.

(** a [campaign_questions] row *)
Record question_row := QuestionRow {
  qr_campaign_id : Z;
  qr_question : Campaign.question;
  qr_question_text : string;
  qr_question_type : string
}.

(** a [campaign_participants] row *)
Record participant := Participant {
  pa_campaign_id : Z;
  pa_student_id : string
}.

(** a [campaign_responses] row *)
Record response_row := ResponseRow {
  rr_campaign_id : Z;
  rr_student_id : string;
  rr_response_data : list (string * Campaign.json);
  rr_score : option Z
}.

(** the two tables a response is written to *)
Record tables := Tables {
  campaign_participants : list participant;
  campaign_responses : list response_row
}.

Section Routes.

(** The signature check of [campaign_serializer.loads]: the second at which
    the link was signed, with the campaign and the student it names; [None]
    stands for the exception raised on a forged or malformed one. *)
Variable unsign : string → option (Z * (Z * string)).

(** [campaign_serializer.loads(token, max_age=max_age)] at the second
    [now] of the server's own clock ([time.time()], which the time machine
    does not move): the link is refused once it is older than [max_age]
    seconds, and when it is dated after [now]; [None] stands for the
    exception *)
Definition loads (now : Z) (token : string) (max_age : Z)
  : option (Z * string) :=
  match unsign token with
  | None => None
  | Some (timestamp, token_data) =>
      let age := now - timestamp in
      if bool_decide (max_age < age) then None
      else if bool_decide (age < 0) then None
      else Some token_data
  end.

(** the query of lines 1414-1415 *)
Definition existing_response (t : tables) (campaign_id : Z)
    (student_id : string) : list participant :=
  filter (λ p, pa_campaign_id p = campaign_id ∧ pa_student_id p = student_id)
         (campaign_participants t).

(** [api_submit_campaign_response()]: the answer and the tables
    afterwards. [token] and [responses] are [None] when the key is missing
    from the body; [responses] are the items of the JSON object. [calls]
    says when the store fails, if it does: every query and each of the two
    inserts is a call of its own, and an exception in any of them is
    answered at line 1449 with what has been written so far left in the
    tables. *)
Definition api_submit_campaign_response (now : Z) (calls : option nat)
    (campaigns : list campaign) (campaign_questions : list question_row)
    (token : option string) (responses : option (list (string * Campaign.json)))
    (t : tables) : reply * tables :=
  match token, responses with
  | None, _ | Some EmptyString, _ | _, None | _, Some [] =>
      (Reply 400 "Invalid submission.", t)
  | Some token, Some responses =>
  match loads now token 259200 with
  | None => (Raised 500, t)
  | Some (campaign_id, student_id) =>
  match store_call calls with
  | None => (Raised 500, t)
  | Some calls =>
  match existing_response t campaign_id student_id with
  | _ :: _ => (Reply 409 "You have already submitted a response.", t)
  | [] =>
  match store_call calls with
  | None => (Raised 500, t)
  | Some calls =>
  match single (filter (λ c, ca_id c = campaign_id) campaigns) with
  | None => (Raised 500, t)
  | Some campaign_type_res =>
  let scored : option (option Z * option nat) :=
    if bool_decide (ca_campaign_type campaign_type_res = "WEEKLY_QUIZ")
    then
      match store_call calls with
      | None => None
      | Some calls =>
          (λ score, (Some score, calls))
            <$> Campaign.quiz_score
                  (qr_question
                     <$> filter (λ q, qr_campaign_id q = campaign_id)
                           campaign_questions)
                  responses
      end
    else Some (None, calls) in
  match scored with
  | None => (Raised 500, t)
  | Some (score, calls) =>
  match store_call calls with
  | None => (Raised 500, t)
  | Some calls =>
  let participants :=
    campaign_participants t ++ [Participant campaign_id student_id] in
  match store_call calls with
  | None => (Raised 500, Tables participants (campaign_responses t))
  | Some _ =>
      (Reply 201
         "Your response has been recorded successfully. You are now eligible for the incentive!",
       Tables participants
         (campaign_responses t
          ++ [ResponseRow campaign_id student_id responses score]))
  end end end end end end end end
  end.

(** a question as the student receives it: the row, and for a
    multiple-choice question the texts of its options *)
Record fetched_question := FetchedQuestion {
  fq_row : question_row;
  fq_options : option (list string)
}.

(** what [api_get_campaign_for_student] answers *)
Inductive fetched :=
| Fetched (campaign : campaign) (campaign_questions : list fetched_question)
| NotFetched (r : reply).

(** lines 1390-1394: the options of a multiple-choice question, from the
    table [question_options] of (question id, option text) *)
Definition with_options (question_options : list (Z * string))
    (q : question_row) : fetched_question :=
  FetchedQuestion q
    (if bool_decide (qr_question_type q = "multiple_choice")
     then Some ((filter (λ o, o.1 = Campaign.q_id (qr_question q))
                        question_options).*2)
     else None).

(** the loop of lines 1390-1394, with one query for each multiple-choice
    question; [None] when one of the queries raises *)
Fixpoint options_loop (question_options : list (Z * string))
    (questions : list question_row) (calls : option nat)
  : option (list fetched_question) :=
  match questions with
  | [] => Some []
  | q :: rest =>
      if bool_decide (qr_question_type q = "multiple_choice")
      then
        match store_call calls with
        | None => None
        | Some calls =>
            (with_options question_options q ::.)
              <$> options_loop question_options rest calls
        end
      else
        (with_options question_options q ::.)
          <$> options_loop question_options rest calls
  end.

(** [api_get_campaign_for_student()]; the questions are whole rows of
    [campaign_questions], since the route selects every column. An
    exception, of the serializer or of the store, is answered at line
    1398. *)
Definition api_get_campaign_for_student (now : Z) (calls : option nat)
    (campaigns : list campaign) (campaign_questions : list question_row)
    (question_options : list (Z * string)) (token : option string)
    (t : tables) : fetched :=
  match token with
  | None | Some EmptyString =>
      NotFetched (Reply 400 "Invalid link. Token is missing.")
  | Some token =>
  match loads now token 259200 with
  | None => NotFetched (Raised 400)
  | Some (campaign_id, student_id) =>
  match store_call calls with
  | None => NotFetched (Raised 400)
  | Some calls =>
  match existing_response t campaign_id student_id with
  | _ :: _ =>
      NotFetched
        (Reply 409 "You have already responded to this campaign. Thank you!")
  | [] =>
  match store_call calls with
  | None => NotFetched (Raised 400)
  | Some calls =>
  match single (filter (λ c, ca_id c = campaign_id) campaigns) with
  | None => NotFetched (Raised 400)
  | Some campaign =>
  match store_call calls with
  | None => NotFetched (Raised 400)
  | Some calls =>
  match options_loop question_options
          (filter (λ q, qr_campaign_id q = campaign_id) campaign_questions)
          calls with
  | None => NotFetched (Raised 400)
  | Some questions => Fetched campaign questions
  end end end end end end end
  end.

End Routes.

End Responses.

(** ** The catch-up notices: [send_daily_absence_emails] and
    [api_run_daily_check] *)
Module Daily.

(** a [lecture_schedules] row as selected at lines 446-448, with its join
    [modules(module_code, lecturers(full_name))] *)
Record planned_lecture := PlannedLecture {
  pl_lecture_date : date;
  pl_module_id : Z;
  pl_planned_topic : option string;
  pl_modules : option module_row
}.

(** the same row as the queries that select [modules(module_code)] see it *)
Definition as_lecture (l : planned_lecture) : lecture :=
  Lecture (pl_lecture_date l) (pl_module_id l)
    (mo_module_code <$> pl_modules l).

(** a nullable text column inside an f-string *)
Definition py_str (x : option string) : string := default "None" x.

(** lines 474-481: the message for one absent student *)
Definition catch_up (module_code : string) (topic : option string)
    (lecturer_name full_name address : string) : email :=
  Email (Some address)
    ("Catch-up for " +:+ module_code)
    ("Hi " +:+ full_name +:+ "," +:+ nl +:+ nl
     +:+ "I noticed you weren't in our class today. We covered the topic: '" +:+ py_str topic +:+ "'." +:+ nl +:+ nl
     +:+ "Please take some time to review the material. If you have any questions, please don't hesitate to reach out." +:+ nl +:+ nl
     +:+ "Best regards," +:+ nl +:+ lecturer_name).

Section Zone.

Variable session_zone : Z.

(** the query of lines 460-466: the [absent] rows of the module within the
    day, each with its join [students(full_name, email)] *)
Definition absent_students_res (attendance_records : list attendance_record)
    (students : list student) (module_id : Z) (target_date : date)
  : list (attendance_record * option student) :=
  (λ r, (r, head (filter (λ s, st_id s = ar_student_id r) students)))
    <$> filter (λ r, ar_module_id r = module_id ∧ ar_status r = absent
                     ∧ naive_timestamp session_zone target_date
                         (mk_time 0 0 0) ≤ ar_created_at r
                     ∧ ar_created_at r
                       ≤ naive_timestamp session_zone target_date
                           (mk_time 23 59 59))
          attendance_records.

(** one turn of the loop of lines 473-482: the message handed to
    [send_email], unless the student is skipped *)
Definition absence_message (module_code : string) (topic : option string)
    (lecturer_name : string) (record : attendance_record * option student)
  : option email :=
  match record.2 with
  | None => None
  | Some student_info =>
      match st_email student_info with
      | None | Some EmptyString => None
      | Some address =>
          Some (catch_up module_code topic lecturer_name
                  (st_full_name student_info) address)
      end
  end.

(** The loop of lines 454-482 over the lectures of the date: the messages
    handed to [send_email], in order. Subscripting a null join raises, which
    ends the function (line 491) with what was sent so far. *)
Fixpoint lecture_loop (attendance_records : list attendance_record)
    (students : list student) (target_date : date)
    (lectures : list planned_lecture) : list email :=
  match lectures with
  | [] => []
  | lecture :: rest =>
      match pl_modules lecture with
      | None => []
      | Some module =>
          match mo_lecturers module with
          | None => []
          | Some lecturer_name =>
              omap (absence_message (mo_module_code module)
                      (pl_planned_topic lecture) lecturer_name)
                   (absent_students_res attendance_records students
                      (pl_module_id lecture) target_date)
              ++ lecture_loop attendance_records students target_date rest
          end
      end
  end.

(** [send_daily_absence_emails(target_date)] *)
Definition send_daily_absence_emails
    (lecture_schedules : list planned_lecture)
    (attendance_records : list attendance_record) (students : list student)
    (target_date : date) : list email :=
  lecture_loop attendance_records students target_date
    (filter (λ l, pl_lecture_date l = target_date) lecture_schedules).

(** [api_run_daily_check()]: the answer and the messages handed to
    [send_email]; [today] is the date of the clock reading of line 1634 *)
Definition api_run_daily_check (get_user : string → option (option string))
    (auth_header : option string)
    (lecture_schedules : list planned_lecture)
    (attendance_records : list attendance_record) (students : list student)
    (today : date) : reply * list email :=
  match authenticate get_user "Authentication required." "Invalid token."
          auth_header with
  | Rejected r => (r, [])
  | AuthRaised => (Raised 500, [])
  | Authenticated _ =>
      (Reply 200 "Daily check for yesterday completed.",
       send_daily_absence_emails lecture_schedules attendance_records
         students (today - 1))
  end.

(** the student has an [absent] row of the module within the day *)
Definition absent_on (attendance_records : list attendance_record)
    (module_id : Z) (d : date) (student_id : string) : Prop :=
  ∃ r, r ∈ attendance_records ∧ ar_student_id r = student_id
       ∧ ar_module_id r = module_id ∧ ar_status r = absent
       ∧ naive_timestamp session_zone d (mk_time 0 0 0) ≤ ar_created_at r
       ∧ ar_created_at r ≤ naive_timestamp session_zone d (mk_time 23 59 59).

(** a catch-up notice about a lecture of the date, to the address of a
    student who has an [absent] row of the lecture's module on that date *)
Definition notice_for (lecture_schedules : list planned_lecture)
    (attendance_records : list attendance_record) (students : list student)
    (d : date) (e : email) : Prop :=
  ∃ l module lecturer_name s address,
    l ∈ lecture_schedules ∧ pl_lecture_date l = d
    ∧ pl_modules l = Some module ∧ mo_lecturers module = Some lecturer_name
    ∧ s ∈ students ∧ st_email s = Some address ∧ address ≠ EmptyString
    ∧ absent_on attendance_records (pl_module_id l) d (st_id s)
    ∧ e = catch_up (mo_module_code module) (pl_planned_topic l)
            lecturer_name (st_full_name s) address.

End Zone.

End Daily.

(** ** The scheduler tick: [unified_scheduler_job] *)
Module Scheduler.

(** [last_run_times]: the keys of ["absentee_check"] that hold [True], each
    a date and a session id (the key's text is the ISO date, an underscore
    and the id), and the date under ["weekly_summary"] *)
Record last_run := LastRun {
  absentee_check : list (date * Z);
  weekly_summary : option date
}.

(** what a tick reads and changes: the attendance table, the at-risk
    ledger with its mail, the catch-up notices and the weekly summaries
    handed to [send_email], and [last_run_times] *)
Record state := State {
  attendance_records : list attendance_record;
  risk : AtRisk.world;
  absence_mail : list email;
  weekly_mail : list email;
  last_run_times : last_run
}.

(** [time.hour] and [time.minute] *)
Definition time_hour (t : time) : Z := t / (3600 * us_per_second).
Definition time_minute (t : time) : Z := t / (60 * us_per_second) mod 60.

(** [now.replace(hour=end_time.hour, minute=end_time.minute, second=0,
    microsecond=0)] *)
Definition class_end (now : datetime) (end_time : time) : datetime :=
  combine (dt_date now) (mk_time (time_hour end_time) (time_minute end_time) 0).

Section Job.

Variable session_zone : Z.
Variable send_email : email → bool.
(** the order in which the set [absent_ids] is iterated *)
Variable iteration : list string → list string.
Variable class_timetable : list session.
Variable modules : list module_row.
Variable students : list student.
Variable lecture_schedules : list Daily.planned_lecture.

(** the query of lines 1897-1901 *)
Definition recorded_res (attendance_records : list attendance_record)
    (module_id : Z) (today : date) : list attendance_record :=
  filter (λ r, ar_module_id r = module_id
               ∧ naive_timestamp session_zone today (mk_time 0 0 0)
                 ≤ ar_created_at r
               ∧ ar_created_at r
                 ≤ naive_timestamp session_zone today (mk_time 23 59 59))
         attendance_records.

(** lines 1894-1904: the set [enrolled_ids - recorded_ids], as a list
    without duplicates *)
Definition absent_ids (attendance_records : list attendance_record)
    (enrolled_res : list student) (module_id : Z) (today : date)
  : list string :=
  let recorded_ids :=
    ar_student_id <$> recorded_res attendance_records module_id today in
  remove_dups (filter (λ id, id ∉ recorded_ids) (st_id <$> enrolled_res)).

(** lines 1906-1925: the insert, the at-risk check of each absent student
    and the catch-up notices of the day; both loops go through the set in
    the same order *)
Definition mark_absent (now class_end_datetime : datetime) (module_id : Z)
    (absent_ids : list string) (w : state) : state :=
  match absent_ids with
  | [] => w
  | _ =>
      let absent_records :=
        (λ student_id,
           AttendanceRecord student_id module_id absent class_end_datetime)
          <$> iteration absent_ids in
      let inserted := attendance_records w ++ absent_records in
      State inserted
        (foldl (λ r student_id,
                  AtRisk.check_and_send_at_risk_warning send_email inserted
                    students modules student_id module_id r)
               (risk w) (iteration absent_ids))
        (absence_mail w
         ++ Daily.send_daily_absence_emails session_zone lecture_schedules
              inserted students (dt_date now))
        (weekly_mail w) (last_run_times w)
  end.

(** line 1927 *)
Definition set_absentee_check (key : date * Z) (w : state) : state :=
  State (attendance_records w) (risk w) (absence_mail w) (weekly_mail w)
    (LastRun (key :: absentee_check (last_run_times w))
       (weekly_summary (last_run_times w))).

(** The loop of lines 1873-1927 over the sessions of the weekday. An
    exception (an end time that does not parse, the null join of a session
    without a module) ends the loop (line 1928) with what was done so far. *)
Fixpoint absentee_loop (now : datetime) (sessions : list session)
    (w : state) : state :=
  match sessions with
  | [] => w
  | session :: rest =>
      match strptime_HMS (se_end_time session) with
      | None => w
      | Some end_time =>
          let class_end_datetime := class_end now end_time in
          if bool_decide (class_end_datetime < now)
             && bool_decide (td_seconds (now - class_end_datetime) ≤ 300)
          then
            let session_id_for_day := (dt_date now, se_id session) in
            if bool_decide
                 (session_id_for_day ∈ absentee_check (last_run_times w))
            then absentee_loop now rest w
            else
              match head (filter (λ m, mo_id m = se_module_id session)
                                 modules) with
              | None => w
              | Some module =>
                  let module_id := se_module_id session in
                  match filter (λ s, st_module_code s = mo_module_code module)
                               students with
                  | [] => absentee_loop now rest w
                  | enrolled_res =>
                      absentee_loop now rest
                        (set_absentee_check session_id_for_day
                           (mark_absent now class_end_datetime module_id
                              (absent_ids (attendance_records w) enrolled_res
                                 module_id (dt_date now))
                              w))
                  end
              end
          else absentee_loop now rest w
      end
  end.

(** lines 1869-1927 *)
Definition absentee_check_part (now : datetime) (w : state) : state :=
  absentee_loop now
    (filter (λ s, se_day_of_week s = weekday (dt_date now) + 1)
            class_timetable)
    w.

(** lines 1932-1938; [weekly_today] is the date of the clock reading made
    inside [send_weekly_summary_emails] *)
Definition weekly_summary_part (now : datetime) (weekly_today : date)
    (w : state) : state :=
  if bool_decide (weekday (dt_date now) = 6)
     && bool_decide (18 ≤ time_hour (dt_time now))
  then
    if bool_decide (weekly_summary (last_run_times w) = Some (dt_date now))
    then w
    else
      State (attendance_records w) (risk w) (absence_mail w)
        (weekly_mail w
         ++ Weekly.send_weekly_summary_emails session_zone
              (Daily.as_lecture <$> lecture_schedules)
              (attendance_records w) students weekly_today modules)
        (LastRun (absentee_check (last_run_times w)) (Some (dt_date now)))
  else w.

(** [unified_scheduler_job()]; [now] is the reading of line 1862 *)
Definition unified_scheduler_job (now : datetime) (weekly_today : date)
    (w : state) : state :=
  weekly_summary_part now weekly_today (absentee_check_part now w).

End Job.

(** the weekly fields of the state, replaced *)
Definition with_weekly (mail : list email) (summary : option date)
    (w : state) : state :=
  State (attendance_records w) (risk w) (absence_mail w) mail
    (LastRun (absentee_check (last_run_times w)) summary).

(** a row the tick at [now] may append to the table [before]: an [absent]
    row stamped at the end of a session of the weekday that ended less
    than 301 seconds ago, for a student enrolled in the session's module
    who has no row of the module within the day in [before] *)
Definition sweep_row (session_zone : Z) (class_timetable : list session)
    (modules : list module_row) (students : list student) (now : datetime)
    (before : list attendance_record) (r : attendance_record) : Prop :=
  ∃ session end_time module s,
    session ∈ class_timetable
    ∧ se_day_of_week session = weekday (dt_date now) + 1
    ∧ strptime_HMS (se_end_time session) = Some end_time
    ∧ class_end now end_time < now
    ∧ now - class_end now end_time < seconds 301
    ∧ module ∈ modules ∧ mo_id module = se_module_id session
    ∧ s ∈ students ∧ st_module_code s = mo_module_code module
    ∧ recorded_res session_zone
        (filter (λ r', ar_student_id r' = st_id s) before)
        (se_module_id session) (dt_date now) = []
    ∧ r = AttendanceRecord (st_id s) (se_module_id session) absent
            (class_end now end_time).

(** the student has a row of the module that lies within the day or is
    the [absent] row stamped at [class_end_datetime] *)
Definition accounted_for (session_zone : Z)
    (attendance_records : list attendance_record) (student_id : string)
    (module_id : Z) (today : date) (class_end_datetime : datetime) : Prop :=
  ∃ r, r ∈ attendance_records ∧ ar_student_id r = student_id
       ∧ ar_module_id r = module_id
       ∧ (naive_timestamp session_zone today (mk_time 0 0 0)
          ≤ ar_created_at r
          ≤ naive_timestamp session_zone today (mk_time 23 59 59)
          ∨ r = AttendanceRecord student_id module_id absent
                  class_end_datetime).

(** no session of the weekday makes the loop raise: each has an end time
    that parses and a module *)
Definition no_exception (class_timetable : list session)
    (modules : list module_row) (now : datetime) : Prop :=
  ∀ x, x ∈ class_timetable →
       se_day_of_week x = weekday (dt_date now) + 1 →
       is_Some (strptime_HMS (se_end_time x))
       ∧ ∃ m, m ∈ modules ∧ mo_id m = se_module_id x.

(** a session of the weekday whose end the tick at [now] finds less than
    five minutes past *)
Definition due (class_timetable : list session) (now : datetime)
    (session : session) (end_time : time) : Prop :=
  session ∈ class_timetable
  ∧ se_day_of_week session = weekday (dt_date now) + 1
  ∧ strptime_HMS (se_end_time session) = Some end_time
  ∧ class_end now end_time < now
  ∧ td_seconds (now - class_end now end_time) ≤ 300.

End Scheduler.

(** ** The lecturer's at-risk check: [api_run_at_risk_check] *)
Module BulkAtRisk.

(** [int / int] and [float * int] convert an [int] to the nearest float;
    the conversion written here is exact below 2^53, where the counts of
    rows are *)
Definition float_of_int (n : Z) : float :=
  if bool_decide (n < 0)
  then PrimFloat.opp (PrimFloat.of_uint63 (Uint63.of_Z (- n)))
  else PrimFloat.of_uint63 (Uint63.of_Z n).

(** lines 1722-1724 *)
Definition current_mark (classes_held total_absences
    TOTAL_SEMESTER_CLASSES : Z) : float :=
  let present_count := classes_held - total_absences in
  PrimFloat.mul
    (PrimFloat.div (float_of_int present_count)
       (float_of_int TOTAL_SEMESTER_CLASSES))
    (float_of_int 100).

(** the integer nearest to [m * 2 ^ e], the even one of two *)
Definition round_half_even (m e : Z) : Z :=
  if bool_decide (0 ≤ e) then m * 2 ^ e
  else
    let d := 2 ^ (- e) in
    let q := m / d in
    let r := m mod d in
    if bool_decide (2 * r < d) then q
    else if bool_decide (d < 2 * r) then q + 1
    else if Z.even q then q else q + 1.

(** the format [.0f]: no decimals, no exponent, the sign of a negative
    number kept when it rounds to zero *)
Definition format_0f (x : float) : string :=
  match Prim2SF x with
  | S754_zero s => if s then "-0" else "0"
  | S754_infinity s => if s then "-inf" else "inf"
  | S754_nan => "nan"
  | S754_finite s m e =>
      (if s then "-" else "") +:+ pretty (round_half_even (Z.pos m) e)
  end.

(** lines 1727-1768: the subject and the body for a threshold *)
Definition template (threshold : Z)
    (student_name module_code lecturer_name : string) (total_absences : Z)
    (current_mark : float) : string * string :=
  if bool_decide (threshold = 21) then
    ("CRITICAL: You are at risk of failing " +:+ module_code,
     "Hi " +:+ student_name +:+ "," +:+ nl +:+ nl
     +:+ "This is a critical notice regarding your enrollment in " +:+ module_code +:+ "." +:+ nl +:+ nl
     +:+ "You have missed " +:+ pretty total_absences +:+ " classes, which means your current mark is " +:+ format_0f current_mark +:+ "% - below the 60% pass threshold. You are now at risk of failing this module." +:+ nl +:+ nl
     +:+ "This is an urgent situation that requires immediate action. I need you to:" +:+ nl +:+ nl
     +:+ "1. Contact me immediately to discuss your situation" +:+ nl
     +:+ "2. Attend every remaining class without exception" +:+ nl
     +:+ "3. Consider whether you may qualify for special consideration (illness, family emergency, etc.)" +:+ nl +:+ nl
     +:+ "If you're facing serious challenges that have affected your attendance, you may be able to submit a special consideration request through the system. Please reach out to me or Student Counselling (counselling@dut.ac.za) for guidance." +:+ nl +:+ nl
     +:+ "I want to help you succeed, but you must take action now." +:+ nl +:+ nl
     +:+ "Urgent regards," +:+ nl
     +:+ lecturer_name)
  else if bool_decide (threshold = 18) then
    ("Urgent: Your attendance in " +:+ module_code +:+ " needs attention",
     "Hi " +:+ student_name +:+ "," +:+ nl +:+ nl
     +:+ "This is an important message about your progress in " +:+ module_code +:+ "." +:+ nl +:+ nl
     +:+ "You have now missed " +:+ pretty total_absences +:+ " classes, which means your current mark is " +:+ format_0f current_mark +:+ "%. You are very close to falling below the 60% pass threshold." +:+ nl +:+ nl
     +:+ "If you miss just 3 more classes, you will fail the module. I'm reaching out because I want to help you avoid this outcome." +:+ nl +:+ nl
     +:+ "Please consider this a serious warning. I strongly encourage you to:" +:+ nl
     +:+ "- Attend all remaining classes" +:+ nl
     +:+ "- Meet with me to discuss any challenges you're facing" +:+ nl
     +:+ "- Reach out to Student Counselling if you need support: counselling@dut.ac.za" +:+ nl +:+ nl
     +:+ "It's not too late to turn things around, but you need to act now." +:+ nl +:+ nl
     +:+ "Sincerely," +:+ nl
     +:+ lecturer_name)
  else
    ("Check-in: We miss you in " +:+ module_code,
     "Hi " +:+ student_name +:+ "," +:+ nl +:+ nl
     +:+ "I wanted to reach out because I've noticed you've missed " +:+ pretty total_absences +:+ " classes in " +:+ module_code +:+ " so far this semester." +:+ nl +:+ nl
     +:+ "Your current attendance puts you at " +:+ format_0f current_mark +:+ "% for the module. You've dropped slightly below our 70% target, but you're still above the 60% pass threshold. However, if you miss 5 more classes, your mark will drop below 60% and you'll be at risk of failing." +:+ nl +:+ nl
     +:+ "I believe in your ability to succeed, and I'm here to support you. If there's anything affecting your attendance - whether it's personal challenges, academic struggles, or anything else - please don't hesitate to reach out to me." +:+ nl +:+ nl
     +:+ "You can also contact DUT Student Counselling confidentially at: counselling@dut.ac.za" +:+ nl +:+ nl
     +:+ "Let's work together to get you back on track." +:+ nl +:+ nl
     +:+ "Best regards," +:+ nl
     +:+ lecturer_name).

(** what the route answers *)
Inductive outcome :=
| Completed (message : string) (students_contacted : list string)
    (errors : option (list string))
| Refused (r : reply).

(** the counters and lists of lines 1702-1704, and the calls of
    [send_email], each with the threshold it was made for and what it
    returned *)
Record tally := Tally {
  emails_sent : Z;
  at_risk_students : list string;
  email_errors : list string;
  mail_log : list (Z * email * bool)
}.

(** the loop of lines 1718-1787: the first threshold of the list that the
    count reaches; the [break] ends the loop there *)
Fixpoint threshold_loop (thresholds : list Z) (total_absences : Z)
  : option Z :=
  match thresholds with
  | [] => None
  | threshold :: rest =>
      if bool_decide (threshold ≤ total_absences) then Some threshold
      else threshold_loop rest total_absences
  end.

Section Route.

Variable get_user : string → option (option string).
Variable send_email : email → bool.

(** one turn of the loop of lines 1706-1787 *)
Definition check_student (attendance_records : list attendance_record)
    (module_id : Z) (module_code lecturer_name : string)
    (classes_held TOTAL_SEMESTER_CLASSES : Z) (t : tally) (student : student)
  : tally :=
  let student_name := st_full_name student in
  let total_absences :=
    AtRisk.total_absences attendance_records (st_id student) module_id in
  match threshold_loop [21; 18; 16] total_absences with
  | None => t
  | Some threshold =>
      let '(subject, body) :=
        template threshold student_name module_code lecturer_name
          total_absences
          (current_mark classes_held total_absences TOTAL_SEMESTER_CLASSES) in
      let message := Email (st_email student) subject body in
      let email_result := send_email message in
      let log := mail_log t ++ [(threshold, message, email_result)] in
      if email_result
      then Tally (emails_sent t + 1)
             (at_risk_students t
              ++ [student_name +:+ " (" +:+ pretty total_absences
                  +:+ " absences - " +:+ pretty threshold +:+ " threshold)"])
             (email_errors t) log
      else Tally (emails_sent t) (at_risk_students t)
             (email_errors t ++ [student_name +:+ ": Email send failed"])
             log
  end.

(** lines 1789-1797 *)
Definition completed (t : tally) : outcome :=
  let result_message :=
    "At-risk check completed. Sent " +:+ pretty (emails_sent t)
    +:+ " warning email(s)." in
  match email_errors t with
  | [] => Completed result_message (at_risk_students t) None
  | errors =>
      Completed
        (result_message +:+ " "
         +:+ pretty (Z.of_nat (length errors)) +:+ " email(s) failed.")
        (at_risk_students t) (Some errors)
  end.

(** [api_run_at_risk_check()]: the answer and the calls of [send_email];
    [today] is the date of the clock reading of line 1674 *)
Definition api_run_at_risk_check (auth_header : option string)
    (modules : list owned_module) (students : list student)
    (lecture_schedules : list lecture) (today : date)
    (attendance_records : list attendance_record)
  : outcome * list (Z * email * bool) :=
  match authenticate get_user "Authentication required." "Invalid token."
          auth_header with
  | Rejected r => (Refused r, [])
  | AuthRaised => (Refused (Raised 500), [])
  | Authenticated lecturer_id =>
      match single (filter (λ m, om_lecturer_id m = lecturer_id) modules) with
      | None => (Refused (Raised 500), [])
      | Some module_res =>
          let module_id := mo_id (om_module module_res) in
          let module_code := mo_module_code (om_module module_res) in
          match filter (λ s, st_module_code s = module_code) students with
          | [] => (Refused (Reply 404 "No students found."), [])
          | students_res =>
              let TOTAL_SEMESTER_CLASSES :=
                Z.of_nat
                  (length (filter (λ l, le_module_id l = module_id)
                                  lecture_schedules)) in
              let classes_held :=
                Z.of_nat
                  (length (filter (λ l, le_module_id l = module_id
                                        ∧ le_lecture_date l ≤ today)
                                  lecture_schedules)) in
              (* [MARK_PER_CLASS = 100 / TOTAL_SEMESTER_CLASSES] *)
              if bool_decide (TOTAL_SEMESTER_CLASSES = 0)
              then (Refused (Raised 500), [])
              else
                match single (filter (λ m, mo_id (om_module m) = module_id)
                                     modules) with
                | None => (Refused (Raised 500), [])
                | Some lecturer_res =>
                    let lecturer_name :=
                      default "Your Lecturer"
                        (mo_lecturers (om_module lecturer_res)) in
                    let t :=
                      foldl (check_student attendance_records module_id
                               module_code lecturer_name classes_held
                               TOTAL_SEMESTER_CLASSES)
                            (Tally 0 [] [] []) students_res in
                    (completed t, mail_log t)
                end
          end
      end
  end.

End Route.

(** In words: the highest of the thresholds 16, 18 and 21 that a count of
    absences has reached *)
Definition highest_threshold_reached (total_absences : Z) : option Z :=
  if bool_decide (21 ≤ total_absences) then Some 21
  else if bool_decide (18 ≤ total_absences) then Some 18
  else if bool_decide (16 ≤ total_absences) then Some 16
  else None.

(** whom the route writes to for a student, if it does *)
Definition warned (attendance_records : list attendance_record)
    (module_id : Z) (s : student) : option (Z * option string) :=
  (λ threshold, (threshold, st_email s))
    <$> highest_threshold_reached
          (AtRisk.total_absences attendance_records (st_id s) module_id).

(** whom a call of [send_email] was for *)
Definition addressee (call : Z * email * bool) : Z * option string :=
  (call.1.1, recipient call.1.2).

End BulkAtRisk.
(** ** The raffle: [api_pick_winners] *)
Module PickWinners.

Import Responses.



(** the value of a run of decimal digits at the start of the text *)
Fixpoint digits_value (s : string) (acc : Z) : Z :=
  match s with
  | EmptyString => acc
  | String c rest =>
      match Campaign.digit_value c with
      | Some d => digits_value rest (10 * acc + d)
      | None => acc
      end
  end.

(** [int(re.search(r'x(\d+)', text).group(1))] on ASCII text: the number
    after the first [x] that is followed by a digit; [None] when the
    search finds nothing. (Python also reads the decimal digits of other
    scripts.) *)
Fixpoint search_x_digits (text : string) : option Z :=
  match text with
  | EmptyString => None
  | String c rest =>
      if bool_decide (c = "x"%char)
      then match rest with
           | String d _ =>
               if bool_decide (is_Some (Campaign.digit_value d))
               then Some (digits_value rest 0)
               else search_x_digits rest
           | EmptyString => None
           end
      else search_x_digits rest
  end.

(** lines 1497-1498 *)
Definition num_winners (incentive : string) : Z :=
  default 1 (search_x_digits incentive).



Section Route.

Variable get_user : string → option (option string).
(** [random.sample(population, k)] for [k] up to the size of the
    population *)
Variable sample : list participant → nat → list participant.


(** line 1525 *)
Definition server_error : reply :=
  Reply 500 "An unexpected server error occurred.".


End Route.


End PickWinners.

(** ** Concrete data used by the examples below *)
Module Examples.

(** 2025-01-06 (a Monday) is day 739256 since 0001-01-01 *)
Definition monday : date := 739256.

Definition at_time (d : date) (h m s : Z) : datetime :=
  combine d (mk_time h m s).

(** two Monday classes whose attendance windows overlap *)
Definition lecture_a : session := Session 1 101 1 (9, 0, 0) (10, 0, 0).
Definition lecture_b : session := Session 2 102 1 (9, 10, 0) (10, 10, 0).

(** a Monday row whose start time reads 24:00:00, which is no time of day *)
Definition malformed_row : session := Session 4 104 1 (24, 0, 0) (25, 0, 0).

(** a Monday class that starts a quarter of an hour before midnight *)
Definition late_class : session := Session 3 103 1 (23, 45, 0) (23, 59, 0).

(** a kiosk whose camera sees no face: both detection attempts raise *)
Definition no_face : unit → bool → option (list (list float)) :=
  λ _ _, None.

(** a kiosk whose camera sees one face, matched to one student *)
Definition one_face : unit → bool → option (list (list float)) :=
  λ _ strict, if strict then None else Some [[0.5%float; 0.25%float]].
Definition match_thandi : list float → option (list (string * string)) :=
  λ _, Some [("s-001", "Thandi Nkosi")].

Definition capture : string := "data:image/jpeg;base64,/9j/4AAQ".

(** a request at the time h:m:s of the Monday, with the override off *)
Definition kiosk_clock (h m s : Z) : Attendance.clock :=
  Attendance.Clock (at_time monday h m s) (λ _, at_time monday h m s)
    (at_time monday h m s) false (at_time monday h m s)
    (at_time monday h m s).

(** a request at the simulated time h:m:s of the Monday, with the override
    on, while the store's own clock shows a day fourteen weeks later *)
Definition simulated_clock (h m s : Z) : Attendance.clock :=
  Attendance.Clock (at_time monday h m s) (λ _, at_time monday h m s)
    (at_time monday h m s) true (at_time monday h m s)
    (at_time (monday + 98) 15 0 0).

(** rows of that Monday for another student and for another module, and a
    row of the student a week before *)
Definition other_marks : list attendance_record :=
  [AttendanceRecord "s-002" 101 present (at_time monday 9 1 0);
   AttendanceRecord "s-001" 102 present (at_time monday 8 0 0);
   AttendanceRecord "s-001" 101 present (at_time (monday - 7) 9 5 0)].

(** the table after a backfill marked the student absent for the Monday
    at 08:00 *)
Definition marked_absent : list attendance_record :=
  [AttendanceRecord "s-001" 101 absent (at_time monday 8 0 0)].

(** a student of module 101 with sixteen absences, and a relay that
    accepts every message *)
Definition thandi : student :=
  Student "s-001" "Thandi Nkosi" (Some "thandi@dut4life.ac.za") "SODM401".
Definition sodm401 : module_row := ModuleRow 101 "SODM401" (Some "Dr Dube").
Definition sixteen_absences : list attendance_record :=
  replicate 16 (AttendanceRecord "s-001" 101 absent (at_time monday 10 0 0)).
Definition relay_up : email → bool := λ _, true.


Definition first_warning : AtRisk.world :=
  AtRisk.check_and_send_at_risk_warning relay_up sixteen_absences [thandi]
    [sodm401] "s-001" 101 (AtRisk.World [] []).

(** a week with one lecture of module 101 and two students on its rolls,
    of whom only one has a row in the week *)
Definition sipho : student :=
  Student "s-002" "Sipho Zulu" (Some "sipho@dut4life.ac.za") "SODM401".
Definition lecture_week : list lecture :=
  [Lecture monday 101 (Some "SODM401")].
Definition week_records : list attendance_record :=
  [AttendanceRecord "s-001" 101 present (at_time monday 9 5 0)].

(** a quiz of one multiple-choice question whose correct answer is B *)
Definition one_question : list Campaign.question :=
  [Campaign.Question 1 (Some "B")].

(** the students praised for that week, with their messages *)
Definition week_praise : list (string * email) :=
  Eval vm_compute in
    (default ([], [])
       (Weekly.weekly_groups 0 lecture_week week_records [thandi; sipho]
          (monday + 7) sodm401)).1.

(** a week with two lectures of module 101: one student present at both,
    one at neither, one at the first only *)
Definition lindiwe : student :=
  Student "s-003" "Lindiwe Khumalo" (Some "lindiwe@dut4life.ac.za") "SODM401".
Definition two_lectures : list lecture :=
  [Lecture monday 101 (Some "SODM401");
   Lecture (monday + 2) 101 (Some "SODM401")].
Definition two_lecture_records : list attendance_record :=
  [AttendanceRecord "s-001" 101 present (at_time monday 9 5 0);
   AttendanceRecord "s-003" 101 present (at_time monday 9 6 0);
   AttendanceRecord "s-002" 101 absent (at_time monday 10 0 0);
   AttendanceRecord "s-001" 101 present (at_time (monday + 2) 9 5 0);
   AttendanceRecord "s-002" 101 absent (at_time (monday + 2) 10 0 0);
   AttendanceRecord "s-003" 101 absent (at_time (monday + 2) 10 0 0)].
Definition two_lecture_groups
  : list (string * email) * list (string * email) :=
  Eval vm_compute in
    default ([], [])
      (Weekly.weekly_groups 0 two_lectures two_lecture_records
         [thandi; sipho; lindiwe] (monday + 7) sodm401).

(** a quiz of two questions *)
Definition two_questions : list Campaign.question :=
  [Campaign.Question 1 (Some "B"); Campaign.Question 2 (Some "C")].

(** the lecturer of module 101, and an identity service that knows one
    session token *)
Definition lecturer_modules : list Http.owned_module :=
  [Http.OwnedModule "lect-1" sodm401].
Definition one_lecturer : string → option (option string) :=
  λ token,
    if bool_decide (token = "tok-1") then Some (Some "lect-1") else Some None.

(** a quiz campaign of one question, and a serializer that knows one link,
    signed at the second 900 and sent to the student s-001 *)
Definition quiz : Responses.campaign :=
  Responses.Campaign 7 "lect-1" "WEEKLY_QUIZ" "Week 3 quiz" "Voucher x2".
Definition quiz_rows : list Responses.question_row :=
  [Responses.QuestionRow 7 (Campaign.Question 1 (Some "B"))
     "Which layer routes packets?" "multiple_choice"].
Definition quiz_options : list (Z * string) :=
  [(1, "A"); (1, "B"); (1, "C")].
Definition one_link : string → option (Z * (Z * string)) :=
  λ token,
    if bool_decide (token = "link-7-s-001")
    then Some (900, (7, "s-001")) else None.
Definition no_responses : Responses.tables := Responses.Tables [] [].

(** the Monday lecture with its topic, the table after the class of 09:00
    to 10:00 has been swept, and the notice that goes to the student who
    was not there *)
Definition routing_lecture : list Daily.planned_lecture :=
  [Daily.PlannedLecture monday 101 (Some "Routing") (Some sodm401)].
Definition after_class : list attendance_record :=
  week_records ++ [AttendanceRecord "s-002" 101 absent (at_time monday 10 0 0)].
Definition sipho_notice : email :=
  Daily.catch_up "SODM401" (Some "Routing") "Dr Dube" "Sipho Zulu"
    "sipho@dut4life.ac.za".

(** a scheduler that has not run yet, two minutes after that class, and a
    set that is iterated in the order it was built *)
Definition fresh_start : Scheduler.state :=
  Scheduler.State week_records (AtRisk.World [] []) [] []
    (Scheduler.LastRun [] None).
Definition listed_order : list string → list string := λ l, l.


End Examples.
Import Examples.

(** * Properties *)

(** ** Facts about dates and times *)

Lemma us_per_day_pos : 0 < us_per_day.
Proof. reflexivity. Qed.

Lemma dt_time_range d : 0 <= dt_time d < us_per_day.
Proof. apply Z.mod_pos_bound, us_per_day_pos. Qed.

Lemma start_of_day_le d : start_of_day d <= d.
Proof.
  unfold start_of_day, dt_date. rewrite Z.mul_comm.
  apply Z.mul_div_le, us_per_day_pos.
Qed.

Lemma dt_time_combine d t :
  0 <= t < us_per_day -> dt_time (combine d t) = t.
Proof.
  intros Ht. unfold dt_time, combine.
  rewrite Z.add_comm, Z_mod_plus_full. by apply Z.mod_small.
Qed.

Lemma monday_is_monday : weekday monday = 0.
Proof. reflexivity. Qed.

(** ** The time machine *)
Section TimeMachineFacts.

Import TimeMachine.

Lemma post_pins s0 S R0 now_checked :
  pinned S R0 (api_system_time_control_post s0 true (Some S) R0 now_checked).
Proof. by repeat split. Qed.

Lemma pinned_current_time S R0 s real_now :
  pinned S R0 s → current_time s real_now = S + (real_now - R0).
Proof.
  intros (Ho & Hs & Hp). unfold current_time. by rewrite Ho, Hs, Hp.
Qed.

Lemma pinned_refresh S R0 s real_now :
  pinned S R0 s → pinned S R0 (refresh s real_now (FetchRow true (Some S))).
Proof.
  intros (Ho & Hs & Hp). unfold refresh, pinned.
  rewrite Ho, Hs. rewrite !bool_decide_eq_false_2 by (intros H; by apply H).
  simpl. by rewrite Hs, Hp.
Qed.

Lemma pinned_get_system_time S R0 s real_now :
  pinned S R0 s →
  let o := get_system_time s real_now (FetchRow true (Some S)) in
  returned o = S + (real_now - R0) ∧ pinned S R0 (cache o).
Proof.
  intros Hp. unfold get_system_time.
  destruct (cache_stale s real_now); simpl.
  - split; [|by apply pinned_refresh].
    by apply pinned_current_time, pinned_refresh.
  - split; [by apply pinned_current_time|done].
Qed.

Lemma pinned_run_calls S R0 calls : ∀ s,
  pinned S R0 s →
  Forall (λ c, c.2 = FetchRow true (Some S)) calls →
  run_calls s calls = map (λ c, S + (c.1 - R0)) calls.
Proof.
  induction calls as [|[real_now res] calls IH]; intros s Hp Hall; [done|].
  inversion Hall as [|? ? Hres Hrest]; subst. simpl in Hres. subst res.
  destruct (pinned_get_system_time S R0 s real_now Hp) as [Hret Hcache].
  simpl. rewrite Hret. f_equal. by apply IH.
Qed.

(** C3. Once the POST of [/api/system-time] has enabled the override with
    simulated start [S] and pinned it at the real time [R0], and while the
    store keeps answering with the row that POST wrote, every call of
    [get_system_time] at a real time [t] returns [S + (t - R0)]: the
    simulated clock advances in lockstep with the real one, whatever the
    spacing of the calls and whichever of them refresh the cache. *)
Theorem time_simulation_advances s0 S R0 now_checked calls :
  Forall (λ c, c.2 = FetchRow true (Some S)) calls →
  run_calls (api_system_time_control_post s0 true (Some S) R0 now_checked)
            calls
  = map (λ c, S + (c.1 - R0)) calls.
Proof. apply pinned_run_calls, post_pins. Qed.

Lemma time_simulation_advances_witness :
  let S := at_time monday 8 55 0 in
  let R0 := at_time (monday + 2) 14 0 0 in
  let row := FetchRow true (Some S) in
  let calls := [(R0 + seconds 5, row); (R0 + seconds 20, row);
                (R0 + minutes 10, row)] in
  run_calls (api_system_time_control_post initial_settings true (Some S) R0
               (R0 + 1)) calls
  = [at_time monday 8 55 5; at_time monday 8 55 20; at_time monday 9 5 0].
Proof.
  intros S R0 row calls.
  rewrite (time_simulation_advances initial_settings S R0 (R0 + 1) calls).
  - reflexivity.
  - repeat constructor.
Defined.

(** When the store is read: exactly when [last_checked] is unset or the
    seconds field of the elapsed [timedelta] is above 10. *)
Lemma store_read_iff s real_now res :
  store_reads (get_system_time s real_now res) = 1%nat
  ↔ last_checked s = None
    ∨ ∃ lc, last_checked s = Some lc ∧ td_seconds (real_now - lc) > 10.
Proof.
  unfold get_system_time, cache_stale.
  destruct (last_checked s) as [lc|]; simpl.
  - case_bool_decide; simpl; split; try done.
    + intros _. right. by exists lc.
    + intros [?|(lc' & [= <-] & ?)]; done.
  - split; [by left|done].
Qed.

(** the seconds field forgets whole days and the fraction of a second *)
Lemma td_seconds_spec td :
  td_seconds td > 10 ↔ seconds 11 ≤ td mod us_per_day.
Proof.
  unfold td_seconds, seconds, us_per_day, us_per_second.
  pose proof (Z.mod_pos_bound td (86400 * 1000000) eq_refl).
  split; intros H1.
  - apply Z.gt_lt in H1.
    assert (11 ≤ (td `mod` (86400 * 1000000)) `div` 1000000) as H2 by lia.
    apply (Z.mul_le_mono_nonneg_l _ _ 1000000) in H2; [|lia].
    pose proof (Z.mul_div_le (td `mod` (86400 * 1000000)) 1000000 eq_refl).
    lia.
  - apply Z.lt_gt. apply Z.lt_le_trans with 11; [lia|].
    apply Z.div_le_lower_bound; lia.
Qed.

(** C5. A day and five seconds after the last check (more than 10
    seconds), [get_system_time] does not read the store: the guard looks at
    [timedelta.seconds], which drops the whole days. *)
Theorem stale_cache_not_refetched ov sim pin lc res :
  store_reads
    (get_system_time (Settings ov sim pin (Some lc))
       (lc + seconds 86405) res) = 0%nat.
Proof.
  unfold get_system_time, cache_stale. simpl.
  replace (lc + seconds 86405 - lc) with (seconds 86405) by lia.
  reflexivity.
Qed.

(** ten and a half seconds after the last check the store is not read
    either: the seconds field is 10 *)
Lemma half_second_not_counted ov sim pin lc res :
  store_reads
    (get_system_time (Settings ov sim pin (Some lc))
       (lc + seconds 10 + 500000) res) = 0%nat.
Proof.
  unfold get_system_time, cache_stale. simpl.
  replace (lc + seconds 10 + 500000 - lc) with (seconds 10 + 500000) by lia.
  reflexivity.
Qed.

(** from 11 seconds up to a day after the last check the store is read *)
Lemma refetch_within_a_day ov sim pin lc real_now res :
  seconds 11 ≤ real_now - lc < us_per_day →
  store_reads
    (get_system_time (Settings ov sim pin (Some lc)) real_now res) = 1%nat.
Proof.
  intros H. apply store_read_iff. right. exists lc. split; [done|].
  apply td_seconds_spec.
  rewrite Z.mod_small; [lia|]. unfold seconds, us_per_second in H. lia.
Qed.

(** with [last_checked] unset the store is read *)
Lemma refetch_when_unset ov sim pin real_now res :
  store_reads (get_system_time (Settings ov sim pin None) real_now res)
  = 1%nat.
Proof. reflexivity. Qed.

End TimeMachineFacts.

(** ** The attendance window *)

Lemma strptime_HMS_range text T :
  strptime_HMS text = Some T → 0 ≤ T ≤ mk_time 23 59 59.
Proof.
  destruct text as [[h m] s]. unfold strptime_HMS.
  case_bool_decide as H; [|done]. intros [= <-].
  unfold mk_time, seconds, us_per_second. lia.
Qed.

(** the end of the window does not depend on the date of the reading, and
    is the start plus half an hour unless that passes midnight *)
Lemma attendance_end_time_no_wrap today T :
  0 ≤ T → T + minutes 30 < us_per_day →
  attendance_end_time today T = T + minutes 30.
Proof.
  intros H0 H1. unfold attendance_end_time.
  replace (combine today T + minutes 30)
    with (combine today (T + minutes 30)) by (unfold combine; lia).
  apply dt_time_combine. unfold minutes, us_per_second in *. lia.
Qed.

Lemma attendance_end_time_le today T :
  0 ≤ T → attendance_end_time today T ≤ T + minutes 30.
Proof.
  intros H0. unfold attendance_end_time, dt_time.
  replace (combine today T + minutes 30)
    with ((T + minutes 30) + today * us_per_day) by (unfold combine; lia).
  rewrite Z_mod_plus_full. apply Z.mod_le; [|apply us_per_day_pos].
  unfold minutes, us_per_second. lia.
Qed.

Lemma window_open_inside today T current_time :
  0 ≤ T → window_open today T current_time = true →
  T ≤ current_time ≤ T + minutes 30.
Proof.
  intros H0. unfold window_open. rewrite andb_true_iff.
  rewrite !bool_decide_eq_true. intros [H1 H2].
  pose proof (attendance_end_time_le today T H0). lia.
Qed.

Lemma window_open_no_wrap today T current_time :
  0 ≤ T → T + minutes 30 < us_per_day →
  window_open today T current_time
  = bool_decide (T ≤ current_time ≤ T + minutes 30).
Proof.
  intros H0 H1. unfold window_open.
  rewrite attendance_end_time_no_wrap by done.
  repeat case_bool_decide; simpl; try done; lia.
Qed.

Lemma scan_sessions_skip current_time later pre rest : ∀ i,
  Forall (outside_window current_time) pre →
  scan_sessions (pre ++ rest) current_time later i
  = scan_sessions rest current_time later (i + length pre).
Proof.
  induction pre as [|r pre IH]; intros i Hpre; simpl.
  - by rewrite Nat.add_0_r.
  - inversion Hpre as [|? ? (T' & Hparse & Hout) Hpre']; subst.
    rewrite Hparse.
    destruct (window_open _ T' current_time) eqn:Hopen.
    + apply window_open_inside in Hopen; [done|].
      by apply strptime_HMS_range in Hparse as [? _].
    + rewrite IH by done. f_equal. lia.
Qed.

Lemma scan_sessions_none current_time later data : ∀ i,
  Forall (outside_window current_time) data →
  scan_sessions data current_time later i = None.
Proof.
  intros i H. rewrite <- (app_nil_r data).
  by rewrite scan_sessions_skip.
Qed.

Lemma get_current_class_session_scan class_timetable now later :
  get_current_class_session class_timetable now later
  = scan_sessions
      (filter (λ s, se_day_of_week s = weekday (dt_date now) + 1)
              class_timetable)
      (dt_time now) later 0.
Proof.
  unfold get_current_class_session.
  by destruct (filter _ class_timetable).
Qed.

(** C1, as stated, fails: at 09:15 on a Monday the entry that starts at
    09:10 is on the day's timetable and its window [09:10, 09:40] contains
    the time, yet the function returns the entry that starts at 09:00,
    which stands before it in the table. *)
Lemma later_entry_not_returned :
  let class_timetable := [lecture_a; lecture_b] in
  let now := at_time monday 9 15 0 in
  let T := mk_time 9 10 0 in
  lecture_b ∈ class_timetable
  ∧ se_day_of_week lecture_b = weekday (dt_date now) + 1
  ∧ strptime_HMS (se_start_time lecture_b) = Some T
  ∧ T ≤ dt_time now ≤ T + minutes 30
  ∧ get_current_class_session class_timetable now (λ _, now)
    = Some lecture_a
  ∧ Some lecture_a ≠ Some lecture_b.
Proof.
  repeat split; try done.
  apply list_elem_of_In. simpl. tauto.
Qed.

(** no row whose window contains the time is passed over, so without such
    a row the scan finds nothing; a row whose text is no time of day ends
    it *)
Lemma scan_sessions_no_window current_time later data : ∀ i,
  Forall (λ r, ¬ window_contains current_time r) data →
  scan_sessions data current_time later i = None.
Proof.
  induction data as [|r data IH]; intros i Hall; simpl; [done|].
  apply Forall_cons in Hall as [Hr Hall].
  destruct (strptime_HMS (se_start_time r)) as [T'|] eqn:Hparse; [|done].
  destruct (window_open _ T' current_time) eqn:Hopen; [|by apply IH].
  destruct Hr. exists T'. split; [done|].
  eapply window_open_inside; [|exact Hopen].
  by apply strptime_HMS_range in Hparse as [? _].
Qed.

(** C1, amended. Let the rows of the current simulated weekday be
    [pre ++ e :: post] in table order, where [e] starts at [T] and its half
    hour ends before midnight. If every row of [pre] has a start time that
    is a time of day and a window that does not contain the time of day,
    the function returns [e] at every time of day in [T, T + 30 min]. If no
    row of [pre] or [post] has a window that contains the time of day, it
    returns none from [T + 30 min + 1 s] on. *)
Theorem attendance_window class_timetable now later pre e post T :
  filter (λ s, se_day_of_week s = weekday (dt_date now) + 1) class_timetable
  = pre ++ e :: post →
  strptime_HMS (se_start_time e) = Some T →
  T + minutes 30 < us_per_day →
  (Forall (outside_window (dt_time now)) pre →
   T ≤ dt_time now ≤ T + minutes 30 →
   get_current_class_session class_timetable now later = Some e)
  ∧ (Forall (λ r, ¬ window_contains (dt_time now) r) (pre ++ post) →
     T + minutes 30 + seconds 1 ≤ dt_time now →
     get_current_class_session class_timetable now later = None).
Proof.
  intros Hdata Hparse Hend.
  pose proof (strptime_HMS_range _ _ Hparse) as [H0 _].
  rewrite get_current_class_session_scan, Hdata. split.
  - intros Hpre Hin. rewrite scan_sessions_skip by done. simpl.
    rewrite Hparse, window_open_no_wrap by done.
    by rewrite bool_decide_eq_true_2.
  - intros Hothers Hafter. apply scan_sessions_no_window.
    apply Forall_app in Hothers as [Hpre Hpost].
    apply Forall_app. split; [done|]. constructor; [|done].
    intros (T' & HT' & Hin). rewrite Hparse in HT'. injection HT' as <-.
    unfold seconds, us_per_second in Hafter. lia.
Qed.

(** a malformed row (its text reads 24:00:00) before the class of 09:00 *)
Lemma attendance_window_witness :
  get_current_class_session [late_class; lecture_a; lecture_b]
    (at_time monday 9 30 0) (λ _, at_time monday 9 30 0) = Some lecture_a
  ∧ get_current_class_session [malformed_row; late_class; lecture_a]
      (at_time monday 9 30 1) (λ _, at_time monday 9 30 1) = None.
Proof.
  split.
  - apply (attendance_window [late_class; lecture_a; lecture_b]
             (at_time monday 9 30 0) (λ _, at_time monday 9 30 0)
             [late_class] lecture_a [lecture_b] (mk_time 9 0 0));
      try reflexivity.
    + repeat constructor. exists (mk_time 23 45 0). split; [done|].
      vm_compute. intros [H _]. by apply H.
    + vm_compute. split; discriminate.
  - apply (attendance_window [malformed_row; late_class; lecture_a]
             (at_time monday 9 30 1) (λ _, at_time monday 9 30 1)
             [malformed_row; late_class] lecture_a [] (mk_time 9 0 0));
      try reflexivity.
    repeat constructor.
    + intros (T' & HT' & _). discriminate HT'.
    + intros (T' & HT' & Hin). injection HT' as <-.
      vm_compute in Hin. destruct Hin as [H _]. by apply H.
Defined.

(** the amended claim needs the rows before the entry to be well formed:
    with a row whose start time is no time of day before the class of
    09:00, no window but that of the class contains 09:15, and the function
    returns none *)
Lemma malformed_row_hides_class :
  ¬ window_contains (mk_time 9 15 0) malformed_row
  ∧ window_contains (mk_time 9 15 0) lecture_a
  ∧ get_current_class_session [malformed_row; lecture_a]
      (at_time monday 9 15 0) (λ _, at_time monday 9 15 0) = None.
Proof.
  split; [intros (T' & HT' & _); discriminate HT'|].
  split; [|reflexivity].
  exists (mk_time 9 0 0). split; [reflexivity|]. vm_compute.
  split; discriminate.
Qed.

(** A window that would pass midnight is never open: for a class that
    starts at 23:45 the function returns none at 23:50, because the end of
    the window is reduced to the time of day 00:15. *)
Lemma window_past_midnight_closed :
  get_current_class_session [late_class] (at_time monday 23 50 0)
    (λ _, at_time monday 23 50 0) = None.
Proof. reflexivity. Qed.

(** ** Marking attendance *)
Section AttendanceFacts.

Import Attendance.

Context {image : Type}.
Variable decode_image : string → option image.
Variable represent : image → bool → option (list (list float)).
Variable match_student : list float → option (list (string * string)).

Local Abbreviation mark :=
  (api_mark_attendance image decode_image represent match_student).
Local Abbreviation resolves :=
  (resolves_to image decode_image represent match_student).

Lemma both_attempts_fail img :
  represent img true = None → represent img false = None →
  get_face_embedding image represent img = None.
Proof. intros H1 H2. unfold get_face_embedding. by rewrite H1, H2. Qed.

(** once a request resolves to a student, the answer is decided by the
    existence check alone *)
Lemma mark_resolved class_timetable attendance_records clk image_data
    active_class student_id full_name :
  resolves class_timetable clk image_data active_class student_id full_name →
  mark class_timetable attendance_records clk (ImageData image_data)
  = if bool_decide
         (0 < length (existing_record attendance_records student_id
                        (se_module_id active_class)
                        (start_of_day (now_check clk))))%nat
    then ((ErrorBody
             (full_name
              +:+ " has already been marked present for this class."),
           409), attendance_records)
    else ((MarkedBody ("Attendance marked for " +:+ full_name +:+ "!")
             full_name, 200),
          attendance_records
          ++ [AttendanceRecord student_id (se_module_id active_class)
                present (created_at clk)]).
Proof.
  intros (Hopen & header & encoded & live & emb & others
          & Hsplit & Hdec & Hemb & Hne & Hmatch).
  unfold api_mark_attendance.
  rewrite Hopen, Hsplit, Hdec, Hemb. simpl.
  destruct emb as [|x emb]; [done|]. simpl. by rewrite Hmatch.
Qed.

Lemma existing_record_elem attendance_records student_id module_id
    today_start r :
  r ∈ attendance_records →
  ar_student_id r = student_id → ar_module_id r = module_id →
  today_start ≤ ar_created_at r →
  (0 < length (existing_record attendance_records student_id module_id
                 today_start))%nat.
Proof.
  intros Hin H1 H2 H3.
  assert (r ∈ existing_record attendance_records student_id module_id
                today_start) as Hr
    by (unfold existing_record; apply list_elem_of_filter; auto).
  destruct (existing_record _ _ _ _); [by apply elem_of_nil in Hr|].
  simpl. lia.
Qed.

(** C2. Let two successive requests resolve to the same student in the
    same open class. If no row of the table is a row of that student and
    that module created at or after the start of the simulated day of the
    first request, and the second request falls on the day of the stamp of
    the first record (the simulated time of the first request when the
    override is on, the store's clock otherwise), then the first request
    is answered 200 and appends one [present] row of the student and the
    module with that stamp, and the second is answered 409 with the
    student's name and inserts nothing. *)
Theorem duplicate_mark_rejected class_timetable attendance_records
    clk1 clk2 image_data1 image_data2 active_class student_id full_name :
  let stamp := if override_enabled clk1 then now_stamp clk1
               else store_now clk1 in
  resolves class_timetable clk1 image_data1 active_class student_id
    full_name →
  resolves class_timetable clk2 image_data2 active_class student_id
    full_name →
  (∀ r, r ∈ attendance_records → ar_student_id r = student_id →
        ar_module_id r = se_module_id active_class →
        ar_created_at r < dt_date (now_check clk1) * us_per_day) →
  dt_date (now_check clk2) = dt_date stamp →
  let first := mark class_timetable attendance_records clk1
                 (ImageData image_data1) in
  let second := mark class_timetable first.2 clk2 (ImageData image_data2) in
  first
  = ((MarkedBody ("Attendance marked for " +:+ full_name +:+ "!") full_name,
      200),
     attendance_records
     ++ [AttendanceRecord student_id (se_module_id active_class) present
           stamp])
  ∧ second
    = ((ErrorBody
          (full_name +:+ " has already been marked present for this class."),
        409), first.2).
Proof.
  intros stamp H1 H2 Hnone Hday first second.
  assert (existing_record attendance_records student_id
            (se_module_id active_class) (start_of_day (now_check clk1)) = [])
    as Hempty.
  { unfold existing_record.
    destruct (filter _ attendance_records) as [|r l] eqn:E; [done|].
    assert (r ∈ filter (λ r, ar_student_id r = student_id
                             ∧ ar_module_id r = se_module_id active_class
                             ∧ start_of_day (now_check clk1)
                               ≤ ar_created_at r) attendance_records) as Hr
      by (rewrite E; by left).
    apply list_elem_of_filter in Hr as [(Hs & Hm & Hge) Hr].
    pose proof (Hnone r Hr Hs Hm). unfold start_of_day in Hge. lia. }
  assert (first
          = ((MarkedBody ("Attendance marked for " +:+ full_name +:+ "!")
                full_name, 200),
             attendance_records
             ++ [AttendanceRecord student_id (se_module_id active_class)
                   present stamp])) as Hfirst.
  { unfold first. rewrite (mark_resolved _ _ _ _ _ _ _ H1), Hempty.
    by rewrite bool_decide_eq_false_2 by (simpl; lia). }
  split; [done|].
  unfold second. rewrite (mark_resolved _ _ _ _ _ _ _ H2).
  rewrite bool_decide_eq_true_2; [done|].
  rewrite Hfirst. simpl.
  eapply existing_record_elem; [apply elem_of_app; right; by left|done..|].
  simpl. unfold start_of_day. rewrite Hday. apply start_of_day_le.
Qed.

(** C4, amended. With the window open and a capture that decodes, a
    request whose capture yields no embedding is answered 400 (bad
    request) with the message that no face could be detected, and the
    table is left as it was. *)
Theorem no_face_bad_request class_timetable attendance_records clk
    image_data active_class header encoded live_image :
  get_current_class_session class_timetable (now_session clk)
    (later_session clk) = Some active_class →
  split_comma image_data = Some (header, encoded) →
  decode_image encoded = Some live_image →
  represent live_image true = None →
  represent live_image false = None →
  mark class_timetable attendance_records clk (ImageData image_data)
  = ((ErrorBody "No face could be detected in the image.", 400),
     attendance_records).
Proof.
  intros Hopen Hsplit Hdec Hs Hr. unfold api_mark_attendance.
  rewrite Hopen, Hsplit, Hdec.
  by rewrite (both_attempts_fail _ Hs Hr).
Qed.

(** C9. The existence check does not look at the status: a student who has
    a record of the module created at or after the start of the simulated
    day, whatever its status (so also a student with only an [absent]
    record), is answered 409 and nothing is inserted. *)
Theorem absent_record_blocks_mark class_timetable attendance_records clk
    image_data active_class student_id full_name r :
  resolves class_timetable clk image_data active_class student_id
    full_name →
  r ∈ attendance_records →
  ar_student_id r = student_id →
  ar_module_id r = se_module_id active_class →
  start_of_day (now_check clk) ≤ ar_created_at r →
  mark class_timetable attendance_records clk (ImageData image_data)
  = ((ErrorBody
        (full_name +:+ " has already been marked present for this class."),
      409), attendance_records).
Proof.
  intros Hres Hin Hs Hm Hday.
  rewrite (mark_resolved _ _ _ _ _ _ _ Hres).
  rewrite bool_decide_eq_true_2; [done|].
  by eapply existing_record_elem.
Qed.

End AttendanceFacts.

Lemma simulated_resolves h m s :
  get_current_class_session [lecture_a] (at_time monday h m s)
    (λ _, at_time monday h m s) = Some lecture_a →
  Attendance.resolves_to unit (λ _, Some ()) one_face match_thandi
    [lecture_a] (simulated_clock h m s) capture lecture_a "s-001"
    "Thandi Nkosi".
Proof.
  intros Hopen. split; [exact Hopen|].
  exists "data:image/jpeg;base64", "/9j/4AAQ", (),
         [0.5%float; 0.25%float], [].
  by repeat split.
Qed.

Lemma kiosk_resolves h m s :
  get_current_class_session [lecture_a] (at_time monday h m s)
    (λ _, at_time monday h m s) = Some lecture_a →
  Attendance.resolves_to unit (λ _, Some ()) one_face match_thandi
    [lecture_a] (kiosk_clock h m s) capture lecture_a "s-001" "Thandi Nkosi".
Proof.
  intros Hopen. split; [exact Hopen|].
  exists "data:image/jpeg;base64", "/9j/4AAQ", (),
         [0.5%float; 0.25%float], [].
  by repeat split.
Qed.

(** The override is on: the first request is stamped with its simulated
    time, not with the clock of the store, which shows a later day. The
    table already holds rows of another student, of another module and of
    an earlier day, which do not stand in the way. *)
Lemma duplicate_mark_rejected_witness :
  let first :=
    Attendance.api_mark_attendance unit (λ _, Some ()) one_face match_thandi
      [lecture_a] other_marks (simulated_clock 9 5 0)
      (Attendance.ImageData capture) in
  let second :=
    Attendance.api_mark_attendance unit (λ _, Some ()) one_face match_thandi
      [lecture_a] first.2 (simulated_clock 9 6 0)
      (Attendance.ImageData capture) in
  first
  = ((Attendance.MarkedBody "Attendance marked for Thandi Nkosi!"
        "Thandi Nkosi", 200),
     other_marks
     ++ [AttendanceRecord "s-001" 101 present (at_time monday 9 5 0)])
  ∧ second
    = ((Attendance.ErrorBody
          "Thandi Nkosi has already been marked present for this class.",
        409),
       other_marks
       ++ [AttendanceRecord "s-001" 101 present (at_time monday 9 5 0)]).
Proof.
  apply (duplicate_mark_rejected (λ _, Some ()) one_face match_thandi
           [lecture_a] other_marks (simulated_clock 9 5 0)
           (simulated_clock 9 6 0) capture capture lecture_a "s-001"
           "Thandi Nkosi").
  - by apply simulated_resolves.
  - by apply simulated_resolves.
  - intros r Hr Hs Hm. unfold other_marks in Hr.
    repeat (apply elem_of_cons in Hr as [->|Hr]); try done.
    by apply elem_of_nil in Hr.
  - reflexivity.
Defined.

(** C4, as stated, fails: with the window open and both detection attempts
    raising, the answer is 400, not 404. *)
Lemma no_face_is_not_404 :
  let answer :=
    (Attendance.api_mark_attendance unit (λ _, Some ()) no_face
       match_thandi [lecture_a] [] (kiosk_clock 9 5 0)
       (Attendance.ImageData capture)).1 in
  no_face () true = None ∧ no_face () false = None
  ∧ Attendance.get_face_embedding unit no_face () = None
  ∧ answer
    = (Attendance.ErrorBody "No face could be detected in the image.", 400)
  ∧ answer.2 ≠ 404.
Proof. by repeat split. Qed.

Lemma no_face_bad_request_witness :
  Attendance.api_mark_attendance unit (λ _, Some ()) no_face match_thandi
    [lecture_a] marked_absent (kiosk_clock 9 5 0) (Attendance.ImageData capture)
  = ((Attendance.ErrorBody "No face could be detected in the image.", 400),
     marked_absent).
Proof.
  exact (no_face_bad_request (λ _, Some ()) no_face match_thandi
           [lecture_a] marked_absent (kiosk_clock 9 5 0) capture lecture_a
           "data:image/jpeg;base64" "/9j/4AAQ" ()
           eq_refl eq_refl eq_refl eq_refl eq_refl).
Defined.

Lemma absent_record_blocks_mark_witness :
  Forall (λ r, ar_status r ≠ present) marked_absent
  ∧ Attendance.api_mark_attendance unit (λ _, Some ()) one_face match_thandi
      [lecture_a] marked_absent (kiosk_clock 9 5 0)
      (Attendance.ImageData capture)
    = ((Attendance.ErrorBody
          "Thandi Nkosi has already been marked present for this class.",
        409), marked_absent).
Proof.
  split; [by repeat constructor|].
  apply (absent_record_blocks_mark (λ _, Some ()) one_face match_thandi
           [lecture_a] marked_absent (kiosk_clock 9 5 0) capture lecture_a
           "s-001" "Thandi Nkosi"
           (AttendanceRecord "s-001" 101 absent (at_time monday 8 0 0))).
  - by apply kiosk_resolves.
  - by left.
  - reflexivity.
  - reflexivity.
  - vm_compute. discriminate.
Defined.

(** ** The startup backfill *)
Section BackfillFacts.

Import Backfill.

Variable session_zone : Z.

Lemma records_exist_nonempty attendance_records module_id lecture_date :
  length (records_exist session_zone attendance_records module_id
            lecture_date) ≠ 0%nat
  ↔ ∃ r, r ∈ records_exist session_zone attendance_records module_id
               lecture_date.
Proof.
  destruct (records_exist _ _ _ _) as [|r l]; simpl; split.
  - done.
  - intros [r Hr]. by apply elem_of_nil in Hr.
  - intros _. exists r. by left.
  - done.
Qed.

(** a day that has records keeps having them when the table grows *)
Lemma records_exist_mono attendance_records later module_id lecture_date :
  attendance_records ⊆ later →
  length (records_exist session_zone attendance_records module_id
            lecture_date) ≠ 0%nat →
  length (records_exist session_zone later module_id lecture_date) ≠ 0%nat.
Proof.
  intros Hsub. rewrite !records_exist_nonempty. intros [r Hr].
  exists r. unfold records_exist in *.
  apply list_elem_of_filter in Hr as [HP Hin].
  apply list_elem_of_filter. split; [done|]. by apply Hsub.
Qed.

(** the rows inserted for a lecture fall within the day of the lecture *)
Lemma inserted_rows_exist attendance_records enrolled module_id lecture_date :
  enrolled ≠ [] →
  length (records_exist session_zone
            (attendance_records
             ++ absent_records_to_insert session_zone enrolled module_id
                  lecture_date)
            module_id lecture_date) ≠ 0%nat.
Proof.
  intros Hne. apply records_exist_nonempty.
  destruct enrolled as [|student enrolled]; [done|].
  exists (AttendanceRecord (st_id student) module_id absent
            (naive_timestamp session_zone lecture_date (mk_time 17 0 0))).
  unfold records_exist. apply list_elem_of_filter. split.
  - simpl. split; [done|].
    unfold naive_timestamp, combine, mk_time, seconds, us_per_second. lia.
  - apply elem_of_app. right. by left.
Qed.

(** the backfill only adds rows *)
Lemma backfill_loop_grows students lectures : ∀ attendance_records,
  attendance_records
  ⊆ backfill_loop session_zone students lectures attendance_records.
Proof.
  induction lectures as [|l ls IH]; intros records; simpl; [done|].
  destruct (le_modules l) as [code|]; [|done].
  case_bool_decide; [|apply IH].
  destruct (enrolled_students students code) as [|s ss]; [apply IH|].
  etrans; [|apply IH]. intros r Hr. apply elem_of_app. by left.
Qed.

(** on any table that contains the outcome of a run, a run over the same
    lectures and students inserts nothing *)
Lemma backfill_loop_stable students lectures : ∀ attendance_records later,
  backfill_loop session_zone students lectures attendance_records ⊆ later →
  backfill_loop session_zone students lectures later = later.
Proof.
  induction lectures as [|l ls IH]; intros records later Hsub; simpl in *;
    [done|].
  destruct (le_modules l) as [code|]; [|done].
  destruct (decide (length (records_exist session_zone records
                              (le_module_id l) (le_lecture_date l))
                    = 0%nat)) as [Hnone|Hsome].
  - rewrite bool_decide_eq_true_2 in Hsub by done.
    destruct (enrolled_students students code) as [|s ss] eqn:Henr.
    + case_bool_decide; by eapply IH.
    + rewrite bool_decide_eq_false_2; [by eapply IH|].
      eapply records_exist_mono; [|by apply (inserted_rows_exist records
                                               (s :: ss))].
      etrans; [apply backfill_loop_grows|exact Hsub].
  - rewrite bool_decide_eq_false_2 in Hsub by done.
    rewrite bool_decide_eq_false_2; [by eapply IH|].
    eapply records_exist_mono; [|exact Hsome].
    etrans; [apply backfill_loop_grows|exact Hsub].
Qed.

Lemma backfill_missed_attendance_loop today lecture_schedules students
    attendance_records :
  backfill_missed_attendance session_zone today lecture_schedules students
    attendance_records
  = backfill_loop session_zone students
      (filter (λ l, le_lecture_date l < today) lecture_schedules)
      attendance_records.
Proof.
  unfold backfill_missed_attendance.
  by destruct (filter _ lecture_schedules).
Qed.

(** C6. Run again on the table it has produced, with the same lecture
    schedule, the same students and the same date, the startup backfill
    inserts nothing: every lecture day it filled now has records within
    that day and is skipped by the existence check. *)
Theorem backfill_idempotent today lecture_schedules students
    attendance_records :
  let once := backfill_missed_attendance session_zone today lecture_schedules
                students attendance_records in
  backfill_missed_attendance session_zone today lecture_schedules students
    once = once.
Proof.
  intros once. unfold once. rewrite !backfill_missed_attendance_loop.
  by eapply backfill_loop_stable.
Qed.

(** the first run does fill a lecture day without records: the rows of the
    enrolled students, all [absent] and stamped 17:00:00 on the day *)
Lemma backfill_fills_empty_day today l students attendance_records code :
  le_lecture_date l < today →
  le_modules l = Some code →
  enrolled_students students code ≠ [] →
  records_exist session_zone attendance_records (le_module_id l)
    (le_lecture_date l) = [] →
  backfill_missed_attendance session_zone today [l] students
    attendance_records
  = attendance_records
    ++ absent_records_to_insert session_zone
         (enrolled_students students code) (le_module_id l)
         (le_lecture_date l).
Proof.
  intros Hpast Hcode Henr Hnone. rewrite backfill_missed_attendance_loop.
  rewrite filter_cons_True by done. rewrite filter_nil. simpl.
  rewrite Hcode, Hnone. simpl.
  by destruct (enrolled_students students code).
Qed.

End BackfillFacts.

(** the day after a lecture that left no rows, the first run marks the two
    enrolled students absent at 17:00:00 and the second run adds nothing *)
Lemma backfill_twice_example :
  let once :=
    Backfill.backfill_missed_attendance 0 (monday + 1) lecture_week
      [thandi; sipho] [] in
  once = [AttendanceRecord "s-001" 101 absent (at_time monday 17 0 0);
          AttendanceRecord "s-002" 101 absent (at_time monday 17 0 0)]
  ∧ Backfill.backfill_missed_attendance 0 (monday + 1) lecture_week
      [thandi; sipho] once = once.
Proof. by vm_compute. Qed.

(** ** The automatic at-risk trigger *)
Section AtRiskFacts.

Import AtRisk.

Variable send_email : email → bool.

Local Abbreviation loop := (warning_loop send_email).

(** every threshold has its template *)
Lemma template_defined threshold total student_name module_code
    lecturer_name :
  threshold ∈ thresholds →
  is_Some (template threshold total student_name module_code lecturer_name).
Proof.
  intros Hin. unfold thresholds in Hin.
  apply list_elem_of_In in Hin. simpl in Hin.
  unfold template.
  destruct Hin as [<-|[<-|[<-|[]]]];
    repeat (case_bool_decide; [by eexists|]); done.
Qed.

(** a count that is no threshold of the list triggers nothing *)
Lemma warning_loop_no_match levels total students modules student_id
    module_id : ∀ w,
  total ∉ levels →
  loop levels total students modules student_id module_id w = w.
Proof.
  induction levels as [|threshold rest IH]; intros w Hnot; simpl; [done|].
  apply not_elem_of_cons in Hnot as [Hne Hnot].
  rewrite bool_decide_eq_false_2 by done. by apply IH.
Qed.

(** with a ledger row for the count reached, nothing is sent or written *)
Lemma warning_loop_already_warned levels total students modules student_id
    module_id : ∀ w,
  existing_warning (at_risk_warnings w) student_id module_id total ≠ [] →
  loop levels total students modules student_id module_id w = w.
Proof.
  induction levels as [|threshold rest IH]; intros w Hex; simpl; [done|].
  case_bool_decide as Heq; [|by apply IH].
  subst threshold.
  destruct (existing_warning _ _ _ _) eqn:E; [done|]. apply IH. by rewrite E.
Qed.


(** the turn of the loop that sends: the count stands once in the list of
    thresholds, no ledger row exists for it, and the student and the
    module are found *)
Lemma warning_loop_sends pre post total students modules student_id
    module_id w st m subject body :
  total ∉ pre → total ∉ post →
  existing_warning (at_risk_warnings w) student_id module_id total = [] →
  single (filter (λ s, st_id s = student_id) students) = Some st →
  single (filter (λ m, mo_id m = module_id) modules) = Some m →
  template total total (st_full_name st) (st_module_code st)
    (default "Your Lecturer" (mo_lecturers m)) = Some (subject, body) →
  let message := Email (st_email st) subject body in
  loop (pre ++ total :: post) total students modules student_id module_id w
  = World
      (at_risk_warnings w
       ++ (if send_email message
           then [AtRiskWarning student_id module_id total total] else []))
      (mail_log w ++ [(total, message, send_email message)]).
Proof.
  intros Hpre Hpost Hnone Hst Hm Htpl message.
  induction pre as [|threshold pre IH]; simpl.
  - rewrite bool_decide_eq_true_2 by done.
    rewrite Hnone, Hst, Hm, Htpl. fold message.
    destruct (send_email message);
      rewrite warning_loop_no_match by done; [done|].
    by rewrite app_nil_r.
  - apply not_elem_of_cons in Hpre as [Hne Hpre].
    rewrite bool_decide_eq_false_2 by done. by apply IH.
Qed.



End AtRiskFacts.


(** ** The weekly summary *)
Section WeeklyFacts.

Import Weekly.

Variable session_zone : Z.

Lemma update_item_keys student_data key f k :
  k ∈ (update_item student_data key f).*1 ↔ k ∈ student_data.*1 ∨ k = key.
Proof.
  induction student_data as [|[k0 e] rest IH]; simpl.
  - rewrite list_elem_of_singleton. split; [by right|].
    intros [H|H]; [by apply elem_of_nil in H|done].
  - case_bool_decide as Heq; simpl.
    + subst k0. rewrite !elem_of_cons. tauto.
    + rewrite !elem_of_cons, IH. tauto.
Qed.

(** the keys of the dictionary are the students of the rows counted *)
Lemma count_records_keys records : ∀ student_data k,
  k ∈ (foldl count_record student_data records).*1
  ↔ k ∈ student_data.*1 ∨ k ∈ wr_student_id <$> records.
Proof.
  induction records as [|r records IH]; intros student_data k; simpl.
  - split; [by left|]. intros [H|H]; [done|by apply elem_of_nil in H].
  - rewrite IH. unfold count_record. rewrite update_item_keys.
    rewrite elem_of_cons. tauto.
Qed.

Lemma group_items_keys g total module_code lecturer_name student_data k :
  k ∈ (group_items g total module_code lecturer_name student_data).*1 →
  k ∈ student_data.*1.
Proof.
  unfold group_items. rewrite !list_elem_of_fmap.
  intros ([k' message] & -> & Hin). simpl.
  apply list_elem_of_omap in Hin as ([k0 e] & Hin & Hsome).
  exists (k0, e). split; [|done]. simpl in *.
  destruct (classify _ _ _ _) as [[g' m]|]; [|done].
  case_bool_decide; [|done]. by injection Hsome as -> _.
Qed.

Lemma weekly_records_students attendance_records students module_id today k :
  k ∈ wr_student_id
        <$> weekly_records session_zone attendance_records students
              module_id today →
  ∃ r, r ∈ attendance_records
       ∧ ar_student_id r = k
       ∧ ar_module_id r = module_id
       ∧ naive_timestamp session_zone (start_of_last_week today)
           (mk_time 0 0 0) ≤ ar_created_at r
       ∧ ar_created_at r
         ≤ naive_timestamp session_zone (end_of_last_week today)
             (mk_time 23 59 59).
Proof.
  unfold weekly_records. rewrite <- list_fmap_compose. simpl.
  rewrite list_elem_of_fmap. intros (r & -> & Hin).
  apply list_elem_of_filter in Hin as [(H1 & H2 & H3) Hin].
  by exists r.
Qed.

(** C10. The two lists of a module are drawn from the students who have
    an attendance row of the module within the week: a student without
    any such row is in neither list, whatever the number of lectures
    scheduled that week, and so is handed no weekly message. *)
Theorem weekly_lists_only_recorded lecture_schedules attendance_records
    students today module student_id perfect zero :
  (∀ r, r ∈ attendance_records →
        ar_module_id r = mo_id module →
        naive_timestamp session_zone (start_of_last_week today)
          (mk_time 0 0 0) ≤ ar_created_at r →
        ar_created_at r
        ≤ naive_timestamp session_zone (end_of_last_week today)
            (mk_time 23 59 59) →
        ar_student_id r ≠ student_id) →
  weekly_groups session_zone lecture_schedules attendance_records students
    today module = Some (perfect, zero) →
  (student_id ∉ perfect.*1) ∧ (student_id ∉ zero.*1)
  ∧ weekly_module session_zone lecture_schedules attendance_records students
      today module = Some (perfect.*2, zero.*2).
Proof.
  intros Hnone Hgroups.
  assert (student_id
          ∉ (count_records
               (weekly_records session_zone attendance_records students
                  (mo_id module) today)).*1) as Hkey.
  { unfold count_records. rewrite count_records_keys.
    intros [H|H]; [by apply elem_of_nil in H|].
    apply weekly_records_students in H as (r & Hin & Hs & Hm & H1 & H2).
    by apply (Hnone r). }
  split_and!.
  - unfold weekly_groups in Hgroups.
    destruct (mo_lecturers module); [|done].
    case_bool_decide; [injection Hgroups as <- <-; apply not_elem_of_nil|].
    destruct (weekly_records _ _ _ _ _) eqn:E;
      [injection Hgroups as <- <-; apply not_elem_of_nil|].
    injection Hgroups as <- <-. intros Hin. by apply group_items_keys in Hin.
  - unfold weekly_groups in Hgroups.
    destruct (mo_lecturers module); [|done].
    case_bool_decide; [injection Hgroups as <- <-; apply not_elem_of_nil|].
    destruct (weekly_records _ _ _ _ _) eqn:E;
      [injection Hgroups as <- <-; apply not_elem_of_nil|].
    injection Hgroups as <- <-. intros Hin. by apply group_items_keys in Hin.
  - unfold weekly_module. by rewrite Hgroups.
Qed.

End WeeklyFacts.

Lemma weekly_lists_only_recorded_witness :
  Weekly.total_lectures_this_week lecture_week 101 (monday + 7) = 1
  ∧ week_praise.*1 = ["s-001"]
  ∧ ("s-002" ∉ week_praise.*1)
  ∧ Weekly.weekly_module 0 lecture_week week_records [thandi; sipho]
      (monday + 7) sodm401
    = Some (week_praise.*2, []).
Proof.
  split; [reflexivity|]. split; [reflexivity|].
  destruct (weekly_lists_only_recorded 0 lecture_week week_records
              [thandi; sipho] (monday + 7) sodm401 "s-002" week_praise [])
    as (Hperfect & _ & Hmodule).
  - intros r Hin _ _ _. apply list_elem_of_singleton in Hin. by subst r.
  - reflexivity.
  - by split.
Defined.

(** ** Quiz scoring *)
Section CampaignFacts.

Import Campaign.

(** the dictionary of correct answers, for a table without repeated ids *)
Lemma correct_answers_lookup questions : ∀ (m0 : gmap Z (option string)) k v,
  NoDup (q_id <$> questions) →
  foldl (λ m q, <[q_id q := q_correct_answer q]> m) m0 questions !! k = Some v
  ↔ (∃ q, q ∈ questions ∧ q_id q = k ∧ q_correct_answer q = v)
    ∨ ((k ∉ q_id <$> questions) ∧ m0 !! k = Some v).
Proof.
  induction questions as [|q rest IH]; intros m0 k v Hnd; simpl.
  - split; [intros H; right; split; [apply not_elem_of_nil|done]|].
    intros [(q & Hq & _)|[_ H]]; [by apply elem_of_nil in Hq|done].
  - apply NoDup_cons in Hnd as [Hq Hnd]. rewrite IH by done.
    destruct (decide (k = q_id q)) as [->|Hne].
    + rewrite lookup_insert_eq. split.
      * intros [(q' & Hin & Hid & Hv)|[_ [= <-]]].
        -- exfalso. apply Hq. apply list_elem_of_fmap. by exists q'.
        -- left. exists q. split; [by left|done].
      * intros [(q' & Hin & Hid & Hv)|[Hnot _]].
        -- apply elem_of_cons in Hin as [->|Hin]; [right; by subst|].
           exfalso. apply Hq. apply list_elem_of_fmap. by exists q'.
        -- exfalso. apply Hnot. by left.
    + rewrite lookup_insert_ne by done. split.
      * intros [(q' & Hin & Hid & Hv)|[Hnot Hm]].
        -- left. exists q'. split; [by right|done].
        -- right. split; [|done]. by apply not_elem_of_cons.
      * intros [(q' & Hin & Hid & Hv)|[Hnot Hm]].
        -- apply elem_of_cons in Hin as [->|Hin]; [done|].
           left. by exists q'.
        -- right. split; [|done]. by apply not_elem_of_cons in Hnot as [_ ?].
Qed.

(** an item scores exactly when it hits a question of the table *)
Lemma scores_iff questions key answer :
  NoDup (q_id <$> questions) →
  (∀ q, q ∈ questions → q_correct_answer q ≠ Some EmptyString) →
  scores (correct_answers_map questions) key answer = true
  ↔ ∃ q, q ∈ questions ∧ hit key answer q = true.
Proof.
  intros Hnd Hne. unfold scores, correct_answers_map, hit. split.
  - destruct (foldl _ ∅ questions !! key) as [v|] eqn:E; [|done].
    apply correct_answers_lookup in E as [(q & Hin & Hid & Hv)|[_ E]];
      [|by apply lookup_empty_Some in E|done].
    subst v. simpl. destruct (q_correct_answer q) as [c|] eqn:Hc; [|done].
    destruct c as [|x c]; [done|]. intros Heq%bool_decide_eq_true.
    exists q. split; [done|]. apply bool_decide_eq_true.
    by rewrite Hid, Hc, Heq.
  - intros (q & Hin & [Hid Hans]%bool_decide_eq_true).
    injection Hid as Hid.
    destruct (q_correct_answer q) as [c|] eqn:Hc; [|done].
    injection Hans as Hans.
    assert (foldl (λ m q, <[q_id q := q_correct_answer q]> m) ∅ questions
              !! key = Some (Some c)) as ->.
    { apply correct_answers_lookup; [done|]. left. by exists q. }
    simpl. destruct c as [|x c]; [by destruct (Hne q Hin)|].
    by apply bool_decide_eq_true.
Qed.

(** two tests that never hold together split the count *)
Lemma count_disjoint {A} (p q : A → bool) (l : list A) :
  (∀ x, x ∈ l → p x = true → q x = false) →
  length (List.filter (λ x, p x || q x) l)
  = (length (List.filter p l) + length (List.filter q l))%nat.
Proof.
  induction l as [|x l IH]; intros Hd; simpl; [done|].
  assert (length (List.filter (λ x, p x || q x) l)
          = (length (List.filter p l) + length (List.filter q l))%nat) as IH'
    by (apply IH; intros y Hy; apply Hd; by right).
  pose proof (Hd x (list_elem_of_here _ _)) as Hx.
  destruct (p x); simpl; [rewrite Hx by done; simpl; lia|].
  destruct (q x); simpl; lia.
Qed.

(** at most one question of a table without repeated ids is hit *)
Lemma hit_at_most_once questions key answer :
  NoDup (q_id <$> questions) →
  (length (List.filter (hit key answer) questions) ≤ 1)%nat.
Proof.
  induction questions as [|q rest IH]; simpl; [lia|].
  intros [Hq Hnd]%NoDup_cons. specialize (IH Hnd).
  destruct (hit key answer q) eqn:Hhit; [|done]. simpl.
  apply bool_decide_eq_true in Hhit as [[= ->] _].
  assert (List.filter (hit (q_id q) answer) rest = []) as ->; [|simpl; lia].
  clear IH Hnd. induction rest as [|q' rest IH]; simpl; [done|].
  apply not_elem_of_cons in Hq as [Hne Hq].
  unfold hit at 1. rewrite bool_decide_eq_false_2; [by apply IH|].
  intros [[= Heq] _]. by rewrite Heq in Hne.
Qed.

Lemma hit_count questions key answer :
  NoDup (q_id <$> questions) →
  (∀ q, q ∈ questions → q_correct_answer q ≠ Some EmptyString) →
  Z.of_nat (length (List.filter (hit key answer) questions))
  = if scores (correct_answers_map questions) key answer then 1 else 0.
Proof.
  intros Hnd Hne. pose proof (hit_at_most_once questions key answer Hnd).
  pose proof (scores_iff questions key answer Hnd Hne) as Hiff.
  destruct (scores _ key answer).
  - destruct (proj1 Hiff eq_refl) as (q & Hin & Hhit).
    assert (q ∈ List.filter (hit key answer) questions) as Hq.
    { apply list_elem_of_In, filter_In. split; [by apply list_elem_of_In|done]. }
    destruct (List.filter _ questions); [by apply elem_of_nil in Hq|].
    simpl in *. lia.
  - destruct (List.filter _ questions) as [|q l] eqn:E; [done|].
    assert (q ∈ List.filter (hit key answer) questions) as Hq
      by (rewrite E; by left).
    apply list_elem_of_In, filter_In in Hq as [Hin Hhit].
    assert (false = true); [|done]. apply Hiff. exists q.
    split; [by apply list_elem_of_In|done].
Qed.

Lemma parsed_key_listed (responses : list (string * json)) :
  ∀ keys item key,
  Forall2 (λ item key, py_int item.1 = Some key) responses keys →
  item ∈ responses → py_int item.1 = Some key → key ∈ keys.
Proof.
  induction responses as [|r rest IH]; intros keys item key Hall Hin Hp.
  - by apply elem_of_nil in Hin.
  - inversion Hall as [|? key0 ? keys' Hkey Hrest]; subst.
    apply elem_of_cons in Hin as [->|Hin].
    + rewrite Hp in Hkey. injection Hkey as ->. by left.
    + right. by eapply IH.
Qed.

(** the loop adds the number of questions answered correctly when no two
    keys of the response are read as the same integer *)
Lemma score_loop_unaliased questions responses : ∀ keys score,
  NoDup (q_id <$> questions) →
  (∀ q, q ∈ questions → q_correct_answer q ≠ Some EmptyString) →
  Forall2 (λ item key, py_int item.1 = Some key) responses keys →
  NoDup keys →
  score_loop (correct_answers_map questions) responses score
  = Some (score + questions_answered_correctly questions responses).
Proof.
  induction responses as [|[k a] rest IH]; intros keys score Hnd Hne Hkeys Hk.
  - simpl. unfold questions_answered_correctly. simpl.
    replace (List.filter _ questions) with (@nil question);
      [simpl; f_equal; lia|].
    clear. induction questions; simpl; done.
  - inversion Hkeys as [|? key ? keys' Hkey Hrest]; subst. simpl in Hkey.
    apply NoDup_cons in Hk as [Hfresh Hk].
    simpl. rewrite Hkey. rewrite (IH keys') by done. f_equal.
    unfold questions_answered_correctly.
    assert (∀ q, answered_correctly ((k, a) :: rest) q
                 = hit key a q || answered_correctly rest q) as Hext.
    { intros q. unfold answered_correctly, hit. simpl. by rewrite Hkey. }
    rewrite (filter_ext _ _ Hext).
    rewrite count_disjoint.
    + rewrite Nat2Z.inj_add, hit_count by done.
      destruct (scores _ key a); lia.
    + intros q _ [[= ->] _]%bool_decide_eq_true.
      unfold answered_correctly. apply not_true_is_false.
      intros (item & Hin & [Hp _]%bool_decide_eq_true)%existsb_exists.
      apply Hfresh. apply list_elem_of_In in Hin.
      by eapply parsed_key_listed.
Qed.

(** X14. With a table of questions without repeated ids and without empty
    correct answers, and a response none of whose keys are read as the same
    integer, the score is the number of questions answered correctly. *)
Lemma quiz_score_unaliased questions responses keys :
  NoDup (q_id <$> questions) →
  (∀ q, q ∈ questions → q_correct_answer q ≠ Some EmptyString) →
  Forall2 (λ item key, py_int item.1 = Some key) responses keys →
  NoDup keys →
  quiz_score questions responses
  = Some (questions_answered_correctly questions responses).
Proof.
  intros Hnd Hne Hkeys Hk. unfold quiz_score.
  by rewrite (score_loop_unaliased questions responses keys 0).
Qed.

(** the two cases of the specification: the answer B scores 1, the answer
    A scores 0 *)
Lemma quiz_right_answer :
  quiz_score one_question [("1", JString "B")] = Some 1
  ∧ questions_answered_correctly one_question [("1", JString "B")] = 1.
Proof. by vm_compute. Qed.

Lemma quiz_wrong_answer :
  quiz_score one_question [("1", JString "A")] = Some 0
  ∧ questions_answered_correctly one_question [("1", JString "A")] = 0.
Proof. by vm_compute. Qed.

(** an unanswered question adds nothing *)
Lemma quiz_unanswered :
  quiz_score [Question 1 (Some "B"); Question 2 (Some "C")]
    [("1", JString "B")] = Some 1.
Proof. by vm_compute. Qed.

(** a survey has no score *)
Lemma survey_has_no_score questions responses :
  response_score FEEDBACK_SURVEY questions responses = Some None.
Proof. reflexivity. Qed.

(** [int] on a few keys: blanks around the digits and single underscores
    between them are accepted, and so are the decimal digits and the spaces
    of other scripts; the control characters U+001C to U+001F, which
    [str.strip] removes, are not blanks for [int] *)
Example py_int_readings :
  py_int " 12 " = Some 12 ∧ py_int "+7" = Some 7 ∧ py_int "-0" = Some 0
  ∧ py_int "1_000" = Some 1000 ∧ py_int "1__0" = None
  ∧ py_int "١" = Some 1 ∧ py_int "٣٤" = Some 34
  ∧ py_int (String "194" (String "160" "1")) = Some 1
  ∧ py_int (String "031" "1") = None
  ∧ py_int "+ 1" = None ∧ py_int "1.0" = None ∧ py_int EmptyString = None.
Proof. by vm_compute. Qed.

(** [int] reads both keys as the question id 1 *)
Lemma alias_keys_parse : py_int "1" = Some 1 ∧ py_int "01" = Some 1.
Proof. by vm_compute. Qed.

(** C8. For the quiz of one question whose correct answer is B, the
    response object with the two distinct keys [1] and [01], both
    answered B, is given the score 2, while one question is answered
    correctly: [int] maps both keys to the question id 1, and the loop
    counts each item of the response. *)
Theorem alias_keys_score_twice :
  let responses := [("1", JString "B"); ("01", JString "B")] in
  NoDup responses.*1
  ∧ quiz_score one_question responses = Some 2
  ∧ questions_answered_correctly one_question responses = 1.
Proof.
  split; [|by vm_compute].
  repeat constructor; rewrite ?elem_of_cons, ?elem_of_nil;
    intuition discriminate.
Qed.

End CampaignFacts.

(** ** More on the attendance window *)

Lemma scan_sessions_some data current_time later : ∀ i s,
  scan_sessions data current_time later i = Some s →
  s ∈ data
  ∧ ∃ T j, strptime_HMS (se_start_time s) = Some T
           ∧ window_open (dt_date (later j)) T current_time = true.
Proof.
  induction data as [|r data IH]; intros i s; simpl; [done|].
  destruct (strptime_HMS (se_start_time r)) as [T|] eqn:Hparse; [|done].
  destruct (window_open _ T current_time) eqn:Hopen.
  - intros [= <-]. split; [by left|]. by exists T, i.
  - intros H. apply IH in H as [Hin H]. split; [by right|done].
Qed.

(** X1. A session returned by [get_current_class_session] is a row of the
    table for the current simulated weekday, and the time of day lies in
    the half hour that starts at its start time. *)
Theorem returned_session_is_open class_timetable now later s :
  get_current_class_session class_timetable now later = Some s →
  s ∈ class_timetable
  ∧ se_day_of_week s = weekday (dt_date now) + 1
  ∧ ∃ T, strptime_HMS (se_start_time s) = Some T
         ∧ T ≤ dt_time now ≤ T + minutes 30.
Proof.
  rewrite get_current_class_session_scan. intros H.
  apply scan_sessions_some in H as [Hin (T & j & Hparse & Hopen)].
  apply list_elem_of_filter in Hin as [Hday Hin].
  split; [done|]. split; [done|]. exists T. split; [done|].
  eapply window_open_inside; [|exact Hopen].
  by apply strptime_HMS_range in Hparse as [? _].
Qed.

Lemma returned_session_is_open_witness :
  lecture_a ∈ [late_class; lecture_a; lecture_b]
  ∧ se_day_of_week lecture_a = weekday (dt_date (at_time monday 9 15 0)) + 1
  ∧ ∃ T, strptime_HMS (se_start_time lecture_a) = Some T
         ∧ T ≤ dt_time (at_time monday 9 15 0) ≤ T + minutes 30.
Proof.
  apply (returned_session_is_open [late_class; lecture_a; lecture_b]
           (at_time monday 9 15 0) (λ _, at_time monday 9 15 0)).
  reflexivity.
Defined.

(** X2. A class whose half hour would pass midnight (a start at 23:30:00
    or later) is never returned, at any time of any day: the end of its
    window is reduced to a time of day before its start. *)
Theorem late_class_never_open class_timetable now later s T :
  strptime_HMS (se_start_time s) = Some T →
  us_per_day ≤ T + minutes 30 →
  get_current_class_session class_timetable now later ≠ Some s.
Proof.
  intros Hparse Hlate H. rewrite get_current_class_session_scan in H.
  apply scan_sessions_some in H as [_ (T' & j & Hparse' & Hopen)].
  rewrite Hparse in Hparse'. injection Hparse' as <-.
  apply strptime_HMS_range in Hparse as [H0 H1].
  unfold window_open in Hopen. apply andb_true_iff in Hopen as [Ha Hb].
  apply bool_decide_eq_true in Ha, Hb.
  unfold attendance_end_time in Hb. unfold dt_time in Ha, Hb.
  replace (combine (dt_date (later j)) T + minutes 30)
    with ((T + minutes 30 - us_per_day)
          + (dt_date (later j) + 1) * us_per_day) in Hb
    by (unfold combine; lia).
  rewrite Z_mod_plus_full in Hb.
  unfold minutes, mk_time, seconds, us_per_day, us_per_second in *.
  rewrite (Z.mod_small (T + 30 * 60 * 1000000 - 86400 * 1000000)) in Hb
    by lia.
  lia.
Qed.

Lemma late_class_never_open_witness :
  get_current_class_session [late_class] (at_time monday 23 50 0)
    (λ _, at_time monday 23 50 0) ≠ Some late_class.
Proof.
  apply (late_class_never_open [late_class] (at_time monday 23 50 0)
           (λ _, at_time monday 23 50 0) late_class (mk_time 23 45 0)).
  - reflexivity.
  - vm_compute. discriminate.
Defined.

(** X3. A row whose start time does not parse ends the scan: when the
    loop reaches it, the function returns none, whatever rows follow it in
    the table. *)
Theorem bad_start_time_hides_later_rows class_timetable now later pre r post :
  filter (λ s, se_day_of_week s = weekday (dt_date now) + 1) class_timetable
  = pre ++ r :: post →
  Forall (outside_window (dt_time now)) pre →
  strptime_HMS (se_start_time r) = None →
  get_current_class_session class_timetable now later = None.
Proof.
  intros Hdata Hpre Hbad.
  rewrite get_current_class_session_scan, Hdata.
  rewrite scan_sessions_skip by done. simpl. by rewrite Hbad.
Qed.

Lemma bad_start_time_hides_later_rows_witness :
  get_current_class_session [Session 9 109 1 (24, 0, 0) (24, 0, 0); lecture_a]
    (at_time monday 9 15 0) (λ _, at_time monday 9 15 0) = None
  ∧ get_current_class_session [lecture_a]
      (at_time monday 9 15 0) (λ _, at_time monday 9 15 0) = Some lecture_a.
Proof.
  split; [|reflexivity].
  apply (bad_start_time_hides_later_rows
           [Session 9 109 1 (24, 0, 0) (24, 0, 0); lecture_a]
           (at_time monday 9 15 0) (λ _, at_time monday 9 15 0)
           [] (Session 9 109 1 (24, 0, 0) (24, 0, 0)) [lecture_a]).
  - reflexivity.
  - constructor.
  - reflexivity.
Defined.

(** ** More on the time machine *)
Section MoreTimeMachine.

Import TimeMachine.

(** X4. When a refresh finds the override enabled with a start that is not
    the cached one, or finds it enabled while the cache had it disabled,
    the simulated clock starts from that start at the moment of this call:
    the call returns the start itself and pins it at the reading. *)
Theorem changed_settings_restart_clock s real_now S :
  cache_stale s real_now = true →
  simulated_start_time s ≠ Some S ∨ override_enabled s = false →
  let o := get_system_time s real_now (FetchRow true (Some S)) in
  returned o = S
  ∧ cache o = Settings true (Some S) (Some real_now) (Some real_now).
Proof.
  intros Hstale Hchange. unfold get_system_time. rewrite Hstale. simpl.
  assert (bool_decide (simulated_start_time s ≠ Some S)
          || bool_decide (override_enabled s ≠ true) = true) as ->.
  { apply orb_true_iff. destruct Hchange as [H|H].
    - left. by apply bool_decide_eq_true.
    - right. apply bool_decide_eq_true. by rewrite H. }
  simpl. unfold current_time. simpl. split; [lia|done].
Qed.

Lemma changed_settings_restart_clock_witness :
  let s := Settings false None None None in
  let o := get_system_time s (at_time (monday + 2) 14 0 0)
             (FetchRow true (Some (at_time monday 8 55 0))) in
  returned o = at_time monday 8 55 0
  ∧ cache o = Settings true (Some (at_time monday 8 55 0))
                (Some (at_time (monday + 2) 14 0 0))
                (Some (at_time (monday + 2) 14 0 0)).
Proof.
  apply (changed_settings_restart_clock (Settings false None None None)
           (at_time (monday + 2) 14 0 0) (at_time monday 8 55 0)).
  - reflexivity.
  - by left.
Defined.

End MoreTimeMachine.

(** ** More on marking attendance *)

Lemma split_comma_sound s : ∀ header encoded,
  Attendance.split_comma s = Some (header, encoded) →
  s = header +:+ "," +:+ encoded ∧ has_comma header = false.
Proof.
  induction s as [|c s IH]; intros header encoded; simpl; [done|].
  case_bool_decide as Hc.
  - intros [= <- <-]. by subst c.
  - destruct (Attendance.split_comma s) as [[h e]|]; [|done].
    intros [= <- <-]. destruct (IH h e eq_refl) as [-> Hno].
    simpl. by rewrite bool_decide_eq_false_2.
Qed.

Lemma split_comma_complete header : ∀ encoded,
  has_comma header = false →
  Attendance.split_comma (header +:+ "," +:+ encoded)
  = Some (header, encoded).
Proof.
  induction header as [|c header IH]; intros encoded; simpl.
  - done.
  - intros [Hc Hno]%orb_false_iff. apply bool_decide_eq_false in Hc.
    by rewrite bool_decide_eq_false_2, IH.
Qed.

(** X5. [split_comma] cuts the text at its first comma: it yields
    [(header, encoded)] exactly when the text is [header], a comma and
    [encoded], with no comma in [header]. *)
Theorem split_comma_spec s header encoded :
  Attendance.split_comma s = Some (header, encoded)
  ↔ s = header +:+ "," +:+ encoded ∧ has_comma header = false.
Proof.
  split; [apply split_comma_sound|].
  intros [-> Hno]. by apply split_comma_complete.
Qed.

Section MoreAttendance.

Import Attendance.

Context {image : Type}.
Variable decode_image : string → option image.
Variable represent : image → bool → option (list (list float)).
Variable match_student : list float → option (list (string * string)).

Local Abbreviation mark :=
  (api_mark_attendance image decode_image represent match_student).


(** X7. If no student has two [present] rows of one module stamped on the
    same day, a request keeps it so, provided its stamp falls on the day
    of its existence check. *)
Theorem mark_keeps_one_present_per_day class_timetable attendance_records
    clk data :
  one_present_per_day attendance_records →
  dt_date (created_at clk) = dt_date (now_check clk) →
  one_present_per_day
    (mark class_timetable attendance_records clk data).2.
Proof.
  intros Hinv Hday.
  unfold api_mark_attendance.
  destruct (get_current_class_session _ _ _) as [active|]; [|done].
  destruct data as [| | | | |image_data]; try done.
  destruct (split_comma image_data) as [[header encoded]|]; [|done].
  destruct (decode_image encoded) as [img|]; [|done].
  simpl. destruct (truthy_embedding _); simpl; [|done].
  destruct (match_student _) as [[|[sid name] others]|]; [done| |done].
  case_bool_decide as Hex; [done|]. simpl.
  assert (∀ r, r ∈ attendance_records → ar_student_id r = sid →
               ar_module_id r = se_module_id active →
               dt_date (ar_created_at r) ≠ dt_date (created_at clk)) as Hold.
  { intros r Hin Hs Hm Heq. apply Hex.
    eapply existing_record_elem; [exact Hin|done..|].
    unfold start_of_day. rewrite <- Hday, <- Heq. apply start_of_day_le. }
  intros i j r1 r2 Hi Hj Hij Hs Hm Hp1 Hp2.
  apply lookup_app_Some in Hi as [Hi|[Hli Hi]];
    apply lookup_app_Some in Hj as [Hj|[Hlj Hj]].
  - by eapply Hinv.
  - apply list_lookup_singleton_Some in Hj as [_ <-]. simpl in *.
    apply Hold; [by eapply list_elem_of_lookup_2|done..].
  - apply list_lookup_singleton_Some in Hi as [_ <-]. simpl in *.
    intros Heq. symmetry in Heq. revert Heq.
    apply Hold; [by eapply list_elem_of_lookup_2|done..].
  - apply list_lookup_singleton_Some in Hi as [Hi _].
    apply list_lookup_singleton_Some in Hj as [Hj _]. lia.
Qed.

End MoreAttendance.

Lemma mark_keeps_one_present_per_day_witness :
  let before :=
    [AttendanceRecord "s-001" 101 present (at_time (monday - 7) 9 5 0)] in
  one_present_per_day
    (Attendance.api_mark_attendance unit (λ _, Some ()) one_face
       match_thandi [lecture_a] before (kiosk_clock 9 5 0)
       (Attendance.ImageData capture)).2
  ∧ length
      (Attendance.api_mark_attendance unit (λ _, Some ()) one_face
         match_thandi [lecture_a] before (kiosk_clock 9 5 0)
         (Attendance.ImageData capture)).2 = 2%nat.
Proof.
  intros before. split; [|reflexivity].
  apply (mark_keeps_one_present_per_day (λ _, Some ()) one_face
           match_thandi [lecture_a] before (kiosk_clock 9 5 0)
           (Attendance.ImageData capture)).
  - intros i j r1 r2 Hi Hj Hij.
    destruct i as [|i], j as [|j]; simpl in *; done.
  - reflexivity.
Defined.

(** ** More on the startup backfill *)
Section MoreBackfill.

Import Backfill.

Variable session_zone : Z.

Lemma backfilled_from_mono students lectures later r :
  lectures ⊆ later →
  backfilled_from session_zone students lectures r →
  backfilled_from session_zone students later r.
Proof.
  intros Hsub (l & s & Hl & Hs & Hc & ->). exists l, s. auto.
Qed.

Lemma backfill_loop_adds students lectures : ∀ attendance_records,
  ∃ added,
    backfill_loop session_zone students lectures attendance_records
    = attendance_records ++ added
    ∧ Forall (backfilled_from session_zone students lectures) added.
Proof.
  induction lectures as [|l ls IH]; intros records; cbn [backfill_loop].
  { exists []. by rewrite app_nil_r. }
  destruct (le_modules l) as [code|] eqn:Hcode;
    [|exists []; by rewrite app_nil_r].
  assert (∀ rs, ∃ added,
            backfill_loop session_zone students ls rs = rs ++ added
            ∧ Forall (backfilled_from session_zone students (l :: ls))
                added) as IH'.
  { intros rs. destruct (IH rs) as (added & -> & Hall). exists added.
    split; [done|]. eapply Forall_impl; [exact Hall|].
    intros r. apply backfilled_from_mono. set_solver. }
  case_bool_decide; [|apply IH'].
  destruct (enrolled_students students code) as [|s ss] eqn:Henr;
    [apply IH'|].
  cbv beta iota.
  destruct (IH' (records
                 ++ absent_records_to_insert session_zone (s :: ss)
                      (le_module_id l) (le_lecture_date l)))
    as (added & -> & Hall).
  eexists. rewrite <- app_assoc. split; [reflexivity|].
  apply Forall_app. split; [|done].
  unfold absent_records_to_insert. apply Forall_fmap, Forall_forall.
  intros s' Hs'. rewrite <- Henr in Hs'. unfold enrolled_students in Hs'.
  apply list_elem_of_filter in Hs' as [Hs'code Hs'].
  exists l, s'. split; [by left|]. split; [done|]. by rewrite Hcode, Hs'code.
Qed.

(** X8. The startup backfill never changes or removes a row: it only
    appends rows, each the [absent] row of a student enrolled in the module
    of a lecture dated before today, stamped 17:00:00 on the lecture's
    date. *)
Theorem backfill_only_appends_absences today lecture_schedules students
    attendance_records :
  ∃ added,
    backfill_missed_attendance session_zone today lecture_schedules students
      attendance_records
    = attendance_records ++ added
    ∧ Forall (backfilled_from session_zone students
                (filter (λ l, le_lecture_date l < today) lecture_schedules))
             added.
Proof.
  rewrite backfill_missed_attendance_loop. apply backfill_loop_adds.
Qed.

Lemma inserted_rows_elsewhere enrolled module_id' d' module_id d :
  ¬ (module_id' = module_id ∧ d' = d) →
  records_exist session_zone
    (absent_records_to_insert session_zone enrolled module_id' d')
    module_id d = [].
Proof.
  intros Hne. unfold records_exist, absent_records_to_insert.
  induction enrolled as [|s ss IH]; [done|]. simpl.
  rewrite filter_cons_False; [done|]. simpl. intros (Hm & H1 & H2).
  apply Hne. split; [done|].
  unfold naive_timestamp, combine, mk_time, seconds, us_per_day,
    us_per_second in *. lia.
Qed.

Lemma backfill_loop_leaves_recorded_day students lectures module_id d :
  ∀ attendance_records,
  records_exist session_zone attendance_records module_id d ≠ [] →
  records_exist session_zone
    (backfill_loop session_zone students lectures attendance_records)
    module_id d
  = records_exist session_zone attendance_records module_id d.
Proof.
  induction lectures as [|l ls IH]; intros records Hex; cbn [backfill_loop];
    [done|].
  destruct (le_modules l) as [code|]; [|done].
  case_bool_decide as Hnone; [|by apply IH].
  destruct (enrolled_students students code) as [|s ss]; [by apply IH|].
  cbv beta iota.
  assert (records_exist session_zone
            (records
             ++ absent_records_to_insert session_zone (s :: ss)
                  (le_module_id l) (le_lecture_date l)) module_id d
          = records_exist session_zone records module_id d) as Hsame.
  { unfold records_exist at 1. rewrite filter_app.
    fold (records_exist session_zone records module_id d).
    fold (records_exist session_zone
            (absent_records_to_insert session_zone (s :: ss)
               (le_module_id l) (le_lecture_date l)) module_id d).
    rewrite inserted_rows_elsewhere; [by rewrite app_nil_r|].
    intros [Hm Hd]. apply Hex. rewrite <- Hm, <- Hd.
    by apply nil_length_inv. }
  rewrite IH; [done|]. by rewrite Hsame.
Qed.

(** X9. A lecture day of a module that already has at least one row is
    left as it is by the startup backfill: the rows of the module within
    that day are the same after the run (no partial backfill within a
    day). *)
Theorem backfill_leaves_recorded_day today lecture_schedules students
    attendance_records module_id d :
  records_exist session_zone attendance_records module_id d ≠ [] →
  records_exist session_zone
    (backfill_missed_attendance session_zone today lecture_schedules
       students attendance_records) module_id d
  = records_exist session_zone attendance_records module_id d.
Proof.
  intros Hex. rewrite backfill_missed_attendance_loop.
  by apply backfill_loop_leaves_recorded_day.
Qed.

End MoreBackfill.

Lemma backfill_leaves_recorded_day_witness :
  Backfill.records_exist 0
    (Backfill.backfill_missed_attendance 0 (monday + 1) lecture_week
       [thandi; sipho] week_records) 101 monday
  = week_records.
Proof.
  rewrite (backfill_leaves_recorded_day 0 (monday + 1) lecture_week
             [thandi; sipho] week_records 101 monday).
  - reflexivity.
  - vm_compute. discriminate.
Defined.

(** ** More on the automatic at-risk trigger *)
Section MoreAtRisk.

Import AtRisk.

Variable send_email : email → bool.

Local Abbreviation check := (check_and_send_at_risk_warning send_email).

(** X10. Only the exact counts 16, 18 and 21 trigger anything: at any
    other number of absences an invocation sends nothing and writes
    nothing, whatever the ledger holds. *)
Theorem off_threshold_count_does_nothing attendance_records students modules
    student_id module_id w :
  total_absences attendance_records student_id module_id ∉ thresholds →
  check attendance_records students modules student_id module_id w = w.
Proof. intros H. by apply warning_loop_no_match. Qed.

Lemma warning_loop_lookup_fails levels total students modules student_id
    module_id w :
  existing_warning (at_risk_warnings w) student_id module_id total = [] →
  single (filter (λ s, st_id s = student_id) students) = None
  ∨ single (filter (λ m, mo_id m = module_id) modules) = None →
  warning_loop send_email levels total students modules student_id module_id
    w = w.
Proof.
  intros Hnone Hfail. induction levels as [|threshold rest IH]; simpl; [done|].
  case_bool_decide as Heq; [subst threshold|done]. rewrite Hnone.
  destruct (single (filter _ students)); [|done].
  destruct Hfail as [?|Hm]; [done|]. by rewrite Hm.
Qed.

(** X11. An invocation either changes nothing, or makes exactly one call
    of [send_email], for the count reached, which is then one of the
    thresholds; the ledger gets a row for that level exactly when the call
    succeeded. *)
Theorem at_risk_one_call_at_most attendance_records students modules
    student_id module_id w :
  let total := total_absences attendance_records student_id module_id in
  let w' := check attendance_records students modules student_id module_id
              w in
  w' = w
  ∨ (total ∈ thresholds
     ∧ ∃ message,
         mail_log w' = mail_log w ++ [(total, message, send_email message)]
         ∧ at_risk_warnings w'
           = at_risk_warnings w
             ++ (if send_email message
                 then [AtRiskWarning student_id module_id total total]
                 else [])).
Proof.
  intros total w'. unfold w', check_and_send_at_risk_warning. fold total.
  destruct (decide (total ∈ thresholds)) as [Hin|Hout];
    [|left; by apply warning_loop_no_match].
  destruct (existing_warning (at_risk_warnings w) student_id module_id total)
    eqn:Hex; [|left; apply warning_loop_already_warned; by rewrite Hex].
  destruct (single (filter (λ s, st_id s = student_id) students))
    as [st|] eqn:Hst; [|left; apply warning_loop_lookup_fails; auto].
  destruct (single (filter (λ m, mo_id m = module_id) modules))
    as [m|] eqn:Hm; [|left; apply warning_loop_lookup_fails; auto].
  destruct (template_defined total total (st_full_name st)
              (st_module_code st)
              (default "Your Lecturer" (mo_lecturers m)) Hin)
    as [[subject body] Htpl].
  right. split; [done|]. exists (Email (st_email st) subject body).
  assert (warning_loop send_email thresholds total students modules
            student_id module_id w
          = World
              (at_risk_warnings w
               ++ (if send_email (Email (st_email st) subject body)
                   then [AtRiskWarning student_id module_id total total]
                   else []))
              (mail_log w
               ++ [(total, Email (st_email st) subject body,
                    send_email (Email (st_email st) subject body))]))
    as ->; [|done].
  clearbody total. unfold thresholds in *.
  apply list_elem_of_In in Hin. simpl in Hin.
  destruct Hin as [<-|[<-|[<-|[]]]].
  - apply (warning_loop_sends send_email [] [18; 21] _ students modules
             student_id module_id w st m subject body); try done;
      rewrite ?elem_of_cons, ?elem_of_nil; lia.
  - apply (warning_loop_sends send_email [16] [21] _ students modules
             student_id module_id w st m subject body); try done;
      rewrite ?elem_of_cons, ?elem_of_nil; lia.
  - apply (warning_loop_sends send_email [16; 18] [] _ students modules
             student_id module_id w st m subject body); try done;
      rewrite ?elem_of_cons, ?elem_of_nil; lia.
Qed.

End MoreAtRisk.

Lemma off_threshold_count_does_nothing_witness :
  AtRisk.total_absences (sixteen_absences ++ sixteen_absences) "s-001" 101
  = 32
  ∧ AtRisk.check_and_send_at_risk_warning relay_up
      (sixteen_absences ++ sixteen_absences) [thandi] [sodm401] "s-001" 101
      (AtRisk.World [] [])
    = AtRisk.World [] [].
Proof.
  split; [reflexivity|].
  apply (off_threshold_count_does_nothing relay_up
           (sixteen_absences ++ sixteen_absences) [thandi] [sodm401]
           "s-001" 101 (AtRisk.World [] [])).
  intros Hin. apply list_elem_of_In in Hin. vm_compute in Hin.
  intuition discriminate.
Defined.

(** ** More on the weekly summary *)
Section MoreWeekly.

Import Weekly.

(** X12. The week summarised is always the full Monday-to-Sunday week
    before the week of today: it starts on a Monday, ends six days later
    on a Sunday, and ends between one and seven days before today. *)
Theorem last_week_is_monday_to_sunday today :
  weekday (start_of_last_week today) = 0
  ∧ weekday (end_of_last_week today) = 6
  ∧ end_of_last_week today = start_of_last_week today + 6
  ∧ 1 ≤ today - end_of_last_week today ≤ 7.
Proof.
  unfold start_of_last_week, end_of_last_week, weekday.
  pose proof (Z.mod_pos_bound today 7 eq_refl).
  pose proof (Z.div_mod today 7 ltac:(done)) as Hdm.
  repeat split; try lia.
  - replace (today - (today `mod` 7 + 7)) with ((today `div` 7 - 1) * 7)
      by lia. apply Z_mod_mult.
  - replace (today - (today `mod` 7 + 1))
      with (6 + (today `div` 7 - 1) * 7) by lia.
    by rewrite Z_mod_plus_full.
Qed.

Lemma lookup_update_item student_data key f k :
  lookup_item k (update_item student_data key f)
  = if bool_decide (k = key)
    then Some (f (default default_entry (lookup_item key student_data)))
    else lookup_item k student_data.
Proof.
  induction student_data as [|[k0 e] rest IH]; simpl.
  - rewrite (bool_decide_ext (key = k) (k = key)) by done.
    by case_bool_decide.
  - destruct (decide (k0 = key)) as [->|Hne].
    + rewrite bool_decide_eq_true_2 by done. simpl.
      rewrite (bool_decide_ext (key = k) (k = key)) by done.
      by case_bool_decide.
    + rewrite (bool_decide_eq_false_2 (k0 = key)) by done. simpl.
      rewrite IH. repeat case_bool_decide; congruence.
Qed.

(** the count kept for a student is the number of its [present] rows *)
Lemma count_records_present student_id records : ∀ student_data,
  default 0 (present_count
               <$> lookup_item student_id
                     (foldl count_record student_data records))
  = default 0 (present_count <$> lookup_item student_id student_data)
    + present_rows student_id records.
Proof.
  unfold present_rows.
  induction records as [|r records IH]; intros student_data; simpl; [lia|].
  rewrite IH. unfold count_record. rewrite lookup_update_item.
  destruct (decide (wr_student_id r = student_id)) as [Hk|Hk].
  - rewrite bool_decide_eq_true_2 by done. simpl. rewrite Hk.
    destruct (decide (wr_status r = present)) as [Hp|Hp].
    + rewrite filter_cons_True by done.
      rewrite bool_decide_eq_true_2 by done. simpl length.
      destruct (lookup_item student_id student_data); simpl; lia.
    + rewrite filter_cons_False by (intros [_ ?]; done).
      rewrite bool_decide_eq_false_2 by done.
      destruct (lookup_item student_id student_data); simpl; lia.
  - rewrite bool_decide_eq_false_2 by done.
    rewrite filter_cons_False by (intros [? _]; done). done.
Qed.

Lemma update_item_NoDup student_data key f :
  NoDup student_data.*1 → NoDup (update_item student_data key f).*1.
Proof.
  induction student_data as [|[k0 e] rest IH]; simpl.
  - intros _. apply NoDup_singleton.
  - intros [Hk Hnd]%NoDup_cons. case_bool_decide; simpl.
    + by apply NoDup_cons.
    + apply NoDup_cons. split; [|by apply IH].
      rewrite update_item_keys. intros [?|?]; [done|congruence].
Qed.

Lemma count_records_NoDup records : ∀ student_data,
  NoDup student_data.*1 → NoDup (foldl count_record student_data records).*1.
Proof.
  induction records as [|r records IH]; intros student_data Hnd; simpl;
    [done|].
  apply IH. by apply update_item_NoDup.
Qed.

Lemma lookup_item_elem {A} (d : list (string * A)) k v :
  NoDup d.*1 → (k, v) ∈ d → lookup_item k d = Some v.
Proof.
  induction d as [|[k0 v0] rest IH]; simpl.
  - intros _ H. by apply elem_of_nil in H.
  - intros [Hk Hnd]%NoDup_cons [[= -> ->]|Hin]%elem_of_cons.
    + by rewrite bool_decide_eq_true_2.
    + rewrite bool_decide_eq_false_2; [by apply IH|].
      intros ->. apply Hk. apply list_elem_of_fmap. by exists (k, v).
Qed.

Lemma group_items_classified g total module_code lecturer_name student_data
    k :
  k ∈ (group_items g total module_code lecturer_name student_data).*1 →
  ∃ e message, (k, e) ∈ student_data
               ∧ classify total module_code lecturer_name e
                 = Some (g, message).
Proof.
  unfold group_items. rewrite list_elem_of_fmap.
  intros ([k' message] & -> & Hin). simpl.
  apply list_elem_of_omap in Hin as ([k0 e] & Hin & Hsome). simpl in *.
  destruct (classify _ _ _ e) as [[g' m]|] eqn:Hc; [|done].
  case_bool_decide as Hg; [|done]. injection Hsome as -> ->. subst g'.
  by exists e, message.
Qed.

Lemma classify_counts total module_code lecturer_name e g message :
  classify total module_code lecturer_name e = Some (g, message) →
  match g with
  | perfect_attendance => present_count e = total
  | zero_attendance => present_count e = 0 ∧ total ≠ 0
  end.
Proof.
  unfold classify. destruct (details e) as [[name [[|c addr]|]]|]; try done.
  case_bool_decide as H1; [by intros [= <- _]|].
  case_bool_decide as H2; [|done]. intros [= <- _]. split; [done|].
  congruence.
Qed.

(** X13. The two lists go by the number of [present] rows a student has in
    the week: a student in the perfect list has as many as there were
    lectures, a student in the zero list has none (and there were
    lectures), so a student with some but not all is in neither list. *)
Theorem weekly_lists_by_present_count session_zone lecture_schedules
    attendance_records students today module perfect zero student_id :
  weekly_groups session_zone lecture_schedules attendance_records students
    today module = Some (perfect, zero) →
  let n := present_rows student_id
             (weekly_records session_zone attendance_records students
                (mo_id module) today) in
  let total := total_lectures_this_week lecture_schedules (mo_id module)
                 today in
  (student_id ∈ perfect.*1 → n = total)
  ∧ (student_id ∈ zero.*1 → n = 0 ∧ total ≠ 0)
  ∧ (0 < n < total → (student_id ∉ perfect.*1) ∧ (student_id ∉ zero.*1)).
Proof.
  intros Hgroups n total.
  assert ((student_id ∈ perfect.*1 → n = total)
          ∧ (student_id ∈ zero.*1 → n = 0 ∧ total ≠ 0)) as [Hp Hz].
  { unfold weekly_groups in Hgroups. fold total in Hgroups.
    destruct (mo_lecturers module) as [lecturer|]; [|done].
    case_bool_decide;
      [injection Hgroups as <- <-; split; intros H'; by apply elem_of_nil in H'|].
    destruct (weekly_records _ _ _ _ _) as [|r rs] eqn:E;
      [injection Hgroups as <- <-; split; intros H'; by apply elem_of_nil in H'|].
    injection Hgroups as <- <-.
    assert (∀ g, student_id
                   ∈ (group_items g total (mo_module_code module) lecturer
                        (count_records (r :: rs))).*1 →
                 ∃ e message,
                   classify total (mo_module_code module) lecturer e
                   = Some (g, message) ∧ present_count e = n) as Hcls.
    { intros g Hin.
      apply group_items_classified in Hin as (e & message & Hin & Hc).
      exists e, message. split; [done|].
      pose proof (count_records_present student_id (r :: rs) []) as Hcnt.
      fold (count_records (r :: rs)) in Hcnt.
      rewrite (lookup_item_elem _ _ e) in Hcnt;
        [|apply count_records_NoDup, NoDup_nil_2|done].
      simpl in Hcnt. unfold n. rewrite Hcnt. simpl. lia. }
    split; intros Hin; apply Hcls in Hin as (e & message & Hc & <-);
      by apply classify_counts in Hc. }
  split; [done|]. split; [done|]. intros Hn.
  split; intros Hin; [apply Hp in Hin|apply Hz in Hin]; lia.
Qed.

End MoreWeekly.

Lemma weekly_lists_by_present_count_witness :
  two_lecture_groups.1.*1 = ["s-001"]
  ∧ two_lecture_groups.2.*1 = ["s-002"]
  ∧ present_rows "s-003"
      (Weekly.weekly_records 0 two_lecture_records [thandi; sipho; lindiwe]
         101 (monday + 7)) = 1
  ∧ ("s-003" ∉ two_lecture_groups.1.*1)
  ∧ ("s-003" ∉ two_lecture_groups.2.*1).
Proof.
  split; [reflexivity|]. split; [reflexivity|]. split; [reflexivity|].
  destruct (weekly_lists_by_present_count 0 two_lectures two_lecture_records
              [thandi; sipho; lindiwe] (monday + 7) sodm401
              two_lecture_groups.1 two_lecture_groups.2 "s-003" eq_refl)
    as (_ & _ & Hmid).
  apply Hmid. by vm_compute.
Defined.

(** ** More on quiz scoring *)
Section MoreCampaign.

Import Campaign.

Lemma score_loop_bounds correct_answers responses : ∀ score,
  Forall (λ item, is_Some (py_int item.1)) responses →
  ∃ n, score_loop correct_answers responses score = Some n
       ∧ score ≤ n ≤ score + Z.of_nat (length responses).
Proof.
  induction responses as [|[k a] rest IH]; intros score Hall; simpl.
  - exists score. split; [done|lia].
  - apply Forall_cons in Hall as [[key Hkey] Hall]. simpl in Hkey.
    rewrite Hkey.
    destruct (IH (if scores correct_answers key a then score + 1 else score)
                Hall) as (n & -> & Hn).
    exists n. split; [done|]. destruct (scores correct_answers key a); lia.
Qed.

Lemma score_loop_bad_key correct_answers responses : ∀ score,
  Exists (λ item, py_int item.1 = None) responses →
  score_loop correct_answers responses score = None.
Proof.
  induction responses as [|[k a] rest IH]; intros score Hex; simpl.
  - by apply Exists_nil in Hex.
  - destruct (py_int k) as [key|] eqn:Hkey; [|done].
    apply Exists_cons in Hex as [Hbad|Hex]; [simpl in Hbad; congruence|].
    by apply IH.
Qed.

(** X15. When every key of the response reads as an integer, the quiz
    score is defined and lies between 0 and the number of items of the
    response; when some key does not (the [ValueError] of [int]), no score
    is computed at all. *)
Theorem quiz_score_range questions responses :
  (Forall (λ item, is_Some (py_int item.1)) responses →
   ∃ n, quiz_score questions responses = Some n
        ∧ 0 ≤ n ≤ Z.of_nat (length responses))
  ∧ (Exists (λ item, py_int item.1 = None) responses →
     quiz_score questions responses = None).
Proof.
  unfold quiz_score. split.
  - intros Hall.
    destruct (score_loop_bounds (correct_answers_map questions) responses 0
                Hall) as (n & Hn & Hb).
    exists n. split; [done|lia].
  - apply score_loop_bad_key.
Qed.

End MoreCampaign.

Lemma quiz_score_range_witness :
  (∃ n, Campaign.quiz_score two_questions
          [("1", Campaign.JString "B"); ("2", Campaign.JString "A")] = Some n
        ∧ 0 ≤ n ≤ 2)
  ∧ Campaign.quiz_score two_questions
      [("1", Campaign.JString "B"); ("q2", Campaign.JString "C")] = None.
Proof.
  destruct (quiz_score_range two_questions
              [("1", Campaign.JString "B"); ("2", Campaign.JString "A")])
    as [Hok _].
  destruct (quiz_score_range two_questions
              [("1", Campaign.JString "B"); ("q2", Campaign.JString "C")])
    as [_ Hbad].
  split.
  - apply Hok. repeat constructor; by eexists.
  - apply Hbad. right. by left.
Defined.

Lemma quiz_score_unaliased_witness :
  Campaign.quiz_score two_questions
    [("2", Campaign.JString "A"); (" 1 ", Campaign.JString "B")] = Some 1.
Proof.
  rewrite (quiz_score_unaliased two_questions
             [("2", Campaign.JString "A"); (" 1 ", Campaign.JString "B")]
             [2; 1]).
  - reflexivity.
  - repeat constructor; rewrite ?elem_of_cons, ?elem_of_nil;
      simpl; intuition discriminate.
  - intros q Hq. apply list_elem_of_In in Hq. simpl in Hq.
    destruct Hq as [<-|[<-|[]]]; discriminate.
  - repeat constructor.
  - repeat constructor; rewrite ?elem_of_cons, ?elem_of_nil;
      intuition discriminate.
Defined.

(** ** The poll of the kiosk *)

Lemma found_session_is_open class_timetable now later s :
  get_current_class_session class_timetable now later = Some s →
  ∃ T, strptime_HMS (se_start_time s) = Some T
       ∧ T ≤ dt_time now ≤ T + minutes 30.
Proof.
  rewrite get_current_class_session_scan. intros H.
  apply scan_sessions_some in H as [_ (T & j & Hparse & Hopen)].
  exists T. split; [done|].
  eapply window_open_inside; [|exact Hopen].
  by apply strptime_HMS_range in Hparse as [? _].
Qed.

(** X16. The poll always answers, whatever its clock readings are: it
    never fails on the start time of the session found. With a session
    found at the first reading [now], [attendance_ends] is the start time
    plus 30 minutes on the date of the second reading
    [current_system_time]; when both readings fall on one date it lies
    between [now] and 30 minutes after [now], so the time left at the
    second reading is at most 30 minutes, and is negative when the window
    has closed between the two readings. Without a session the poll
    reports no open window. *)
Theorem poll_countdown class_timetable now later current_system_time :
  match CurrentClass.api_get_current_class class_timetable now later
          current_system_time with
  | Some (CurrentClass.Active attendance_ends current_time) =>
      current_time = current_system_time
      ∧ (∃ s T,
           get_current_class_session class_timetable now later = Some s
           ∧ strptime_HMS (se_start_time s) = Some T
           ∧ T ≤ dt_time now ≤ T + minutes 30
           ∧ attendance_ends
             = combine (dt_date current_system_time) T + minutes 30)
      ∧ (dt_date current_system_time = dt_date now →
         now ≤ attendance_ends ≤ now + minutes 30
         ∧ attendance_ends - current_time
           ≤ minutes 30 - (current_system_time - now))
  | Some (CurrentClass.Inactive current_time) =>
      current_time = current_system_time
      ∧ get_current_class_session class_timetable now later = None
  | None => False
  end.
Proof.
  unfold CurrentClass.api_get_current_class.
  destruct (get_current_class_session class_timetable now later)
    as [s|] eqn:Hs; [|done].
  destruct (found_session_is_open _ _ _ _ Hs) as (T & HT & Hin).
  rewrite HT. split; [done|]. split; [by exists s, T|].
  intros ->. unfold combine, dt_date. unfold dt_time in Hin.
  pose proof (Z.div_mod now us_per_day ltac:(done)) as Hdm.
  lia.
Qed.

(** a poll whose second reading comes one second after the window of the
    class of 09:00 has closed reports the window open, with one second less
    than no time left *)
Example poll_after_closing :
  CurrentClass.api_get_current_class [lecture_a] (at_time monday 9 30 0)
    (λ _, at_time monday 9 30 0) (at_time monday 9 30 1)
  = Some (CurrentClass.Active (at_time monday 9 30 0)
            (at_time monday 9 30 1))
  ∧ at_time monday 9 30 0 - at_time monday 9 30 1 = - seconds 1.
Proof. by vm_compute. Qed.

(** ** The lecturer's bulk backfill *)
Section AdminBackfillFacts.

Import AdminBackfill.

Variable session_zone : Z.
Variable get_user : string → option (option string).

Local Abbreviation existing := (existing_res session_zone).

Lemma rejected_is_401 missing invalid auth_header r :
  authenticate get_user missing invalid auth_header = Rejected r →
  status_of r = 401.
Proof.
  unfold authenticate. destruct auth_header as [h|]; [|by intros [= <-]].
  destruct (_ || _); [by intros [= <-]|].
  destruct (get_user _) as [[u|]|]; try done. by intros [= <-].
Qed.

Lemma store_call_none calls : store_call calls = None → calls ≠ None.
Proof. by destruct calls. Qed.

Lemma existing_mono attendance_records added student_id module_id d :
  existing attendance_records student_id module_id d ≠ [] →
  existing (attendance_records ++ added) student_id module_id d ≠ [].
Proof.
  unfold existing_res. rewrite filter_app.
  destruct (filter _ attendance_records); [done|]. by intros _.
Qed.

(** what a run of the inner loop has done: it has appended rows of the
    student for lectures of the list and counted them; unless a call of
    the store raised, every lecture of the list is then covered; and
    without a failing store no call raises *)
Lemma lecture_loop_adds student_id module_id lectures :
  ∀ attendance_records backfill_count calls,
  ∃ added outcome,
    lecture_loop session_zone student_id module_id lectures
      (attendance_records, backfill_count) calls
    = (attendance_records ++ added,
       backfill_count + Z.of_nat (length added), outcome)
    ∧ Forall (λ r, ∃ l, l ∈ lectures
                        ∧ r = AttendanceRecord student_id module_id absent
                                (naive_timestamp session_zone
                                   (le_lecture_date l) (mk_time 17 0 0)))
             added
    ∧ (is_Some outcome →
       ∀ l, l ∈ lectures →
            existing (attendance_records ++ added) student_id module_id
              (le_lecture_date l) ≠ [])
    ∧ (calls = None → outcome = Some None).
Proof.
  induction lectures as [|l ls IH]; intros records count calls;
    cbn [lecture_loop].
  { exists [], (Some calls). rewrite app_nil_r, Z.add_0_r.
    split; [done|]. split; [done|].
    split; [intros _ l Hl; by apply elem_of_nil in Hl|by intros ->]. }
  destruct (store_call calls) as [calls1|] eqn:Hc1.
  2: { exists [], None. rewrite app_nil_r, Z.add_0_r.
       split; [done|]. split; [done|].
       split; [by intros [? ?]|]. intros ->. done. }
  destruct (existing records student_id module_id (le_lecture_date l))
    eqn:Hex.
  - destruct (store_call calls1) as [calls2|] eqn:Hc2.
    2: { exists [], None. rewrite app_nil_r, Z.add_0_r.
         split; [done|]. split; [done|].
         split; [by intros [? ?]|]. intros ->. simpl in Hc1.
         injection Hc1 as <-. done. }
    destruct (IH (records
                  ++ [AttendanceRecord student_id module_id absent
                        (naive_timestamp session_zone (le_lecture_date l)
                           (mk_time 17 0 0))]) (count + 1) calls2)
      as (added & outcome & -> & Hall & Hcov & Hnone).
    exists (AttendanceRecord student_id module_id absent
              (naive_timestamp session_zone (le_lecture_date l)
                 (mk_time 17 0 0)) :: added), outcome.
    rewrite <- app_assoc. simpl.
    split; [do 2 f_equal; lia|]. split; [|split].
    + constructor; [exists l; split; [by left|done]|].
      eapply Forall_impl; [exact Hall|]. intros r (l' & Hl' & ->).
      exists l'. split; [by right|done].
    + intros Hok l' [->|Hl']%elem_of_cons.
      * rewrite (cons_middle _ records added), app_assoc.
        apply existing_mono. unfold existing_res. rewrite filter_app.
        rewrite (filter_cons_True _ _ []); [by destruct (filter _ records)|].
        simpl. split; [done|]. split; [done|].
        unfold naive_timestamp, combine, mk_time, seconds, us_per_second.
        lia.
      * rewrite (cons_middle _ records added), app_assoc. by apply Hcov.
    + intros ->. simpl in Hc1. injection Hc1 as <-.
      simpl in Hc2. injection Hc2 as <-. by apply Hnone.
  - destruct (IH records count calls1)
      as (added & outcome & -> & Hall & Hcov & Hnone).
    exists added, outcome. split; [done|]. split; [|split].
    + eapply Forall_impl; [exact Hall|]. intros r (l' & Hl' & ->).
      exists l'. split; [by right|done].
    + intros Hok l' [->|Hl']%elem_of_cons; [|by apply Hcov].
      apply existing_mono. by rewrite Hex.
    + intros ->. simpl in Hc1. injection Hc1 as <-. by apply Hnone.
Qed.

Lemma student_loop_adds students module_id lectures :
  ∀ attendance_records backfill_count calls,
  ∃ added outcome,
    student_loop session_zone students module_id lectures
      (attendance_records, backfill_count) calls
    = (attendance_records ++ added,
       backfill_count + Z.of_nat (length added), outcome)
    ∧ Forall (bulk_row session_zone students module_id lectures) added
    ∧ (is_Some outcome →
       ∀ s l, s ∈ students → l ∈ lectures →
              existing (attendance_records ++ added) (st_id s) module_id
                (le_lecture_date l) ≠ [])
    ∧ (calls = None → outcome = Some None).
Proof.
  induction students as [|s ss IH]; intros records count calls;
    cbn [student_loop].
  { exists [], (Some calls). rewrite app_nil_r, Z.add_0_r.
    split; [done|]. split; [done|].
    split; [intros _ s l Hs; by apply elem_of_nil in Hs|by intros ->]. }
  destruct (lecture_loop_adds (st_id s) module_id lectures records count
              calls) as (added1 & outcome1 & -> & Hall1 & Hcov1 & Hnone1).
  assert (Forall (bulk_row session_zone (s :: ss) module_id lectures) added1)
    as Hrows1.
  { eapply Forall_impl; [exact Hall1|]. intros r (l & Hl & ->).
    exists s, l. split; [by left|done]. }
  destruct outcome1 as [calls1|].
  2: { exists added1, None. split; [done|]. split; [done|].
       split; [by intros [? ?]|]. intros ->. by specialize (Hnone1 eq_refl). }
  destruct (IH (records ++ added1) (count + Z.of_nat (length added1)) calls1)
    as (added2 & outcome & -> & Hall2 & Hcov2 & Hnone2).
  exists (added1 ++ added2), outcome.
  rewrite <- app_assoc, length_app, Nat2Z.inj_add.
  split; [do 2 f_equal; lia|]. split; [|split].
  - apply Forall_app. split; [done|].
    eapply Forall_impl; [exact Hall2|]. intros r (s' & l & Hs' & Hl & ->).
    exists s', l. split; [by right|done].
  - intros Hok s' l [->|Hs']%elem_of_cons Hl.
    + rewrite app_assoc. apply existing_mono. by apply Hcov1.
    + rewrite app_assoc. by apply Hcov2.
  - intros ->. specialize (Hnone1 eq_refl). injection Hnone1 as ->.
    by apply Hnone2.
Qed.

(** where every lecture is covered the inner loop inserts nothing *)
Lemma lecture_loop_covered student_id module_id lectures :
  ∀ attendance_records backfill_count calls,
  (∀ l, l ∈ lectures →
        existing attendance_records student_id module_id (le_lecture_date l)
        ≠ []) →
  ∃ outcome,
    lecture_loop session_zone student_id module_id lectures
      (attendance_records, backfill_count) calls
    = (attendance_records, backfill_count, outcome)
    ∧ (calls = None → outcome = Some None).
Proof.
  induction lectures as [|l ls IH]; intros records count calls Hcov;
    cbn [lecture_loop]; [by exists (Some calls); split; [|intros ->]|].
  destruct (store_call calls) as [calls1|] eqn:Hc1.
  2: { exists None. split; [done|]. by intros ->. }
  destruct (existing records student_id module_id (le_lecture_date l))
    eqn:Hex; [by destruct (Hcov l (list_elem_of_here _ _))|].
  destruct (IH records count calls1) as (outcome & -> & Hnone).
  { intros l' Hl'. apply Hcov. by right. }
  exists outcome. split; [done|]. intros ->. simpl in Hc1.
  injection Hc1 as <-. by apply Hnone.
Qed.

Lemma student_loop_covered students module_id lectures :
  ∀ attendance_records backfill_count calls,
  (∀ s l, s ∈ students → l ∈ lectures →
          existing attendance_records (st_id s) module_id (le_lecture_date l)
          ≠ []) →
  ∃ outcome,
    student_loop session_zone students module_id lectures
      (attendance_records, backfill_count) calls
    = (attendance_records, backfill_count, outcome)
    ∧ (calls = None → outcome = Some None).
Proof.
  induction students as [|s ss IH]; intros records count calls Hcov;
    cbn [student_loop]; [by exists (Some calls); split; [|intros ->]|].
  destruct (lecture_loop_covered (st_id s) module_id lectures records count
              calls) as (outcome1 & -> & Hnone1).
  { intros l Hl. apply Hcov; [by left|done]. }
  destruct outcome1 as [calls1|].
  2: { exists None. split; [done|]. intros ->. by specialize (Hnone1 eq_refl). }
  destruct (IH records count calls1) as (outcome & -> & Hnone).
  { intros s' l Hs' Hl. apply Hcov; [by right|done]. }
  exists outcome. split; [done|]. intros ->.
  specialize (Hnone1 eq_refl). injection Hnone1 as ->. by apply Hnone.
Qed.

Local Abbreviation route :=
  (api_backfill_all_students session_zone get_user).

Lemma store_call_some calls left :
  store_call calls = Some left → calls = None → left = None.
Proof. intros H ->. by injection H as <-. Qed.

(** how the route ends once the lecturer's module is found: either one of
    the three queries before the loops raises, or the loops run with what
    is left of [calls] *)
Lemma route_with_module calls auth_header modules students lecture_schedules
    today attendance_records lecturer_id m :
  authenticate get_user "Authentication required." "Invalid token."
    auth_header = Authenticated lecturer_id →
  single (filter (λ m, om_lecturer_id m = lecturer_id) modules) = Some m →
  let enrolled :=
    filter (λ s, st_module_code s = mo_module_code (om_module m)) students in
  let lectures :=
    lectures_res lecture_schedules (mo_id (om_module m)) today in
  (calls ≠ None
   ∧ route calls auth_header modules students lecture_schedules today
       attendance_records
     = (Raised 500, attendance_records))
  ∨ ∃ left,
      (calls = None → left = None)
      ∧ route calls auth_header modules students lecture_schedules today
          attendance_records
        = match enrolled, lectures with
          | [], _ => (Reply 404 "No students found.", attendance_records)
          | _, [] => (Reply 200 "No past lectures to backfill.",
                      attendance_records)
          | _, _ =>
              let after := student_loop session_zone enrolled
                             (mo_id (om_module m)) lectures
                             (attendance_records, 0) left in
              (match after.2 with
               | Some _ => backfill_complete after.1.2
               | None => Raised 500
               end, after.1.1)
          end.
Proof.
  intros Hauth Hm enrolled lectures.
  unfold api_backfill_all_students. rewrite Hauth.
  destruct (store_call calls) as [calls1|] eqn:Hc1;
    [|left; split; [by apply store_call_none|done]].
  rewrite Hm.
  destruct (store_call calls1) as [calls2|] eqn:Hc2.
  2: { left. split; [|done]. intros ->. injection Hc1 as <-. done. }
  fold enrolled. destruct enrolled as [|s ss].
  { right. exists None. by split. }
  destruct (store_call calls2) as [calls3|] eqn:Hc3.
  2: { left. split; [|done]. intros ->. injection Hc1 as <-.
       injection Hc2 as <-. done. }
  right. exists calls3. split.
  { intros ->. injection Hc1 as <-. injection Hc2 as <-.
    by injection Hc3 as <-. }
  fold lectures. destruct lectures as [|l ls]; [done|].
  by destruct (student_loop _ _ _ _ _ _) as [[after n] [left|]].
Qed.

(** X17. The bulk backfill only appends rows, each an [absent] row of a
    student for a lecture dated before today, stamped 17:00:00 on that
    date. It ends in one of three ways: it answers that the backfill is
    complete, with the number of rows it appended; or an exception is
    answered with 500, and then the rows inserted before the exception stay
    in the table; or it answers 401, 404 or that there is no past lecture,
    and has appended nothing. While the store does not fail, an answer
    other than 200 appends nothing. *)
Theorem admin_backfill_appends_and_counts calls auth_header modules students
    lecture_schedules today attendance_records :
  let result := route calls auth_header modules students lecture_schedules
                  today attendance_records in
  ∃ added,
    result.2 = attendance_records ++ added
    ∧ Forall (λ r, ∃ s l, s ∈ students ∧ l ∈ lecture_schedules
                          ∧ le_lecture_date l < today
                          ∧ r = AttendanceRecord (st_id s) (le_module_id l)
                                  absent
                                  (naive_timestamp session_zone
                                     (le_lecture_date l) (mk_time 17 0 0)))
             added
    ∧ (result.1 = backfill_complete (Z.of_nat (length added))
       ∨ result.1 = Raised 500
       ∨ (added = []
          ∧ (status_of result.1 = 401
             ∨ result.1 = Reply 404 "No students found."
             ∨ result.1 = Reply 200 "No past lectures to backfill.")))
    ∧ (calls = None → status_of result.1 ≠ 200 → added = []).
Proof.
  intros result. unfold result.
  destruct (authenticate get_user "Authentication required."
              "Invalid token." auth_header) as [r| |lecturer_id] eqn:Hauth.
  { unfold api_backfill_all_students. rewrite Hauth.
    exists []. rewrite app_nil_r. split; [done|]. split; [done|].
    split; [|done]. do 2 right. split; [done|]. left.
    by apply rejected_is_401 in Hauth. }
  { unfold api_backfill_all_students. rewrite Hauth.
    exists []. rewrite app_nil_r. split; [done|]. split; [done|].
    split; [by right; left|done]. }
  destruct (single (filter (λ m, om_lecturer_id m = lecturer_id) modules))
    as [m|] eqn:Hm.
  2: { unfold api_backfill_all_students. rewrite Hauth, Hm.
       exists []. rewrite app_nil_r.
       destruct (store_call calls); (split; [done|]); (split; [done|]);
         (split; [by right; left|done]). }
  destruct (route_with_module calls _ _ students lecture_schedules today
              attendance_records _ _ Hauth Hm) as [[_ ->]|(left & Hleft & ->)].
  { exists []. rewrite app_nil_r. split; [done|]. split; [done|].
    split; [by right; left|done]. }
  destruct (filter _ students) as [|s ss] eqn:Hs.
  { exists []. rewrite app_nil_r. split; [done|]. split; [done|].
    split; [|done]. do 2 right. split; [done|]. right. by left. }
  destruct (lectures_res _ _ _) as [|l ls] eqn:Hl.
  { exists []. rewrite app_nil_r. split; [done|]. split; [done|].
    split; [|done]. do 2 right. split; [done|]. by do 2 right. }
  cbv beta iota zeta.
  destruct (student_loop_adds (s :: ss) (mo_id (om_module m)) (l :: ls)
              attendance_records 0 left)
    as (added & outcome & -> & Hall & _ & Hnone).
  exists added. cbn [fst snd]. split; [done|]. split; [|split].
  - eapply Forall_impl; [exact Hall|]. intros r (s' & l' & Hs' & Hl' & ->).
    rewrite <- Hs in Hs'. rewrite <- Hl in Hl'.
    apply list_elem_of_filter in Hs' as [_ Hs'].
    unfold lectures_res in Hl'.
    apply list_elem_of_filter in Hl' as [[Hid Hdate] Hl'].
    exists s', l'. by rewrite Hid.
  - destruct outcome; [by left|by right; left].
  - intros Hcalls. rewrite (Hnone (Hleft Hcalls)). by simpl.
Qed.

(** X18. After the bulk backfill has run for a lecturer's module, every
    student enrolled in the module has a row of the module within the day
    of every lecture of the module dated before today; this holds of every
    run in which the store does not fail, and of every run answered 200. *)
Theorem admin_backfill_covers calls auth_header modules students
    lecture_schedules today attendance_records lecturer_id m s l :
  authenticate get_user "Authentication required." "Invalid token."
    auth_header = Authenticated lecturer_id →
  single (filter (λ m, om_lecturer_id m = lecturer_id) modules) = Some m →
  s ∈ students → st_module_code s = mo_module_code (om_module m) →
  l ∈ lecture_schedules → le_module_id l = mo_id (om_module m) →
  le_lecture_date l < today →
  calls = None
  ∨ status_of (route calls auth_header modules students lecture_schedules
                 today attendance_records).1 = 200 →
  existing
    (route calls auth_header modules students lecture_schedules today
       attendance_records).2
    (st_id s) (mo_id (om_module m)) (le_lecture_date l) ≠ [].
Proof.
  intros Hauth Hm Hs Hcode Hl Hid Hdate.
  destruct (route_with_module calls _ _ students lecture_schedules today
              attendance_records _ _ Hauth Hm)
    as [[Hcalls ->]|(left & Hleft & ->)]; [by intros [?|?]|].
  assert (s ∈ filter (λ s, st_module_code s
                           = mo_module_code (om_module m)) students) as Hs'
    by (by apply list_elem_of_filter).
  assert (l ∈ lectures_res lecture_schedules (mo_id (om_module m)) today)
    as Hl' by (by apply list_elem_of_filter).
  destruct (filter _ students) as [|s0 ss] eqn:Es;
    [by apply elem_of_nil in Hs'|].
  destruct (lectures_res _ _ _) as [|l0 ls] eqn:El;
    [by apply elem_of_nil in Hl'|].
  cbv beta iota zeta.
  destruct (student_loop_adds (s0 :: ss) (mo_id (om_module m)) (l0 :: ls)
              attendance_records 0 left)
    as (added & outcome & -> & _ & Hcov & Hnone).
  cbn [fst snd]. intros Hran. apply Hcov; [|done..].
  destruct Hran as [Hcalls|Hstatus];
    [rewrite (Hnone (Hleft Hcalls)); by eexists|].
  destruct outcome; [by eexists|done].
Qed.

(** X19. Run again on the table that a run with an unfailing store has
    produced, the bulk backfill appends nothing, whether or not the store
    fails this time; where the first run reported a number of added rows,
    the second reports 0, unless the store fails and it answers 500. *)
Theorem admin_backfill_idempotent calls auth_header modules students
    lecture_schedules today attendance_records :
  let first := route None auth_header modules students lecture_schedules
                 today attendance_records in
  let second := route calls auth_header modules students lecture_schedules
                  today first.2 in
  second.2 = first.2
  ∧ ∀ n, first.1 = backfill_complete n →
         second.1 = backfill_complete 0
         ∨ (calls ≠ None ∧ second.1 = Raised 500).
Proof.
  intros first second. unfold second, first.
  destruct (authenticate get_user "Authentication required."
              "Invalid token." auth_header) as [r| |lecturer_id] eqn:Hauth.
  { unfold api_backfill_all_students. rewrite Hauth. split; [done|].
    simpl. intros n ->. by apply rejected_is_401 in Hauth. }
  { unfold api_backfill_all_students. by rewrite Hauth. }
  destruct (single (filter (λ m, om_lecturer_id m = lecturer_id) modules))
    as [m|] eqn:Hm.
  2: { unfold api_backfill_all_students. rewrite Hauth, Hm. simpl.
       by destruct (store_call calls). }
  destruct (route_with_module None _ _ students lecture_schedules today
              attendance_records _ _ Hauth Hm)
    as [[? _]|(left1 & Hleft1 & ->)]; [done|].
  rewrite (Hleft1 eq_refl).
  destruct (filter _ students) as [|s ss] eqn:Hs.
  { cbn [fst snd].
    destruct (route_with_module calls _ _ students lecture_schedules today
                attendance_records _ _ Hauth Hm)
      as [[? ->]|(left & Hleft & ->)]; [done|]. by rewrite Hs. }
  destruct (lectures_res _ _ _) as [|l ls] eqn:Hl.
  { cbn [fst snd].
    destruct (route_with_module calls _ _ students lecture_schedules today
                attendance_records _ _ Hauth Hm)
      as [[? ->]|(left & Hleft & ->)]; [done|]. by rewrite Hs, Hl. }
  cbv beta iota zeta.
  destruct (student_loop_adds (s :: ss) (mo_id (om_module m)) (l :: ls)
              attendance_records 0 None)
    as (added & outcome & -> & _ & Hcov & Hnone).
  rewrite (Hnone eq_refl) in Hcov |- *. cbn [fst snd].
  destruct (route_with_module calls _ _ students lecture_schedules today
              (attendance_records ++ added) _ _ Hauth Hm)
    as [[Hcalls ->]|(left & Hleft & ->)]; [split; [done|]; by right|].
  rewrite Hs, Hl. cbv beta iota zeta.
  destruct (student_loop_covered (s :: ss) (mo_id (om_module m)) (l :: ls)
              (attendance_records ++ added) 0 left) as (outcome2 & -> & Hnone2).
  { apply Hcov. by eexists. }
  cbn [fst snd]. split; [done|]. intros n _.
  destruct outcome2; [by left|]. right. split; [|done].
  intros Hcalls. by specialize (Hnone2 (Hleft Hcalls)).
Qed.

End AdminBackfillFacts.

Lemma admin_backfill_covers_witness :
  AdminBackfill.existing_res 0
    (AdminBackfill.api_backfill_all_students 0 one_lecturer None
       (Some "Bearer tok-1") lecturer_modules [thandi; sipho] lecture_week
       (monday + 1) week_records).2
    "s-002" 101 monday ≠ [].
Proof.
  apply (admin_backfill_covers 0 one_lecturer None (Some "Bearer tok-1")
           lecturer_modules [thandi; sipho] lecture_week (monday + 1)
           week_records "lect-1" (Http.OwnedModule "lect-1" sodm401) sipho
           (Lecture monday 101 (Some "SODM401"))).
  - reflexivity.
  - reflexivity.
  - right. left.
  - reflexivity.
  - left.
  - reflexivity.
  - simpl. lia.
  - left. reflexivity.
Defined.

(** The store failing at the insert of the second student's row: the
    lecturer is answered 500, and the first student's row stays in the
    table. *)
Example backfill_cut_short :
  AdminBackfill.api_backfill_all_students 0 one_lecturer (Some 6%nat)
    (Some "Bearer tok-1") lecturer_modules [thandi; sipho] lecture_week
    (monday + 1) []
  = (Http.Raised 500,
     [AttendanceRecord "s-001" 101 absent (at_time monday 17 0 0)]).
Proof. by vm_compute. Qed.

(** ** Campaign links *)
Section ResponsesFacts.

Import Responses.

Variable unsign : string → option (Z * (Z * string)).

Local Abbreviation submit := (api_submit_campaign_response unsign).
Local Abbreviation fetch := (api_get_campaign_for_student unsign).

(** a link that is read was signed no later than now and no longer than
    three days ago *)
Lemma loads_some now token max_age token_data :
  loads unsign now token max_age = Some token_data →
  ∃ timestamp,
    unsign token = Some (timestamp, token_data)
    ∧ 0 ≤ now - timestamp ≤ max_age.
Proof.
  unfold loads. destruct (unsign token) as [[timestamp data]|]; [|done].
  cbv zeta. repeat case_bool_decide; try done. intros [= <-].
  exists timestamp. split; [done|lia].
Qed.

Lemma loads_in_age now token max_age timestamp token_data :
  unsign token = Some (timestamp, token_data) →
  0 ≤ now - timestamp ≤ max_age →
  loads unsign now token max_age = Some token_data.
Proof.
  intros Htoken Hage. unfold loads. rewrite Htoken. cbv zeta.
  rewrite !bool_decide_eq_false_2; [done|lia..].
Qed.

Lemma loads_expired now token max_age timestamp token_data :
  unsign token = Some (timestamp, token_data) →
  max_age < now - timestamp →
  loads unsign now token max_age = None.
Proof.
  intros Htoken Hage. unfold loads. rewrite Htoken. cbv zeta.
  by rewrite bool_decide_eq_true_2.
Qed.

(** what a recorded response tells about the request and the tables *)
Lemma submit_201_inv now calls campaigns campaign_questions token responses
    t message t' :
  submit now calls campaigns campaign_questions token responses t
  = (Reply 201 message, t') →
  ∃ tok campaign_id student_id rs score,
    token = Some tok ∧ tok ≠ EmptyString
    ∧ responses = Some rs ∧ rs ≠ []
    ∧ loads unsign now tok 259200 = Some (campaign_id, student_id)
    ∧ existing_response t campaign_id student_id = []
    ∧ t' = Tables
             (campaign_participants t ++ [Participant campaign_id student_id])
             (campaign_responses t
              ++ [ResponseRow campaign_id student_id rs score]).
Proof.
  unfold api_submit_campaign_response.
  destruct token as [[|c tok]|]; try done.
  all: destruct responses as [[|item rs]|]; try done.
  destruct (loads unsign now (String c tok) 259200) as [[cid sid]|]
    eqn:Hloads;
    [|done].
  destruct (store_call calls) as [calls1|]; [|done].
  destruct (existing_response t cid sid) eqn:Hex; [|done].
  destruct (store_call calls1) as [calls2|]; [|done].
  destruct (single _) as [campaign|]; [|done].
  destruct (if bool_decide _ then _ else _) as [[score calls3]|]; [|done].
  destruct (store_call calls3) as [calls4|]; [|done].
  cbv zeta. destruct (store_call calls4) as [calls5|]; [|done].
  intros [= <- <-].
  by exists (String c tok), cid, sid, (item :: rs), score.
Qed.

(** X20. Once a response has been recorded for a link (answer 201), no
    later request with the link is answered 201 or changes the tables, and
    the campaign can no longer be fetched with it, whatever has been
    recorded since. While the link is no older than three days and the
    store answers the first query, the submission and the fetch are both
    refused with 409; once the link is older than three days the submission
    is answered 500 and the fetch 400, with the text of the serializer's
    exception. *)
Theorem recorded_link_is_spent now calls campaigns campaign_questions tok
    timestamp token_data responses t message t1
    later later_calls later_campaigns later_questions question_options
    later_responses t2 :
  unsign tok = Some (timestamp, token_data) →
  api_submit_campaign_response unsign now calls campaigns campaign_questions
    (Some tok) responses t
  = (Reply 201 message, t1) →
  campaign_participants t1 ⊆ campaign_participants t2 →
  let second :=
    api_submit_campaign_response unsign later later_calls later_campaigns
      later_questions (Some tok) (Some later_responses) t2 in
  let fetched :=
    api_get_campaign_for_student unsign later later_calls later_campaigns
      later_questions question_options (Some tok) t2 in
  second.2 = t2
  ∧ status_of second.1 ≠ 201
  ∧ (∀ campaign questions, fetched ≠ Fetched campaign questions)
  ∧ (0 ≤ later - timestamp ≤ 259200 → is_Some (store_call later_calls) →
     (later_responses ≠ [] →
      second.1 = Reply 409 "You have already submitted a response.")
     ∧ fetched
       = NotFetched
           (Reply 409
              "You have already responded to this campaign. Thank you!"))
  ∧ (259200 < later - timestamp →
     (later_responses ≠ [] → second.1 = Raised 500)
     ∧ fetched = NotFetched (Raised 400)).
Proof.
  intros Htoken Hfirst Hsub second fetched. unfold second, fetched.
  apply submit_201_inv in Hfirst
    as (tok' & cid & sid & rs & score & [= <-] & Htok & _ & _ & Hloads & _
        & ->).
  apply loads_some in Hloads as (ts & Hts & Hage).
  rewrite Htoken in Hts. injection Hts as <- ->.
  assert (existing_response t2 cid sid ≠ []) as Hex.
  { assert (Participant cid sid ∈ existing_response t2 cid sid) as Hin.
    { unfold existing_response. apply list_elem_of_filter. split; [done|].
      apply Hsub. simpl. apply elem_of_app. right. by left. }
    intros E. rewrite E in Hin. by apply elem_of_nil in Hin. }
  unfold api_submit_campaign_response, api_get_campaign_for_student.
  destruct tok as [|c tok]; [done|].
  destruct (loads unsign later (String c tok) 259200) as [[cid' sid']|]
    eqn:Hlater.
  - apply loads_some in Hlater as (ts & Hts & Hage').
    rewrite Htoken in Hts. injection Hts as <- <- <-.
    destruct (store_call later_calls) as [left|].
    + destruct (existing_response t2 cid sid); [done|].
      destruct later_responses;
        (split_and!; [done|done|done|by intros _ _|intros ?; lia]).
    + destruct later_responses;
        (split_and!; [done|done|done|by intros _ [? ?]|intros ?; lia]).
  - assert (¬ 0 ≤ later - timestamp ≤ 259200) as Hout.
    { intros Hin.
      by rewrite (loads_in_age _ _ _ _ _ Htoken Hin) in Hlater. }
    destruct later_responses;
      (split_and!; [done|done|done|by intros ?|intros _; by split]).
Qed.

(** X21. A submission ends in one of three ways. Answered 201, it has
    written one participant row and one response row for the campaign and
    the student of the link, holding the answers as submitted; the score of
    the row is absent unless the campaign is a [WEEKLY_QUIZ]. Answered 500
    after the store failed at the second insert, it has written the
    participant row alone. In every other case the tables are as they
    were. *)
Theorem submission_writes_one_pair now calls campaigns campaign_questions
    token responses t :
  let result := api_submit_campaign_response unsign now calls campaigns
      campaign_questions token responses t in
  (status_of result.1 ≠ 201 ∧ result.2 = t)
  ∨ (result.1 = Raised 500 ∧ calls ≠ None
     ∧ ∃ tok campaign_id student_id,
         token = Some tok
         ∧ loads unsign now tok 259200 = Some (campaign_id, student_id)
         ∧ existing_response t campaign_id student_id = []
         ∧ result.2
           = Tables
               (campaign_participants t
                ++ [Participant campaign_id student_id])
               (campaign_responses t))
  ∨ (status_of result.1 = 201
     ∧ ∃ tok campaign_id student_id rs score campaign,
         token = Some tok ∧ responses = Some rs
         ∧ loads unsign now tok 259200 = Some (campaign_id, student_id)
         ∧ campaign ∈ campaigns ∧ ca_id campaign = campaign_id
         ∧ (ca_campaign_type campaign ≠ "WEEKLY_QUIZ" → score = None)
         ∧ result.2
           = Tables
               (campaign_participants t
                ++ [Participant campaign_id student_id])
               (campaign_responses t
                ++ [ResponseRow campaign_id student_id rs score])).
Proof.
  unfold api_submit_campaign_response.
  destruct token as [[|c tok]|]; [left; by split..| |left; by split].
  destruct responses as [[|item rs]|]; [left; by split| |left; by split].
  destruct (loads unsign now (String c tok) 259200) as [[cid sid]|]
    eqn:Hloads;
    [|left; by split].
  destruct (store_call calls) as [calls1|] eqn:Hc1; [|left; by split].
  destruct (existing_response t cid sid) eqn:Hex; [|left; by split].
  destruct (store_call calls1) as [calls2|] eqn:Hc2; [|left; by split].
  destruct (single (filter (λ c, ca_id c = cid) campaigns))
    as [campaign|] eqn:Hsingle; [|left; by split].
  assert (campaign ∈ campaigns ∧ ca_id campaign = cid) as [Hin Hid].
  { destruct (filter (λ c, ca_id c = cid) campaigns) as [|x [|y l]] eqn:E;
      try done. injection Hsingle as ->.
    assert (campaign ∈ filter (λ c, ca_id c = cid) campaigns) as Hc
      by (rewrite E; by left).
    by apply list_elem_of_filter in Hc as [? ?]. }
  destruct (if bool_decide _ then _ else _) as [[score calls3]|] eqn:Hscored;
    [|left; by split].
  assert (ca_campaign_type campaign ≠ "WEEKLY_QUIZ" → score = None
          ∧ calls3 = calls2) as Hscore.
  { intros Hquiz. rewrite bool_decide_eq_false_2 in Hscored by done.
    by injection Hscored as <- <-. }
  assert (calls = None → calls3 = None) as Hnone.
  { intros ->. injection Hc1 as <-. injection Hc2 as <-.
    case_bool_decide; [|by injection Hscored as _ <-].
    simpl in Hscored. destruct (Campaign.quiz_score _ _); [|done].
    by injection Hscored as _ <-. }
  destruct (store_call calls3) as [calls4|] eqn:Hc4; [|left; by split].
  cbv zeta. destruct (store_call calls4) as [calls5|] eqn:Hc5.
  - do 2 right. split; [done|].
    exists (String c tok), cid, sid, (item :: rs), score, campaign.
    repeat split; try done. intros Hquiz. by apply Hscore.
  - right. left. split; [done|]. split.
    + intros Hcalls. rewrite (Hnone Hcalls) in Hc4.
      injection Hc4 as <-. done.
    + by exists (String c tok), cid, sid.
Qed.

End ResponsesFacts.

Lemma recorded_link_is_spent_witness :
  let first :=
    Responses.api_submit_campaign_response one_link 1000 None [quiz]
      quiz_rows (Some "link-7-s-001") (Some [("1", Campaign.JString "B")])
      no_responses in
  let later_tables :=
    Responses.Tables
      (Responses.Participant 7 "s-002"
       :: Responses.campaign_participants first.2)
      (Responses.campaign_responses first.2) in
  let second :=
    Responses.api_submit_campaign_response one_link 4000 (Some 1%nat) [quiz]
      quiz_rows (Some "link-7-s-001") (Some [("1", Campaign.JString "A")])
      later_tables in
  let fetched :=
    Responses.api_get_campaign_for_student one_link 4000 (Some 1%nat) [quiz]
      quiz_rows quiz_options (Some "link-7-s-001") later_tables in
  Responses.rr_score <$> Responses.campaign_responses first.2 = [Some 1]
  ∧ second.2 = later_tables
  ∧ Http.status_of second.1 ≠ 201
  ∧ (∀ campaign questions, fetched ≠ Responses.Fetched campaign questions)
  ∧ (0 ≤ 4000 - 900 ≤ 259200 →
     is_Some (Http.store_call (Some 1%nat)) →
     ([("1", Campaign.JString "A")] ≠ [] →
      second.1 = Http.Reply 409 "You have already submitted a response.")
     ∧ fetched
       = Responses.NotFetched
           (Http.Reply 409
              "You have already responded to this campaign. Thank you!"))
  ∧ (259200 < 4000 - 900 →
     ([("1", Campaign.JString "A")] ≠ [] → second.1 = Http.Raised 500)
     ∧ fetched = Responses.NotFetched (Http.Raised 400)).
Proof.
  split; [reflexivity|].
  eapply (recorded_link_is_spent one_link 1000 None [quiz] quiz_rows
            "link-7-s-001" 900 (7, "s-001")
            (Some [("1", Campaign.JString "B")]) no_responses).
  - reflexivity.
  - reflexivity.
  - intros x Hx. apply elem_of_cons. by right.
Defined.

(** A link used after its three days: the submission is answered 500 and
    the fetch 400, both with the text of the serializer's exception, and
    the tables stay as they were. At the last second of the third day the
    response is still recorded. *)
Example link_expires :
  Responses.api_submit_campaign_response one_link (900 + 259200) None [quiz]
    quiz_rows (Some "link-7-s-001") (Some [("1", Campaign.JString "B")])
    no_responses
  = (Http.Reply 201
       "Your response has been recorded successfully. You are now eligible for the incentive!",
     Responses.Tables [Responses.Participant 7 "s-001"]
       [Responses.ResponseRow 7 "s-001" [("1", Campaign.JString "B")]
          (Some 1)])
  ∧ Responses.api_submit_campaign_response one_link (900 + 259201) None
      [quiz] quiz_rows (Some "link-7-s-001")
      (Some [("1", Campaign.JString "B")]) no_responses
    = (Http.Raised 500, no_responses)
  ∧ Responses.api_get_campaign_for_student one_link (900 + 259201) None
      [quiz] quiz_rows quiz_options (Some "link-7-s-001") no_responses
    = Responses.NotFetched (Http.Raised 400).
Proof. by vm_compute. Qed.

(** The store failing at the second insert of a submission: the student is
    answered 500 and told the response could not be submitted, the
    participant row is written without a response row, and the link is
    spent: the same answers sent again are refused with 409. *)
Example participant_without_response :
  let first :=
    Responses.api_submit_campaign_response one_link 1000 (Some 4%nat) [quiz]
      quiz_rows (Some "link-7-s-001") (Some [("1", Campaign.JString "B")])
      no_responses in
  first = (Http.Raised 500,
           Responses.Tables [Responses.Participant 7 "s-001"] [])
  ∧ Responses.api_submit_campaign_response one_link 1001 None [quiz]
      quiz_rows (Some "link-7-s-001") (Some [("1", Campaign.JString "B")])
      first.2
    = (Http.Reply 409 "You have already submitted a response.", first.2).
Proof. by vm_compute. Qed.

(** ** The catch-up notices *)
Section DailyFacts.

Import Daily.

Variable session_zone : Z.

Lemma absence_message_some module_code topic lecturer_name r o e :
  absence_message module_code topic lecturer_name (r, o) = Some e →
  ∃ s address, o = Some s ∧ st_email s = Some address
               ∧ address ≠ EmptyString
               ∧ e = catch_up module_code topic lecturer_name
                       (st_full_name s) address.
Proof.
  unfold absence_message. cbn [snd].
  destruct o as [s|]; [|done].
  destruct (st_email s) as [[|c address]|] eqn:Hmail; try done.
  intros [= <-]. by exists s, (String c address).
Qed.

Lemma head_filter_elem {A} (P : A → Prop) `{!∀ x, Decision (P x)}
    (l : list A) (x : A) :
  head (filter P l) = Some x → x ∈ l ∧ P x.
Proof.
  intros Hhead. apply head_Some_elem_of in Hhead.
  by apply list_elem_of_filter in Hhead as [? ?].
Qed.

Lemma lecture_loop_sound attendance_records students d lectures e :
  e ∈ lecture_loop session_zone attendance_records students d lectures →
  ∃ l module lecturer_name s address,
    l ∈ lectures
    ∧ pl_modules l = Some module ∧ mo_lecturers module = Some lecturer_name
    ∧ s ∈ students ∧ st_email s = Some address ∧ address ≠ EmptyString
    ∧ absent_on session_zone attendance_records (pl_module_id l) d (st_id s)
    ∧ e = catch_up (mo_module_code module) (pl_planned_topic l)
            lecturer_name (st_full_name s) address.
Proof.
  induction lectures as [|l ls IH]; cbn [lecture_loop].
  { intros H. by apply elem_of_nil in H. }
  destruct (pl_modules l) as [module|] eqn:Hmod;
    [|intros H; by apply elem_of_nil in H].
  destruct (mo_lecturers module) as [lecturer_name|] eqn:Hlec;
    [|intros H; by apply elem_of_nil in H].
  intros [H|H]%elem_of_app.
  - apply list_elem_of_omap in H as ([r o] & Hin & Hmsg).
    apply absence_message_some in Hmsg as (s & address & -> & Hmail & Hne & ->).
    unfold absent_students_res in Hin.
    apply list_elem_of_fmap in Hin as (r' & [= <- Hhead] & Hr).
    apply list_elem_of_filter in Hr as [(Hm & Hst & Hlo & Hhi) Hr].
    symmetry in Hhead. apply head_filter_elem in Hhead as [Hs Hid].
    exists l, module, lecturer_name, s, address.
    repeat split; try done; [by left|].
    exists r. by rewrite Hid.
  - destruct (IH H) as (l' & m' & n' & s & a & Hl & ?).
    exists l', m', n', s, a. split; [by right|done].
Qed.

(** X22. Every message of [send_daily_absence_emails] is the catch-up
    notice of a lecture scheduled on the target date, addressed to the
    non-empty e-mail address of a student who has an [absent] row of the
    lecture's module within that date. *)
Theorem daily_mail_only_to_absentees lecture_schedules attendance_records
    students target_date e :
  e ∈ send_daily_absence_emails session_zone lecture_schedules
        attendance_records students target_date →
  notice_for session_zone lecture_schedules attendance_records students
    target_date e.
Proof.
  unfold send_daily_absence_emails. intros H.
  apply lecture_loop_sound in H
    as (l & module & lecturer_name & s & address & Hl & H).
  apply list_elem_of_filter in Hl as [Hdate Hl].
  by exists l, module, lecturer_name, s, address.
Qed.

Lemma lecture_loop_complete attendance_records students d lectures :
  NoDup (st_id <$> students) →
  (∀ l, l ∈ lectures →
        ∃ module, pl_modules l = Some module ∧ is_Some (mo_lecturers module)) →
  ∀ l module lecturer_name s address,
    l ∈ lectures →
    pl_modules l = Some module → mo_lecturers module = Some lecturer_name →
    s ∈ students → st_email s = Some address → address ≠ EmptyString →
    absent_on session_zone attendance_records (pl_module_id l) d (st_id s) →
    catch_up (mo_module_code module) (pl_planned_topic l) lecturer_name
      (st_full_name s) address
    ∈ lecture_loop session_zone attendance_records students d lectures.
Proof.
  intros Hkeys Hjoins l module lecturer_name s address Hl Hmod Hlec Hs Hmail
    Hne (r & Hr & Hid & Hm & Hst & Hlo & Hhi).
  induction lectures as [|l0 ls IH]; [by apply elem_of_nil in Hl|].
  cbn [lecture_loop].
  apply elem_of_cons in Hl as [<-|Hl].
  - rewrite Hmod, Hlec. apply elem_of_app. left.
    apply list_elem_of_omap. exists (r, Some s). split.
    + unfold absent_students_res. apply list_elem_of_fmap.
      exists r. split; [|by apply list_elem_of_filter].
      f_equal. symmetry.
      destruct (head (filter (λ s0, st_id s0 = ar_student_id r) students))
        as [s'|] eqn:Hhead.
      * apply head_filter_elem in Hhead as [Hs' Hid'].
        f_equal. 
        apply list_elem_of_lookup in Hs as [i Hi].
        apply list_elem_of_lookup in Hs' as [j Hj].
        assert (i = j) as ->.
        { eapply NoDup_lookup; [exact Hkeys| |].
          - rewrite list_lookup_fmap, Hi. reflexivity.
          - rewrite list_lookup_fmap, Hj. simpl. by rewrite Hid', Hid. }
        congruence.
      * apply head_None in Hhead.
        assert (s ∈ filter (λ s0, st_id s0 = ar_student_id r) students) as Hin
          by (by apply list_elem_of_filter).
        rewrite Hhead in Hin. by apply elem_of_nil in Hin.
    + unfold absence_message. cbn [snd]. rewrite Hmail.
      by destruct address.
  - destruct (Hjoins l0 (list_elem_of_here _ _)) as (m0 & -> & [n0 ->]).
    apply elem_of_app. right. apply IH; [|done].
    intros l' Hl'. apply Hjoins. by right.
Qed.

(** X23. When student ids are unique and no lecture of the target date
    has a null module or lecturer join, every student with a non-empty
    e-mail address who has an [absent] row of the module of a lecture of
    that date is sent the catch-up notice of that lecture. *)
Theorem daily_mail_reaches_absentees lecture_schedules attendance_records
    students target_date e :
  NoDup (st_id <$> students) →
  (∀ l, l ∈ lecture_schedules → pl_lecture_date l = target_date →
        ∃ module, pl_modules l = Some module ∧ is_Some (mo_lecturers module)) →
  notice_for session_zone lecture_schedules attendance_records students
    target_date e →
  e ∈ send_daily_absence_emails session_zone lecture_schedules
        attendance_records students target_date.
Proof.
  intros Hkeys Hjoins
    (l & module & lecturer_name & s & address & Hl & Hdate & Hmod & Hlec & Hs
     & Hmail & Hne & Habs & ->).
  unfold send_daily_absence_emails.
  apply lecture_loop_complete; try done.
  - intros l' Hl'. apply list_elem_of_filter in Hl' as [Hd' Hl'].
    by apply Hjoins.
  - by apply list_elem_of_filter.
Qed.

(** X24. The manual daily check sends nothing unless the bearer token is
    accepted, and then every message is a catch-up notice about a lecture
    of the day before the one the clock shows, to a student marked absent
    on that day. *)
Theorem daily_check_is_about_yesterday get_user auth_header lecture_schedules
    attendance_records students today :
  let result := api_run_daily_check session_zone get_user auth_header
                  lecture_schedules attendance_records students today in
  (status_of result.1 ≠ 200 → result.2 = [])
  ∧ ∀ e, e ∈ result.2 →
         notice_for session_zone lecture_schedules attendance_records
           students (today - 1) e.
Proof.
  unfold api_run_daily_check.
  destruct (authenticate _ _ _ _) as [r| |user_id]; cbn [fst snd].
  1,2: split; [done|]; intros e H; by apply elem_of_nil in H.
  split; [done|]. intros e H.
  apply lecture_loop_sound in H
    as (l & module & lecturer_name & s & address & Hl & H).
  apply list_elem_of_filter in Hl as [Hdate Hl].
  by exists l, module, lecturer_name, s, address.
Qed.

End DailyFacts.

Lemma sipho_is_absent :
  Daily.notice_for 0 routing_lecture after_class [thandi; sipho] monday
    sipho_notice.
Proof.
  exists (Daily.PlannedLecture monday 101 (Some "Routing") (Some sodm401)),
    sodm401, "Dr Dube"%string, sipho, "sipho@dut4life.ac.za"%string.
  repeat split; try done; [by left|by right; left|].
  exists (AttendanceRecord "s-002" 101 absent (at_time monday 10 0 0)).
  repeat split; try done; [by right; left|vm_compute; discriminate..].
Qed.

Lemma daily_mail_only_to_absentees_witness :
  Daily.notice_for 0 routing_lecture after_class [thandi; sipho] monday
    sipho_notice.
Proof.
  apply (daily_mail_only_to_absentees 0 routing_lecture after_class
           [thandi; sipho] monday sipho_notice).
  vm_compute. left.
Defined.

Lemma daily_mail_reaches_absentees_witness :
  sipho_notice
  ∈ Daily.send_daily_absence_emails 0 routing_lecture after_class
      [thandi; sipho] monday.
Proof.
  apply (daily_mail_reaches_absentees 0 routing_lecture after_class
           [thandi; sipho] monday sipho_notice).
  - apply NoDup_cons. split; [|apply NoDup_singleton].
    intros H. by apply list_elem_of_singleton in H.
  - intros l Hl _. apply list_elem_of_singleton in Hl as ->.
    exists sodm401. split; [done|by eexists].
  - exact sipho_is_absent.
Defined.

(** ** The scheduler tick *)
Section SchedulerFacts.

Import Scheduler.

Variable session_zone : Z.
Variable send_email : email → bool.
Variable iteration : list string → list string.
Variable class_timetable : list session.
Variable modules : list module_row.
Variable students : list student.
Variable lecture_schedules : list Daily.planned_lecture.

Local Abbreviation loop :=
  (absentee_loop session_zone send_email iteration modules students
     lecture_schedules).
Local Abbreviation mark :=
  (mark_absent session_zone send_email iteration modules students
     lecture_schedules).
Local Abbreviation tick :=
  (unified_scheduler_job session_zone send_email iteration class_timetable
     modules students lecture_schedules).

Lemma mark_absent_last_run now class_end_datetime module_id ids w :
  last_run_times (mark now class_end_datetime module_id ids w)
  = last_run_times w.
Proof. by destruct ids. Qed.

Lemma mark_absent_weekly_mail now class_end_datetime module_id ids w :
  weekly_mail (mark now class_end_datetime module_id ids w) = weekly_mail w.
Proof. by destruct ids. Qed.

(** the keys of [absentee_check] are never removed *)
Lemma absentee_loop_flags now sessions :
  ∀ w key,
    key ∈ absentee_check (last_run_times w) →
    key ∈ absentee_check (last_run_times (loop now sessions w)).
Proof.
  induction sessions as [|session rest IH]; intros w key Hkey;
    cbn [absentee_loop]; [done|].
  destruct (strptime_HMS (se_end_time session)) as [end_time|]; [|done].
  cbv zeta. destruct (_ && _); [|by apply IH].
  case_bool_decide as Hflag; [by apply IH|].
  destruct (head _) as [module|]; [|done].
  destruct (filter _ students) as [|s ss]; [by apply IH|].
  apply IH. cbn [set_absentee_check last_run_times absentee_check].
  right. by rewrite mark_absent_last_run.
Qed.

(** one turn of the loop *)
Lemma absentee_loop_cons now session rest w :
  loop now (session :: rest) w
  = match strptime_HMS (se_end_time session) with
    | None => w
    | Some end_time =>
        if bool_decide (class_end now end_time < now)
           && bool_decide (td_seconds (now - class_end now end_time) ≤ 300)
        then
          if bool_decide ((dt_date now, se_id session)
                          ∈ absentee_check (last_run_times w))
          then loop now rest w
          else
            match head (filter (λ m, mo_id m = se_module_id session)
                               modules) with
            | None => w
            | Some module =>
                match filter (λ s, st_module_code s = mo_module_code module)
                             students with
                | [] => loop now rest w
                | enrolled_res =>
                    loop now rest
                      (set_absentee_check (dt_date now, se_id session)
                         (mark now (class_end now end_time)
                            (se_module_id session)
                            (absent_ids session_zone (attendance_records w)
                               enrolled_res (se_module_id session)
                               (dt_date now))
                            w))
                end
            end
        else loop now rest w
    end.
Proof. reflexivity. Qed.

(** the loop run again on its own result changes nothing *)
Lemma absentee_loop_idempotent now sessions :
  ∀ w, loop now sessions (loop now sessions w) = loop now sessions w.
Proof.
  induction sessions as [|session rest IH]; intros w; [done|].
  rewrite (absentee_loop_cons now session rest w).
  destruct (strptime_HMS (se_end_time session)) as [end_time|] eqn:Hparse.
  2: { rewrite absentee_loop_cons. by rewrite Hparse. }
  destruct (bool_decide (class_end now end_time < now)
            && bool_decide (td_seconds (now - class_end now end_time) ≤ 300))
    eqn:Hdue.
  2: { rewrite absentee_loop_cons, Hparse, Hdue. apply IH. }
  destruct (decide ((dt_date now, se_id session)
                    ∈ absentee_check (last_run_times w))) as [Hflag|Hflag].
  { rewrite (bool_decide_eq_true_2 _ Hflag).
    rewrite absentee_loop_cons, Hparse, Hdue.
    rewrite bool_decide_eq_true_2; [apply IH|].
    by apply absentee_loop_flags. }
  rewrite (bool_decide_eq_false_2 _ Hflag).
  destruct (head (filter (λ m, mo_id m = se_module_id session) modules))
    as [module|] eqn:Hmod.
  2: { rewrite absentee_loop_cons, Hparse, Hdue.
       rewrite bool_decide_eq_false_2; [|done]. by rewrite Hmod. }
  destruct (filter (λ s, st_module_code s = mo_module_code module) students)
    as [|s ss] eqn:Hen.
  { rewrite absentee_loop_cons, Hparse, Hdue, Hmod, Hen.
    destruct (bool_decide (_ ∈ _)); apply IH. }
  rewrite absentee_loop_cons, Hparse, Hdue.
  rewrite bool_decide_eq_true_2; [apply IH|].
  apply absentee_loop_flags.
  cbn [set_absentee_check last_run_times absentee_check]. by left.
Qed.

Lemma mark_absent_with_weekly now class_end_datetime module_id ids mail
    summary w :
  mark now class_end_datetime module_id ids (with_weekly mail summary w)
  = with_weekly mail summary (mark now class_end_datetime module_id ids w).
Proof. by destruct ids. Qed.

(** the loop neither reads nor writes the weekly fields *)
Lemma absentee_loop_with_weekly now mail summary sessions :
  ∀ w, loop now sessions (with_weekly mail summary w)
       = with_weekly mail summary (loop now sessions w).
Proof.
  induction sessions as [|session rest IH]; intros w; [done|].
  rewrite !absentee_loop_cons.
  destruct (strptime_HMS (se_end_time session)) as [end_time|]; [|done].
  destruct (bool_decide (class_end now end_time < now)
            && bool_decide (td_seconds (now - class_end now end_time) ≤ 300));
    [|apply IH].
  cbn [with_weekly last_run_times absentee_check attendance_records].
  destruct (bool_decide (_ ∈ _)); [apply IH|].
  destruct (head _) as [module|]; [|done].
  destruct (filter _ students) as [|s ss]; [apply IH|].
  rewrite <- IH. f_equal.
  rewrite mark_absent_with_weekly.
  unfold set_absentee_check, with_weekly.
  cbn [attendance_records risk absence_mail weekly_mail last_run_times
       absentee_check weekly_summary].
  by rewrite mark_absent_last_run.
Qed.

Lemma absentee_loop_weekly now sessions w :
  weekly_mail (loop now sessions w) = weekly_mail w
  ∧ weekly_summary (last_run_times (loop now sessions w))
    = weekly_summary (last_run_times w).
Proof.
  revert w. induction sessions as [|session rest IH]; intros w; [done|].
  rewrite absentee_loop_cons.
  destruct (strptime_HMS (se_end_time session)) as [end_time|]; [|done].
  destruct (bool_decide (class_end now end_time < now)
            && bool_decide (td_seconds (now - class_end now end_time) ≤ 300));
    [|apply IH].
  destruct (bool_decide (_ ∈ _)); [apply IH|].
  destruct (head _) as [module|]; [|done].
  destruct (filter _ students) as [|s ss]; [apply IH|].
  destruct (IH (set_absentee_check (dt_date now, se_id session)
                  (mark now (class_end now end_time) (se_module_id session)
                     (absent_ids session_zone (attendance_records w)
                        (s :: ss) (se_module_id session) (dt_date now)) w)))
    as [-> ->].
  cbn [set_absentee_check weekly_mail last_run_times weekly_summary].
  by rewrite mark_absent_weekly_mail, mark_absent_last_run.
Qed.

(** X25. A tick repeated at the same clock reading changes nothing: the
    second run appends no attendance row, sends no message, writes no
    ledger entry and leaves [last_run_times] as the first run set it. *)
Theorem tick_idempotent now weekly_today w :
  unified_scheduler_job session_zone send_email iteration class_timetable
    modules students lecture_schedules now weekly_today
    (unified_scheduler_job session_zone send_email iteration class_timetable
       modules students lecture_schedules now weekly_today w)
  = unified_scheduler_job session_zone send_email iteration class_timetable
      modules students lecture_schedules now weekly_today w.
Proof.
  unfold unified_scheduler_job, absentee_check_part.
  set (sessions := filter _ class_timetable).
  pose proof (absentee_loop_idempotent now sessions w) as Hidem.
  set (a := loop now sessions w) in *.
  unfold weekly_summary_part at 2.
  destruct (bool_decide (weekday (dt_date now) = 6)
            && bool_decide (18 ≤ time_hour (dt_time now))) eqn:Hguard.
  2: { rewrite Hidem. unfold weekly_summary_part. by rewrite Hguard. }
  destruct (decide (weekly_summary (last_run_times a) = Some (dt_date now)))
    as [Hrun|Hrun].
  { rewrite (bool_decide_eq_true_2 _ Hrun), Hidem.
    unfold weekly_summary_part.
    by rewrite Hguard, (bool_decide_eq_true_2 _ Hrun). }
  rewrite (bool_decide_eq_false_2 _ Hrun).
  change (State (attendance_records a) (risk a) (absence_mail a) ?mail
            (LastRun (absentee_check (last_run_times a)) ?summary))
    with (with_weekly mail summary a).
  rewrite absentee_loop_with_weekly, Hidem.
  unfold weekly_summary_part. rewrite Hguard.
  cbn [with_weekly last_run_times weekly_summary].
  by rewrite (bool_decide_eq_true_2 (Some (dt_date now) = Some (dt_date now))
               eq_refl), (bool_decide_eq_false_2 _ Hrun).
Qed.

(** X26. Weekly summaries leave a tick only on a Sunday from 18:00 on, and
    only when [last_run_times] does not yet hold the day's date; a tick on
    a Sunday evening always leaves the date there. *)
Theorem weekly_summary_guard now weekly_today w :
  let after := unified_scheduler_job session_zone send_email iteration
                 class_timetable modules students lecture_schedules now
                 weekly_today w in
  (weekly_mail after ≠ weekly_mail w →
   weekday (dt_date now) = 6 ∧ mk_time 18 0 0 ≤ dt_time now
   ∧ weekly_summary (last_run_times w) ≠ Some (dt_date now))
  ∧ (weekday (dt_date now) = 6 → mk_time 18 0 0 ≤ dt_time now →
     weekly_summary (last_run_times after) = Some (dt_date now)).
Proof.
  cbv zeta. unfold unified_scheduler_job, absentee_check_part.
  set (sessions := filter _ class_timetable).
  destruct (absentee_loop_weekly now sessions w) as [Hmail Hsum].
  set (a := loop now sessions w) in *.
  assert (18 ≤ time_hour (dt_time now) ↔ mk_time 18 0 0 ≤ dt_time now)
    as Hhour.
  { unfold time_hour, mk_time, seconds, us_per_second.
    split; intros H.
    - apply (Z.mul_le_mono_nonneg_l _ _ (3600 * 1000000)) in H; [|lia].
      pose proof (Z.mul_div_le (dt_time now) (3600 * 1000000) ltac:(lia)).
      lia.
    - apply Z.div_le_lower_bound; lia. }
  unfold weekly_summary_part.
  destruct (decide (weekday (dt_date now) = 6)) as [Hday|Hday].
  2: { rewrite (bool_decide_eq_false_2 _ Hday). cbn [andb].
       split; [by rewrite Hmail|done]. }
  rewrite (bool_decide_eq_true_2 _ Hday). cbn [andb].
  destruct (decide (18 ≤ time_hour (dt_time now))) as [Hh|Hh].
  2: { rewrite (bool_decide_eq_false_2 _ Hh).
       split; [by rewrite Hmail|]. intros _ Hle. by apply Hhour in Hle. }
  rewrite (bool_decide_eq_true_2 _ Hh).
  destruct (decide (weekly_summary (last_run_times a) = Some (dt_date now)))
    as [Hrun|Hrun].
  { rewrite (bool_decide_eq_true_2 _ Hrun).
    split; [by rewrite Hmail|done]. }
  rewrite (bool_decide_eq_false_2 _ Hrun).
  cbn [weekly_mail last_run_times weekly_summary].
  split; [|done]. intros _. rewrite <- Hsum. by apply Hhour in Hh.
Qed.

(** Python iterates the elements of a set, each once *)
Hypothesis iteration_perm : ∀ l, iteration l ≡ₚ l.

Lemma class_end_same_day now end_time :
  0 ≤ end_time →
  class_end now end_time < now →
  td_seconds (now - class_end now end_time) ≤ 300 →
  now - class_end now end_time < seconds 301.
Proof.
  unfold class_end, combine, dt_date, td_seconds, mk_time, seconds,
    time_hour, time_minute. intros Hpos Hlt Hle.
  pose proof us_per_day_pos as Hday.
  pose proof (Z.div_mod now us_per_day ltac:(lia)) as Hdm.
  pose proof (Z.mod_pos_bound now us_per_day ltac:(lia)) as Hmod.
  assert (0 ≤ end_time / (3600 * us_per_second)) as Hh
    by (apply Z.div_pos; unfold us_per_second; lia).
  pose proof (Z.mod_pos_bound (end_time / (60 * us_per_second)) 60
                ltac:(lia)) as Hm.
  set (ce := now / us_per_day * us_per_day
             + ((end_time / (3600 * us_per_second) * 60
                 + end_time / (60 * us_per_second) mod 60) * 60 + 0)
               * us_per_second) in *.
  assert (0 ≤ now - ce < us_per_day) as Hsmall.
  { unfold ce, us_per_second in *. nia. }
  rewrite (Z.mod_small _ _ Hsmall) in Hle.
  unfold us_per_second in *.
  apply Z.nle_gt. intros Hbig.
  assert (301 ≤ (now - ce) / 1000000); [|lia].
  apply Z.div_le_lower_bound; lia.
Qed.

Lemma not_recorded_iff attendance_records module_id today student_id :
  student_id
  ∉ ar_student_id <$> recorded_res session_zone attendance_records
                        module_id today
  ↔ recorded_res session_zone
      (filter (λ r, ar_student_id r = student_id) attendance_records)
      module_id today = [].
Proof.
  unfold recorded_res. split.
  - intros Hnot.
    destruct (filter _ (filter _ attendance_records)) as [|r l] eqn:E;
      [done|].
    assert (r ∈ filter (λ r, ar_module_id r = module_id
                             ∧ naive_timestamp session_zone today
                                 (mk_time 0 0 0) ≤ ar_created_at r
                             ∧ ar_created_at r
                               ≤ naive_timestamp session_zone today
                                   (mk_time 23 59 59))
                  (filter (λ r, ar_student_id r = student_id)
                     attendance_records)) as Hr
      by (rewrite E; by left).
    apply list_elem_of_filter in Hr as [Hwin Hr].
    apply list_elem_of_filter in Hr as [Hid Hr].
    destruct Hnot. apply list_elem_of_fmap. exists r. split; [done|].
    by apply list_elem_of_filter.
  - intros Hnil Hin.
    apply list_elem_of_fmap in Hin as (r & -> & Hr).
    apply list_elem_of_filter in Hr as [Hwin Hr].
    assert (r ∈ filter (λ r0, ar_module_id r0 = module_id
                              ∧ naive_timestamp session_zone today
                                  (mk_time 0 0 0) ≤ ar_created_at r0
                              ∧ ar_created_at r0
                                ≤ naive_timestamp session_zone today
                                    (mk_time 23 59 59))
                  (filter (λ r0, ar_student_id r0 = ar_student_id r)
                     attendance_records)) as Hin.
    { apply list_elem_of_filter. split; [done|].
      by apply list_elem_of_filter. }
    rewrite Hnil in Hin. by apply elem_of_nil in Hin.
Qed.

Lemma recorded_res_app records added module_id today :
  recorded_res session_zone (records ++ added) module_id today
  = recorded_res session_zone records module_id today
    ++ recorded_res session_zone added module_id today.
Proof. unfold recorded_res. by rewrite filter_app. Qed.

(** a row that may be appended to a longer table may be appended to a
    shorter one *)
Lemma sweep_row_shorter now before added r :
  sweep_row session_zone class_timetable modules students now
    (before ++ added) r →
  sweep_row session_zone class_timetable modules students now before r.
Proof.
  intros (session & end_time & module & s & H1 & H2 & H3 & H4 & H5 & H6 & H7
          & H8 & H9 & Hnone & ->).
  exists session, end_time, module, s. repeat split; try done.
  rewrite filter_app, recorded_res_app in Hnone.
  by apply app_eq_nil in Hnone as [? _].
Qed.

Lemma mark_absent_rows now class_end_datetime module_id ids w :
  attendance_records (mark now class_end_datetime module_id ids w)
  = attendance_records w
    ++ ((λ student_id,
           AttendanceRecord student_id module_id absent class_end_datetime)
          <$> iteration ids).
Proof.
  destruct ids as [|i ids]; [|done].
  cbn [mark_absent].
  pose proof (iteration_perm []) as Hnil.
  apply Permutation_nil_r in Hnil. rewrite Hnil. by rewrite app_nil_r.
Qed.

Lemma absentee_loop_appends now sessions :
  (∀ session, session ∈ sessions →
              session ∈ class_timetable
              ∧ se_day_of_week session = weekday (dt_date now) + 1) →
  ∀ w, ∃ added,
    attendance_records (loop now sessions w) = attendance_records w ++ added
    ∧ Forall (sweep_row session_zone class_timetable modules students now
                (attendance_records w)) added.
Proof.
  induction sessions as [|session rest IH]; intros Hsub w.
  { exists []. by rewrite app_nil_r. }
  assert (∀ session, session ∈ rest →
                     session ∈ class_timetable
                     ∧ se_day_of_week session = weekday (dt_date now) + 1)
    as Hrest by (intros x Hx; apply Hsub; by right).
  destruct (Hsub session (list_elem_of_here _ _)) as [Hin Hday].
  specialize (IH Hrest).
  rewrite absentee_loop_cons.
  destruct (strptime_HMS (se_end_time session)) as [end_time|] eqn:Hparse.
  2: { exists []. by rewrite app_nil_r. }
  destruct (bool_decide (class_end now end_time < now)
            && bool_decide (td_seconds (now - class_end now end_time) ≤ 300))
    eqn:Hdue; [|apply IH].
  apply andb_true_iff in Hdue as [Hlt Hle].
  apply bool_decide_eq_true in Hlt. apply bool_decide_eq_true in Hle.
  destruct (bool_decide (_ ∈ _)); [apply IH|].
  destruct (head (filter (λ m, mo_id m = se_module_id session) modules))
    as [module|] eqn:Hmod.
  2: { exists []. by rewrite app_nil_r. }
  apply head_Some_elem_of, list_elem_of_filter in Hmod as [Hmid Hmod].
  destruct (filter (λ s, st_module_code s = mo_module_code module) students)
    as [|s0 ss] eqn:Hen; [apply IH|].
  set (ids := absent_ids session_zone (attendance_records w) (s0 :: ss)
                (se_module_id session) (dt_date now)).
  destruct (IH (set_absentee_check (dt_date now, se_id session)
                  (mark now (class_end now end_time) (se_module_id session)
                     ids w)))
    as (added2 & -> & Hall2).
  cbn [set_absentee_check attendance_records] in *.
  rewrite mark_absent_rows in *.
  set (rows := (λ student_id,
                  AttendanceRecord student_id (se_module_id session) absent
                    (class_end now end_time)) <$> iteration ids) in *.
  exists (rows ++ added2). split; [by rewrite app_assoc|].
  apply Forall_app. split.
  - apply Forall_forall. intros r Hr. unfold rows in Hr.
    apply list_elem_of_fmap in Hr as (student_id & -> & Hid).
    rewrite iteration_perm in Hid. unfold ids, absent_ids in Hid.
    apply elem_of_remove_dups, list_elem_of_filter in Hid as [Hnot Hid].
    apply list_elem_of_fmap in Hid as (s & -> & Hs).
    rewrite <- Hen in Hs. apply list_elem_of_filter in Hs as [Hcode Hs].
    exists session, end_time, module, s. repeat split; try done.
    + apply class_end_same_day; try done.
      by apply strptime_HMS_range in Hparse as [? _].
    + by apply not_recorded_iff.
  - eapply Forall_impl; [exact Hall2|]. intros r.
    apply sweep_row_shorter.
Qed.

(** X27. A tick only appends to the attendance table, and every row it
    appends is an [absent] row stamped at the end of a session of the
    weekday that ended less than 301 seconds before the tick, for a
    student enrolled in the session's module who had no row of the module
    within the day. *)
Theorem tick_appends_due_absences now weekly_today w :
  ∃ added,
    attendance_records
      (unified_scheduler_job session_zone send_email iteration
         class_timetable modules students lecture_schedules now weekly_today
         w)
    = attendance_records w ++ added
    ∧ Forall (sweep_row session_zone class_timetable modules students now
                (attendance_records w)) added.
Proof.
  unfold unified_scheduler_job, absentee_check_part.
  set (sessions := filter _ class_timetable).
  destruct (absentee_loop_appends now sessions) with (w := w)
    as (added & Heq & Hall).
  { intros session Hs. apply list_elem_of_filter in Hs as [? ?]. by split. }
  exists added. split; [|done]. rewrite <- Heq.
  unfold weekly_summary_part.
  destruct (_ && _); [|done]. by destruct (bool_decide _).
Qed.

Lemma absentee_loop_covers now session end_time module s sessions :
  NoDup (se_id <$> sessions) →
  (∀ x, x ∈ sessions →
        (x ∈ class_timetable
         ∧ se_day_of_week x = weekday (dt_date now) + 1)
        ∧ is_Some (strptime_HMS (se_end_time x))
        ∧ ∃ m, m ∈ modules ∧ mo_id m = se_module_id x) →
  strptime_HMS (se_end_time session) = Some end_time →
  class_end now end_time < now →
  td_seconds (now - class_end now end_time) ≤ 300 →
  head (filter (λ m, mo_id m = se_module_id session) modules)
  = Some module →
  s ∈ students → st_module_code s = mo_module_code module →
  ∀ w,
    session ∈ sessions →
    (dt_date now, se_id session) ∉ absentee_check (last_run_times w) →
    accounted_for session_zone (attendance_records (loop now sessions w))
      (st_id s) (se_module_id session) (dt_date now)
      (class_end now end_time).
Proof.
  intros Hkeys Hok Hparse Hlt Hle Hmod Hs Hcode.
  induction sessions as [|x rest IH]; intros w Hin Hflag;
    [by apply elem_of_nil in Hin|].
  rewrite fmap_cons in Hkeys. apply NoDup_cons in Hkeys as [Hx Hkeys].
  assert (∀ y, y ∈ rest →
               (y ∈ class_timetable
                ∧ se_day_of_week y = weekday (dt_date now) + 1)
               ∧ is_Some (strptime_HMS (se_end_time y))
               ∧ ∃ m, m ∈ modules ∧ mo_id m = se_module_id y) as Hrest
    by (intros y Hy; apply Hok; by right).
  specialize (IH Hkeys Hrest).
  rewrite absentee_loop_cons.
  apply elem_of_cons in Hin as [<-|Hin].
  - rewrite Hparse.
    rewrite (bool_decide_eq_true_2 _ Hlt), (bool_decide_eq_true_2 _ Hle).
    cbn [andb]. rewrite (bool_decide_eq_false_2 _ Hflag), Hmod.
    assert (s ∈ filter (λ s, st_module_code s = mo_module_code module)
                  students) as Hen by (by apply list_elem_of_filter).
    destruct (filter (λ s, st_module_code s = mo_module_code module) students)
      as [|s0 ss] eqn:Een; [by apply elem_of_nil in Hen|].
    set (ids := absent_ids session_zone (attendance_records w) (s0 :: ss)
                  (se_module_id session) (dt_date now)).
    set (w1 := set_absentee_check (dt_date now, se_id session)
                 (mark now (class_end now end_time) (se_module_id session)
                    ids w)).
    destruct (absentee_loop_appends now rest) with (w := w1)
      as (added & -> & _); [intros y Hy; by apply Hrest|].
    unfold w1. cbn [set_absentee_check attendance_records].
    rewrite mark_absent_rows.
    destruct (decide (st_id s
                      ∈ ar_student_id
                          <$> recorded_res session_zone (attendance_records w)
                                (se_module_id session) (dt_date now)))
      as [Hrec|Hrec].
    + apply list_elem_of_fmap in Hrec as (r & Hid & Hr).
      apply list_elem_of_filter in Hr as [(Hm & Hlo & Hhi) Hr].
      exists r. split; [|by auto].
      apply elem_of_app. left. apply elem_of_app. by left.
    + exists (AttendanceRecord (st_id s) (se_module_id session) absent
                (class_end now end_time)).
      split; [|by auto].
      apply elem_of_app. left. apply elem_of_app. right.
      apply list_elem_of_fmap. exists (st_id s). split; [done|].
      rewrite iteration_perm. unfold ids, absent_ids.
      apply elem_of_remove_dups, list_elem_of_filter. split; [done|].
      apply list_elem_of_fmap. by exists s.
  - assert (se_id session ≠ se_id x) as Hne.
    { intros Heq. apply Hx. rewrite <- Heq.
      apply list_elem_of_fmap. by exists session. }
    destruct (Hok x (list_elem_of_here _ _))
      as (_ & [end_x ->] & (m & Hm & Hmid)).
    destruct (bool_decide (class_end now end_x < now)
              && bool_decide (td_seconds (now - class_end now end_x) ≤ 300));
      [|by apply IH].
    destruct (bool_decide (_ ∈ _)); [by apply IH|].
    destruct (head (filter (λ m, mo_id m = se_module_id x) modules))
      as [module_x|] eqn:Hmx.
    2: { apply head_None in Hmx.
         assert (m ∈ filter (λ m, mo_id m = se_module_id x) modules) as Hmf
           by (by apply list_elem_of_filter).
         rewrite Hmx in Hmf. by apply elem_of_nil in Hmf. }
    destruct (filter (λ s, st_module_code s = mo_module_code module_x)
                students) as [|s0 ss]; [by apply IH|].
    apply IH; [done|].
    cbn [set_absentee_check last_run_times absentee_check].
    rewrite mark_absent_last_run.
    apply not_elem_of_cons. split; [|done]. congruence.
Qed.

(** X28. When session ids are unique and no session of the weekday makes
    the loop raise, a tick leaves every student enrolled in the module of
    a session that ended within the last five minutes, and is not yet
    flagged for the day, with a row of that module: one within the day, or
    the [absent] row stamped at the end of the session. *)
Theorem tick_accounts_for_enrolled now weekly_today w session end_time module
    s :
  NoDup (se_id <$> class_timetable) →
  no_exception class_timetable modules now →
  due class_timetable now session end_time →
  (dt_date now, se_id session) ∉ absentee_check (last_run_times w) →
  head (filter (λ m, mo_id m = se_module_id session) modules)
  = Some module →
  s ∈ students → st_module_code s = mo_module_code module →
  accounted_for session_zone
    (attendance_records
       (unified_scheduler_job session_zone send_email iteration
          class_timetable modules students lecture_schedules now
          weekly_today w))
    (st_id s) (se_module_id session) (dt_date now) (class_end now end_time).
Proof.
  intros Hkeys Hok (Hin & Hday & Hparse & Hlt & Hle) Hflag Hmod Hs Hcode.
  unfold unified_scheduler_job.
  assert (attendance_records
            (weekly_summary_part session_zone modules students
               lecture_schedules now weekly_today
               (absentee_check_part session_zone send_email iteration
                  class_timetable modules students lecture_schedules now w))
          = attendance_records
              (absentee_check_part session_zone send_email iteration
                 class_timetable modules students lecture_schedules now w))
    as ->.
  { unfold weekly_summary_part.
    destruct (_ && _); [|done]. by destruct (bool_decide _). }
  unfold absentee_check_part.
  eapply absentee_loop_covers; try done.
  - eapply sublist_NoDup; [exact Hkeys|].
    apply fmap_sublist, sublist_filter.
  - intros x Hx. apply list_elem_of_filter in Hx as [Hxd Hx].
    split; [done|]. by apply Hok.
  - by apply list_elem_of_filter.
Qed.

End SchedulerFacts.

Lemma listed_order_perm : ∀ l, listed_order l ≡ₚ l.
Proof. done. Qed.

Lemma tick_appends_due_absences_witness :
  ∃ added,
    Scheduler.attendance_records
      (Scheduler.unified_scheduler_job 0 relay_up listed_order [lecture_a]
         [sodm401] [thandi; sipho] routing_lecture (at_time monday 10 2 0)
         monday fresh_start)
    = week_records ++ added
    ∧ Forall (Scheduler.sweep_row 0 [lecture_a] [sodm401] [thandi; sipho]
                (at_time monday 10 2 0) week_records) added.
Proof.
  exact (tick_appends_due_absences 0 relay_up listed_order [lecture_a]
           [sodm401] [thandi; sipho] routing_lecture listed_order_perm
           (at_time monday 10 2 0) monday fresh_start).
Defined.

Lemma tick_accounts_for_enrolled_witness :
  Scheduler.accounted_for 0
    (Scheduler.attendance_records
       (Scheduler.unified_scheduler_job 0 relay_up listed_order [lecture_a]
          [sodm401] [thandi; sipho] routing_lecture (at_time monday 10 2 0)
          monday fresh_start))
    "s-002" 101 monday (at_time monday 10 0 0).
Proof.
  apply (tick_accounts_for_enrolled 0 relay_up listed_order [lecture_a]
           [sodm401] [thandi; sipho] routing_lecture listed_order_perm
           (at_time monday 10 2 0) monday fresh_start lecture_a
           (mk_time 10 0 0) sodm401 sipho).
  - apply NoDup_singleton.
  - intros x Hx _. apply list_elem_of_singleton in Hx as ->.
    split; [by eexists|]. exists sodm401. split; [by left|done].
  - repeat split; [by left|vm_compute; reflexivity..|vm_compute; discriminate].
  - intros H. by apply elem_of_nil in H.
  - reflexivity.
  - by right; left.
  - reflexivity.
Defined.

(** two minutes after the Monday class the tick marks the one student
    without a row absent, sends the notice and flags the session *)
Example tick_after_class :
  Scheduler.unified_scheduler_job 0 relay_up listed_order [lecture_a]
    [sodm401] [thandi; sipho] routing_lecture (at_time monday 10 2 0) monday
    fresh_start
  = Scheduler.State after_class (AtRisk.World [] []) [sipho_notice] []
      (Scheduler.LastRun [(monday, 1)] None).
Proof. vm_compute. reflexivity. Qed.

(** six minutes after the class the tick does nothing *)
Example tick_too_late :
  Scheduler.unified_scheduler_job 0 relay_up listed_order [lecture_a]
    [sodm401] [thandi; sipho] routing_lecture (at_time monday 10 6 0) monday
    fresh_start
  = fresh_start.
Proof. vm_compute. reflexivity. Qed.

(** ** The lecturer's at-risk check *)
Section BulkAtRiskFacts.

Import BulkAtRisk.

Variable get_user : string → option (option string).
Variable send_email : email → bool.

(** the loop with its [break] finds the highest threshold reached *)
Lemma threshold_loop_highest total_absences :
  threshold_loop [21; 18; 16] total_absences
  = highest_threshold_reached total_absences.
Proof. reflexivity. Qed.

Lemma check_student_log attendance_records module_id module_code
    lecturer_name classes_held total t s :
  let t' := check_student send_email attendance_records module_id module_code
              lecturer_name classes_held total t s in
  addressee <$> mail_log t'
  = (addressee <$> mail_log t)
    ++ option_list (warned attendance_records module_id s)
  ∧ (length (at_risk_students t') + length (email_errors t')
     = length (at_risk_students t) + length (email_errors t)
       + length (option_list (warned attendance_records module_id s)))%nat.
Proof.
  unfold check_student, warned. cbv zeta.
  rewrite threshold_loop_highest.
  destruct (highest_threshold_reached _) as [threshold|]; cbn [fmap option_fmap
    option_map option_list].
  2: { rewrite app_nil_r. split; [done|]. simpl. lia. }
  destruct (template _ _ _ _ _ _) as [subject body].
  destruct (send_email _);
    cbn [mail_log at_risk_students email_errors];
    rewrite fmap_app, ?length_app; (split; [done|simpl; lia]).
Qed.

Lemma check_students_log attendance_records module_id module_code
    lecturer_name classes_held total students_res :
  ∀ t,
    let t' := foldl (check_student send_email attendance_records module_id
                       module_code lecturer_name classes_held total)
                    t students_res in
    addressee <$> mail_log t'
    = (addressee <$> mail_log t)
      ++ omap (warned attendance_records module_id) students_res
    ∧ (length (at_risk_students t') + length (email_errors t')
       = length (at_risk_students t) + length (email_errors t)
         + length (omap (warned attendance_records module_id) students_res))
      %nat.
Proof.
  induction students_res as [|s ss IH]; intros t; cbn [foldl].
  { rewrite app_nil_r. split; [done|]. simpl. lia. }
  cbv zeta.
  destruct (IH (check_student send_email attendance_records module_id
                  module_code lecturer_name classes_held total t s))
    as [-> ->].
  destruct (check_student_log attendance_records module_id module_code
              lecturer_name classes_held total t s) as [-> ->].
  cbn [omap list_omap]. fold (omap (warned attendance_records module_id) ss).
  destruct (warned attendance_records module_id s) as [a|];
    cbn [option_list]; rewrite <- ?app_assoc; (split; [done|simpl; lia]).
Qed.

(** X29. The at-risk check of a lecturer sends nothing unless it is
    completed, which takes an accepted token, one module of the lecturer
    and at least one scheduled lecture of it. Completed, it has called
    [send_email] once for every enrolled student whose absences in the
    module have reached 16, in the order of the students and for the
    highest of the thresholds 16, 18 and 21 reached, and for no one else;
    every call is reported in [students_contacted] or in [errors]. *)
Theorem bulk_check_one_mail_each auth_header modules students
    lecture_schedules today attendance_records :
  let result := api_run_at_risk_check get_user send_email auth_header modules
                  students lecture_schedules today attendance_records in
  match result.1 with
  | Refused _ => result.2 = []
  | Completed _ students_contacted errors =>
      ∃ lecturer_id m,
        authenticate get_user "Authentication required." "Invalid token."
          auth_header = Authenticated lecturer_id
        ∧ single (filter (λ m, om_lecturer_id m = lecturer_id) modules)
          = Some m
        ∧ (∃ l, l ∈ lecture_schedules ∧ le_module_id l = mo_id (om_module m))
        ∧ addressee <$> result.2
          = omap (λ s,
                    (λ threshold, (threshold, st_email s))
                      <$> highest_threshold_reached
                            (AtRisk.total_absences attendance_records
                               (st_id s) (mo_id (om_module m))))
                 (filter (λ s, st_module_code s
                               = mo_module_code (om_module m)) students)
        ∧ (length students_contacted + length (default [] errors)
           = length result.2)%nat
  end.
Proof.
  unfold api_run_at_risk_check.
  destruct (authenticate _ _ _ _) as [r| |lecturer_id] eqn:Hauth; try done.
  destruct (single (filter (λ m, om_lecturer_id m = lecturer_id) modules))
    as [m|] eqn:Hm; [|done].
  destruct (filter (λ s, st_module_code s = mo_module_code (om_module m))
              students) as [|s0 ss] eqn:Hen; [done|].
  cbv zeta. case_bool_decide as Htotal; [done|].
  destruct (single (filter (λ m0, mo_id (om_module m0) = mo_id (om_module m))
                      modules)) as [lecturer_res|]; [|done].
  set (t := foldl _ _ _).
  destruct (check_students_log attendance_records (mo_id (om_module m))
              (mo_module_code (om_module m))
              (default "Your Lecturer" (mo_lecturers (om_module lecturer_res)))
              (Z.of_nat
                 (length (filter (λ l, le_module_id l = mo_id (om_module m)
                                       ∧ le_lecture_date l ≤ today)
                                 lecture_schedules)))
              (Z.of_nat
                 (length (filter (λ l, le_module_id l = mo_id (om_module m))
                                 lecture_schedules)))
              (s0 :: ss) (Tally 0 [] [] [])) as [Hlog Hlen].
  fold t in Hlog, Hlen. cbn [mail_log at_risk_students email_errors fmap
    list_fmap app length] in Hlog, Hlen.
  assert (∃ l, l ∈ lecture_schedules ∧ le_module_id l = mo_id (om_module m))
    as Hlecture.
  { destruct (filter (λ l, le_module_id l = mo_id (om_module m))
                lecture_schedules) as [|l ls] eqn:El; [done|].
    exists l.
    assert (l ∈ filter (λ l, le_module_id l = mo_id (om_module m))
                  lecture_schedules) as Hl by (rewrite El; by left).
    by apply list_elem_of_filter in Hl as [? ?]. }
  assert (length (mail_log t)
          = length (omap (warned attendance_records (mo_id (om_module m)))
                      (s0 :: ss))) as Hsame
    by (by rewrite <- Hlog, length_fmap).
  unfold completed. cbn [snd].
  destruct (email_errors t) as [|e es] eqn:Herr; cbn [fst];
    exists lecturer_id, m; (split; [done|]); (split; [done|]);
    (split; [done|]); (split; [rewrite Hen; exact Hlog|]);
    cbn [default]; rewrite Hsame; simpl in *; lia.
Qed.

End BulkAtRiskFacts.

(** ** The raffle *)
Section PickWinnersFacts.

Import Responses PickWinners.

Variable get_user : string → option (option string).
Variable sample : list participant → nat → list participant.




Hypothesis sample_spec :
  ∀ l k, (k ≤ length l)%nat → sample l k ⊆+ l ∧ length (sample l k) = k.



End PickWinnersFacts.



(** the number of winners an incentive text names *)
Example num_winners_examples :
  PickWinners.num_winners "Voucher x2" = 2
  ∧ PickWinners.num_winners "Assignment Extension" = 1
  ∧ PickWinners.num_winners "Extension x10, max 3" = 10
  ∧ PickWinners.num_winners "WiFi Pass x0" = 0
  ∧ PickWinners.num_winners "2x" = 1.
Proof. repeat split. Qed.

(** a student with sixteen absences is written to at level 16 *)
Example bulk_check_example :
  (BulkAtRisk.api_run_at_risk_check one_lecturer relay_up
     (Some "Bearer tok-1") lecturer_modules [thandi; sipho] lecture_week
     (monday + 1) sixteen_absences).1
  = BulkAtRisk.Completed "At-risk check completed. Sent 1 warning email(s)."
      ["Thandi Nkosi (16 absences - 16 threshold)"] None.
Proof. vm_compute. reflexivity. Qed.
